(** * om4labs.diags.moc: the meridional overturning diagnostic

    A shallow embedding of [om4labs/diags/moc/moc.py] ([read], [calculate],
    [plot] with its three helpers, and [run]) together with the part of
    numpy, numpy.ma and xarray that the module calls, and the properties of
    the diagnostic stated over it.

    Conventions of the embedding.
    - A float64 is [NaN] or a finite number, kept as an exact rational.  The
      module only selects, negates, compares and takes minima, maxima and
      absolute values of its data, and multiplies by the literals [-1.0] and
      [0.0] (or [0]); all of these are exact on finite doubles.  The one
      rounding operation, the subtraction in [_findExtrema], only feeds an
      [argmin], and a difference of doubles is zero exactly when the operands
      are equal.  Infinities are left out.
    - A numpy array is its shape and its indexing function; an index is the
      list of positions, one per axis.
    - An xarray variable is indexed by dimension name: its value at an
      assignment of positions to dimension names.
    - A masked array keeps its data and its mask side by side, as numpy.ma
      does.
    - Calls that can raise return in the monad [M], which also records the
      calls made to the collaborators and to matplotlib. *)

From Stdlib Require Import QArith Qcanon.
From stdpp Require Import base strings gmap list numbers.

(** ** float64 *)

Module Float.

Inductive float : Type :=
| NaN
| Fin (q : Qc).

Definition zero : float := Fin 0%Qc.
Definition one : float := Fin 1%Qc.
Definition of_Z (n : Z) : float := Fin (Q2Qc (inject_Z n)).
Definition of_Q (q : Q) : float := Fin (Q2Qc q).

Definition isnan (x : float) : bool :=
  match x with NaN => true | Fin _ => false end.

Definition lift1 (f : Qc → Qc) (x : float) : float :=
  match x with NaN => NaN | Fin a => Fin (f a) end.

Definition lift2 (f : Qc → Qc → Qc) (x y : float) : float :=
  match x, y with
  | Fin a, Fin b => Fin (f a b)
  | _, _ => NaN
  end.

Definition add : float → float → float := lift2 Qcplus.
Definition sub : float → float → float := lift2 Qcminus.
Definition mul : float → float → float := lift2 Qcmult.
Definition neg : float → float := lift1 Qcopp.

Definition Qc_abs (a : Qc) : Qc :=
  if bool_decide (a < 0)%Qc then (- a)%Qc else a.
Definition Qc_min (a b : Qc) : Qc := if bool_decide (a ≤ b)%Qc then a else b.
Definition Qc_max (a b : Qc) : Qc := if bool_decide (b ≤ a)%Qc then a else b.

(** [np.fabs], [np.minimum] and [np.maximum]: a NaN operand gives NaN. *)
Definition fabs : float → float := lift1 Qc_abs.
Definition minimum : float → float → float := lift2 Qc_min.
Definition maximum : float → float → float := lift2 Qc_max.

(** Comparisons are false as soon as one side is NaN. *)
Definition cmp (r : Qc → Qc → bool) (x y : float) : bool :=
  match x, y with
  | Fin a, Fin b => r a b
  | _, _ => false
  end.

Definition ltb : float → float → bool := cmp (λ a b, bool_decide (a < b)%Qc).
Definition leb : float → float → bool := cmp (λ a b, bool_decide (a ≤ b)%Qc).
Definition geb (x y : float) : bool := leb y x.
Definition eqb : float → float → bool := cmp (λ a b, bool_decide (a = b)).

End Float.

Import Float.

(** ** Python values, exceptions and the monad of the pipeline *)

(** The Python values that travel through the argument dictionary and the
    dataset attributes. *)
#[local] Unset Elimination Schemes.
Inductive pyobj : Type :=
| PyNone
| PyBool (b : bool)
| PyInt (n : Z)
| PyStr (s : string)
| PyTuple (l : list pyobj)
| PyList (l : list pyobj).
#[local] Set Elimination Schemes.

Inductive exn : Type :=
| AssertionError (msg : string)
| KeyError (key : string)
| IndexError
| ValueError
| TypeError
| AttributeError (name : string)
| External (msg : string).

Inductive result (A : Type) : Type :=
| Ok (a : A)
| Raise (e : exn).
Arguments Ok {A} a.
Arguments Raise {A} e.

(** A numpy array: shape and indexing function. *)
Record ndarray (A : Type) : Type := mk_ndarray {
  shape : list nat;
  item : list nat → A
}.
Arguments mk_ndarray {A} shape item.
Arguments shape {A} _.
Arguments item {A} _ _.

(** A masked array of numpy.ma: [mask idx = true] hides the entry. *)
Record MaskedArray (A : Type) : Type := mk_masked {
  data : ndarray A;
  mask : list nat → bool
}.
Arguments mk_masked {A} data mask.
Arguments data {A} _.
Arguments mask {A} _ _.

(** A scalar taken out of a masked array: the constant [np.ma.masked] or a
    value. *)
Inductive mscalar : Type :=
| Masked
| Value (x : float).

(** What a text call prints. *)
Inductive label : Type :=
| Str (s : string)
| Fmt1 (v : mscalar)                 (* "%.1f" % v *)
| Years (first last : pyobj).        (* f"Years {dates[0]} - {dates[1]}" *)

Inductive levels : Type :=
| PmCI (lo hi step : float)          (* m6plot.formatting.pmCI(lo, hi, step) *)
| Level (l : list float).

(** The calls the pipeline makes to its collaborators and to matplotlib, in
    the order they are made. *)
Inductive event : Type :=
| SwitchBackend (name : string)
| OpenMfdataset (infile : pyobj)
| HorizontalGrid (point_type : string)
| ReadTopography (point_type : string)
| GenerateBasinMasks (basin : string)
| DateRange
| Calcmoc (basin : string) (layer interface : pyobj)
| Figure
| Subplot (rows cols index : nat)
| Contourf (ax : nat) (y z psi : ndarray float) (ci : levels)
| Contour (ax : nat) (y z psi : ndarray float) (ci : levels)
| Pcolormesh (ax : nat) (x y : ndarray float) (c : MaskedArray float)
| SetXlim (ax : nat) (lo hi : float)
| SetYscale (ax : nat) (name : string) (zval : list float)
| InvertYaxis (ax : nat)
| Colorbar (lab : string)
| Ylabel (lab : string)
| Xlabel (lab : string)
| Text (ax : nat) (x y : float) (s : label)
| Marker (ax : nat) (x y : float) (fmt : string)
| SubplotsAdjust
| Suptitle (lab : pyobj)
| ImageHandler (outdir : pyobj) (stem : string).

(** A computation logs the calls it makes and returns or raises; nothing is
    logged after a raise. *)
Definition M (A : Type) : Type := (list event * result A)%type.

Definition ret {A} (a : A) : M A := ([], Ok a).
Definition raise {A} (e : exn) : M A := ([], Raise e).
Definition emit (e : event) : M unit := ([e], Ok tt).
Definition lift {A} (r : result A) : M A := ([], r).

Definition bind {A B} (m : M A) (f : A → M B) : M B :=
  match m with
  | (t, Raise e) => (t, Raise e)
  | (t, Ok a) => let '(t', r) := f a in (t ++ t', r)
  end.

#[global] Instance M_ret : MRet M := @ret.
#[global] Instance M_bind : MBind M := λ A B f m, bind m f.

#[global] Instance result_ret : MRet result := @Ok.
#[global] Instance result_bind : MBind result := λ A B f r,
  match r with
  | Ok a => f a
  | Raise e => Raise e
  end.

(** A call to a collaborator: logged, then its result. *)
Definition call {A} (e : event) (r : result A) : M A := emit e;; lift r.

Fixpoint mapM {A B} (f : A → M B) (l : list A) : M (list B) :=
  match l with
  | [] => ret []
  | a :: l' => b ← f a; bs ← mapM f l'; ret (b :: bs)
  end.

Definition assert (b : bool) (msg : string) : M unit :=
  if b then ret tt else raise (AssertionError msg).

Definition trace {A} (m : M A) : list event := m.1.
Definition outcome {A} (m : M A) : result A := m.2.

(** ** numpy *)

Module np.

Fixpoint in_bounds (sh idx : list nat) : bool :=
  match sh, idx with
  | [], [] => true
  | n :: sh', i :: idx' => (i <? n) && in_bounds sh' idx'
  | _, _ => false
  end.

(** [a[i, j, ...]] with one position per axis. *)
Definition getitem {A} (a : ndarray A) (idx : list nat) : result A :=
  if in_bounds (shape a) idx then Ok (item a idx) else Raise IndexError.

Definition size {A} (a : ndarray A) : nat := foldr Nat.mul 1 (shape a).

(** [len(a)] and [len(a.shape)] *)
Definition len {A} (a : ndarray A) : nat := hd 0 (shape a).
Definition ndim {A} (a : ndarray A) : nat := length (shape a).

(** Every index of an array of shape [sh], in C (row-major) order. *)
Fixpoint indices (sh : list nat) : list (list nat) :=
  match sh with
  | [] => [[]]
  | n :: sh' => flat_map (λ i, cons i <$> indices sh') (seq 0 n)
  end.

Fixpoint unravel_index (n : nat) (sh : list nat) : list nat :=
  match sh with
  | [] => []
  | _ :: sh' =>
      let s := foldr Nat.mul 1 sh' in
      (n / s) :: unravel_index (n mod s) sh'
  end.

(** The [n]-th entry of [a.ravel()]. *)
Definition flat {A} (a : ndarray A) (n : nat) : A :=
  item a (unravel_index n (shape a)).

Definition map {A B} (f : A → B) (a : ndarray A) : ndarray B :=
  mk_ndarray (shape a) (λ idx, f (item a idx)).

(** Broadcasting: shapes are aligned on their last axis; two sizes agree
    when they are equal or one of them is 1. *)
Fixpoint broadcast_rev (s t : list nat) : option (list nat) :=
  match s, t with
  | [], _ => Some t
  | _, [] => Some s
  | m :: s', n :: t' =>
      if m =? n then cons m <$> broadcast_rev s' t'
      else if m =? 1 then cons n <$> broadcast_rev s' t'
      else if n =? 1 then cons m <$> broadcast_rev s' t'
      else None
  end.

Definition broadcast_shapes (s t : list nat) : option (list nat) :=
  @rev nat <$> broadcast_rev (rev s) (rev t).

(** Where an index of the broadcast result reads in an operand of shape
    [s]. *)
Definition bindex (s idx : list nat) : list nat :=
  zip_with (λ n i, if n =? 1 then 0 else i) s (drop (length idx - length s) idx).

Definition map2 {A B C} (f : A → B → C) (a : ndarray A) (b : ndarray B)
  : result (ndarray C) :=
  match broadcast_shapes (shape a) (shape b) with
  | Some sh =>
      Ok (mk_ndarray sh (λ idx,
            f (item a (bindex (shape a) idx)) (item b (bindex (shape b) idx))))
  | None => Raise ValueError
  end.

(** [np.where(cond, x, y)] for the operand kinds the module uses. *)
Definition where_scalar_array {A} (c : ndarray bool) (x : A) (y : ndarray A)
  : result (ndarray A) :=
  map2 (λ (b : bool) v, if b then x else v) c y.

Definition where_array_scalar {A} (c : ndarray bool) (x : ndarray A) (y : A)
  : result (ndarray A) :=
  map2 (λ (b : bool) v, if b then v else y) c x.

Definition where_scalar_scalar {A} (c : ndarray bool) (x y : A) : ndarray A :=
  map (λ b : bool, if b then x else y) c.

(** [a.max(axis=-1)] and [a.min(axis=-1)]: numpy raises on a 0-d array and
    on a last axis of size zero; a NaN in a row makes the row's result
    NaN. *)
Definition reduce_last (f : float → float → float) (a : ndarray float)
  : result (ndarray float) :=
  match rev (shape a) with
  | [] => Raise ValueError
  | 0 :: _ => Raise ValueError
  | S n :: rsh =>
      Ok (mk_ndarray (rev rsh) (λ idx,
            foldl f (item a (idx ++ [0]))
              ((λ i, item a (idx ++ [i])) <$> seq 1 n)))
  end.

Definition max_last : ndarray float → result (ndarray float) :=
  reduce_last maximum.
Definition min_last : ndarray float → result (ndarray float) :=
  reduce_last minimum.

(** [np.arange(start, stop, step)] for a positive step. *)
Definition arange (start stop step : Z) : ndarray float :=
  let n := Z.to_nat ((stop - start + step - 1) / step) in
  mk_ndarray [n] (λ idx, of_Z (start + step * Z.of_nat (nth 0 idx 0))).

(** [np.meshgrid(x, y)] with the default 'xy' indexing. *)
Definition meshgrid {A} (x y : ndarray A) : ndarray A * ndarray A :=
  let sh := [size y; size x] in
  (mk_ndarray sh (λ idx, flat x (nth 1 idx 0)),
   mk_ndarray sh (λ idx, flat y (nth 0 idx 0))).

(** [a[None, :]] *)
Definition newaxis_first {A} (a : ndarray A) : result (ndarray A) :=
  match shape a with
  | [] => Raise IndexError
  | _ => Ok (mk_ndarray (1 :: shape a) (λ idx, item a (tail idx)))
  end.

Definition pad_left (d : nat) (l : list nat) : list nat :=
  replicate (d - length l) 1 ++ l.

Definition tile {A} (a : ndarray A) (reps : list nat) : ndarray A :=
  let d := length reps `max` length (shape a) in
  let sh := pad_left d (shape a) in
  mk_ndarray (zip_with Nat.mul (pad_left d reps) sh)
    (λ idx, item a (drop (d - length (shape a)) (zip_with Nat.modulo idx sh))).

End np.

(** ** numpy.ma *)

Module ma.

(** [m[i, j]] with fewer positions than axes: the sub-array at these
    leading positions. *)
Definition subarray {A} (m : MaskedArray A) (pre : list nat)
  : result (MaskedArray A) :=
  if np.in_bounds (take (length pre) (shape (data m))) pre
  then Ok (mk_masked
             (mk_ndarray (drop (length pre) (shape (data m)))
                (λ idx, item (data m) (pre ++ idx)))
             (λ idx, mask m (pre ++ idx)))
  else Raise IndexError.

(** [m[j, i]] with one position per axis. *)
Definition getitem (m : MaskedArray float) (idx : list nat) : result mscalar :=
  if np.in_bounds (shape (data m)) idx
  then Ok (if mask m idx then Masked else Value (item (data m) idx))
  else Raise IndexError.

Definition of_list (l : list (float * bool)) : MaskedArray float :=
  mk_masked
    (mk_ndarray [length l] (λ idx, (nth (nth 0 idx 0) l (NaN, true)).1))
    (λ idx, (nth (nth 0 idx 0) l (NaN, true)).2).

Definition cells (m : MaskedArray float) : list (float * bool) :=
  (λ idx, (item (data m) idx, mask m idx)) <$> np.indices (shape (data m)).

(** [m[c]] for a boolean array [c] of the shape of [m]: the selected
    entries, in C order. *)
Definition bool_index (m : MaskedArray float) (c : ndarray bool)
  : result (MaskedArray float) :=
  if bool_decide (shape c = shape (data m))
  then Ok (of_list ((λ idx, (item (data m) idx, mask m idx)) <$>
                      filter (λ idx, item c idx) (np.indices (shape c))))
  else Raise IndexError.

Definition getmask {A} (m : MaskedArray A) : ndarray bool :=
  mk_ndarray (shape (data m)) (mask m).

(** [np.isnan(m)]: computed on the data, the mask is kept. *)
Definition isnan (m : MaskedArray float) : MaskedArray bool :=
  mk_masked (np.map Float.isnan (data m)) (mask m).

(** [np.ma.masked_where(c, a)] *)
Definition masked_where {A} (c : ndarray bool) (a : ndarray A)
  : result (MaskedArray A) :=
  if bool_decide (shape c = shape a)
  then Ok (mk_masked a (item c))
  else Raise IndexError.

(** Arithmetic of numpy.ma computes on the data and then puts the data of
    the left operand back under the mask. *)
Definition rmul (s : float) (m : MaskedArray float) : MaskedArray float :=
  mk_masked
    (mk_ndarray (shape (data m))
       (λ idx, if mask m idx then s else mul s (item (data m) idx)))
    (mask m).

Definition mul_scalar (m : MaskedArray float) (s : float) : MaskedArray float :=
  mk_masked
    (mk_ndarray (shape (data m))
       (λ idx, if mask m idx then item (data m) idx
                else mul (item (data m) idx) s))
    (mask m).

Definition rmul_scalar (s : float) (v : mscalar) : mscalar :=
  match v with Masked => Masked | Value x => Value (mul s x) end.

(** [m - v]: everything is masked when [v] is. *)
Definition sub_scalar (m : MaskedArray float) (v : mscalar) : MaskedArray float :=
  match v with
  | Masked => mk_masked (data m) (λ _, true)
  | Value x =>
      mk_masked
        (mk_ndarray (shape (data m))
           (λ idx, if mask m idx then item (data m) idx
                    else sub (item (data m) idx) x))
        (mask m)
  end.

Definition abs (m : MaskedArray float) : MaskedArray float :=
  mk_masked
    (mk_ndarray (shape (data m))
       (λ idx, if mask m idx then item (data m) idx
                else fabs (item (data m) idx)))
    (mask m).

(** [np.amax(m)]: the maximum of the entries that are not masked, the
    constant [masked] when all are, and an error on an empty array. *)
Definition amax (m : MaskedArray float) : result mscalar :=
  match cells m with
  | [] => Raise ValueError
  | cs =>
      match fst <$> filter (λ c, negb c.2) cs with
      | [] => Ok Masked
      | v :: vs => Ok (Value (foldl maximum v vs))
      end
  end.

(** [np.argmin(m)]: masked entries are filled with the largest float
    before the search; the first NaN wins, else the first minimum. *)
Definition better (k best : option float) : bool :=
  match best, k with
  | Some NaN, _ => false
  | _, Some NaN => true
  | _, None => false
  | None, Some (Fin _) => true
  | Some (Fin b), Some (Fin a) => bool_decide (a < b)%Qc
  end.

Fixpoint argmin_from (besti : nat) (best : option float) (i : nat)
    (l : list (option float)) : nat :=
  match l with
  | [] => besti
  | k :: l' =>
      if better k best then argmin_from i k (S i) l'
      else argmin_from besti best (S i) l'
  end.

Definition filled (c : float * bool) : option float :=
  if c.2 then None else Some c.1.

Definition argmin (m : MaskedArray float) : result nat :=
  match filled <$> cells m with
  | [] => Raise ValueError
  | k :: l => Ok (argmin_from 0 k 1 l)
  end.

End ma.

(** ** xarray *)

(** A labelled array: dimension names, their sizes, and the value at an
    assignment of positions to dimension names. *)
Record DataVar : Type := mk_variable {
  dims : list string;
  sizes : list nat;
  val : (string → nat) → float
}.

(** A variable together with the coordinates that travel with it. *)
Record DataArray : Type := mk_dataarray {
  variable : DataVar;
  coords : gmap string DataVar
}.

(** [_variables] holds data variables and coordinates alike, as in xarray;
    [coord_names] tells which are coordinates. *)
Record Dataset : Type := mk_dataset {
  variables : gmap string DataVar;
  coord_names : gset string;
  attrs : gmap string pyobj
}.

Module xr.

Definition env : Type := string → nat.

Fixpoint env_of (ds : list string) (idx : list nat) : env :=
  λ d,
    match ds, idx with
    | d' :: ds', i :: idx' => if String.eqb d d' then i else env_of ds' idx' d
    | _, _ => 0
    end.

Definition set_at (e : env) (d : string) (i : nat) : env :=
  λ d', if String.eqb d' d then i else e d'.

Definition has_dim (v : DataVar) (d : string) : bool :=
  bool_decide (d ∈ dims v).

Definition dim_size (v : DataVar) (d : string) : nat :=
  env_of (dims v) (sizes v) d.

(** [.values] *)
Definition values (v : DataVar) : ndarray float :=
  mk_ndarray (sizes v) (λ idx, val v (env_of (dims v) idx)).

(** [xr.DataArray(a, dims=ds)] *)
Definition of_numpy (a : ndarray float) (ds : list string) : result DataArray :=
  if length (shape a) =? length ds
  then Ok (mk_dataarray
             (mk_variable ds (shape a) (λ e, item a (e <$> ds))) ∅)
  else Raise ValueError.

(** [.to_masked_array()]: missing values are masked. *)
Definition to_masked_array (v : DataVar) : MaskedArray float :=
  mk_masked (values v) (λ idx, isnan (item (values v) idx)).

Definition map (f : float → float) (a : DataArray) : DataArray :=
  mk_dataarray
    (mk_variable (dims (variable a)) (sizes (variable a))
       (λ e, f (val (variable a) e)))
    (coords a).

Definition ones_like (a : DataArray) : DataArray := map (λ _, one) a.

(** Operands are matched by dimension name; the result has the dimensions
    of the left operand followed by the new ones of the right operand. *)
Definition new_dims (v w : DataVar) : list string :=
  filter (λ d, d ∉ dims v) (dims w).

Definition union_dims (v w : DataVar) : list string :=
  dims v ++ new_dims v w.

Definition union_sizes (v w : DataVar) : list nat :=
  sizes v ++ (dim_size w <$> new_dims v w).

Definition binop (f : float → float → float) (a b : DataArray) : DataArray :=
  mk_dataarray
    (mk_variable (union_dims (variable a) (variable b))
       (union_sizes (variable a) (variable b))
       (λ e, f (val (variable a) e) (val (variable b) e)))
    (coords a ∪ coords b).

(** [xr.broadcast(a, b)] *)
Definition broadcast (a b : DataArray) : DataArray * DataArray :=
  (binop (λ x _, x) a b,
   mk_dataarray
     (mk_variable (union_dims (variable a) (variable b))
        (union_sizes (variable a) (variable b))
        (val (variable b)))
     (coords a ∪ coords b)).

(** An argument of [transpose]: a dimension name or the ellipsis. *)
Inductive targ : Type :=
| Dim (d : string)
| Ellipsis.

Definition named (args : list targ) : list string :=
  flat_map (λ a, match a with Dim d => [d] | Ellipsis => [] end) args.

Definition is_ellipsis (a : targ) : bool :=
  match a with Ellipsis => true | Dim _ => false end.

Definition has_ellipsis (args : list targ) : bool := existsb is_ellipsis args.

(** The order asked for: the ellipsis stands for the dimensions that are
    not named, in their present order. *)
Definition infix_dims (args : list targ) (all : list string)
  : result (list string) :=
  let ns := named args in
  if negb (forallb (λ d, bool_decide (d ∈ all)) ns) then Raise ValueError
  else if has_ellipsis args then
    if bool_decide (NoDup all)
       && (length (List.filter is_ellipsis args) =? 1)
    then Ok (flat_map (λ a, match a with
                             | Dim d => [d]
                             | Ellipsis => filter (λ d, d ∉ ns) all
                             end) args)
    else Raise ValueError
  else if forallb (λ d, bool_decide (d ∈ ns)) all then Ok ns
  else Raise ValueError.

Definition transpose (a : DataArray) (args : list targ) : result DataArray :=
  match infix_dims args (dims (variable a)) with
  | Ok ds =>
      Ok (mk_dataarray
            (mk_variable ds (dim_size (variable a) <$> ds) (val (variable a)))
            (coords a))
  | Raise e => Raise e
  end.

(** [xr.concat(l, dim=d)] along a new dimension [d], for arrays that share
    their dimensions and sizes: [d] becomes the first dimension. *)
Definition concat (l : list DataArray) (d : string) : result DataArray :=
  match l with
  | [] => Raise ValueError
  | a :: _ =>
      Ok (mk_dataarray
            (mk_variable (d :: dims (variable a))
               (length l :: sizes (variable a))
               (λ e, match l !! e d with
                     | Some b => val (variable b) e
                     | None => NaN
                     end))
            (foldr (λ b m, coords b ∪ m) ∅ l))
  end.

(** [a.isel(d=i)] *)
Definition isel (a : DataArray) (d : string) (i : nat) : result DataArray :=
  if negb (has_dim (variable a) d) then Raise ValueError
  else if negb (i <? dim_size (variable a) d) then Raise IndexError
  else
    Ok (mk_dataarray
          (mk_variable (filter (λ d', d' ≠ d) (dims (variable a)))
             (dim_size (variable a) <$> filter (λ d', d' ≠ d) (dims (variable a)))
             (λ e, val (variable a) (set_at e d i)))
          (coords a)).

Definition empty : Dataset := mk_dataset ∅ ∅ ∅.

(** [name in ds.dims] *)
Definition in_dims (ds : Dataset) (d : string) : bool :=
  existsb (λ kv, has_dim kv.2 d) (map_to_list (variables ds)).

(** [ds[name]]: the variable and the coordinates that live on its
    dimensions. *)
Definition getitem (ds : Dataset) (name : string) : result DataArray :=
  match variables ds !! name with
  | Some v =>
      Ok (mk_dataarray v
            (filter (λ kv, kv.1 ∈ coord_names ds
                           ∧ Forall (λ d, d ∈ dims v) (dims kv.2))
               (variables ds)))
  | None => Raise (KeyError name)
  end.

(** [ds.name] for a variable or coordinate. *)
Definition getattr (ds : Dataset) (name : string) : result DataArray :=
  match getitem ds name with
  | Ok a => Ok a
  | Raise _ => Raise (AttributeError name)
  end.

(** [ds.name] for an attribute; read stores no variable named like one of
    its attributes. *)
Definition getattr_attrs (ds : Dataset) (name : string) : result pyobj :=
  match attrs ds !! name with
  | Some o => Ok o
  | None => Raise (AttributeError name)
  end.

(** [ds[name] = a]: the coordinates of [a] are merged in; those already in
    the dataset are kept. *)
Definition setitem (ds : Dataset) (name : string) (a : DataArray) : Dataset :=
  mk_dataset
    (<[name := variable a]> (variables ds ∪ coords a))
    (coord_names ds ∪ dom (coords a))
    (attrs ds).

(** [ds.attrs[name] = o] *)
Definition set_attr (ds : Dataset) (name : string) (o : pyobj) : Dataset :=
  mk_dataset (variables ds) (coord_names ds) (<[name := o]> (attrs ds)).

End xr.

(** ** The module *)

(** What [plt.figure] returns; its content is the log of drawing calls. *)
Inductive figure : Type := Fig.

Definition dict_get (d : gmap string pyobj) (k : string) : M pyobj :=
  match d !! k with
  | Some o => ret o
  | None => raise (KeyError k)
  end.

Module moc.

Section Pipeline.

(** The collaborators: [xr.open_mfdataset], the grid and topography
    readers and the basin-mask generator of [om4labs.om4common],
    [xoverturning.calcmoc] and the image handler. *)
Variable open_mfdataset : pyobj → result Dataset.
Variable horizontal_grid : gmap string pyobj → string → result Dataset.
Variable read_topography :
  gmap string pyobj → Dataset → string → result DataArray.
Variable generate_basin_masks : ndarray float → string → result (ndarray float).
Variable date_range : Dataset → result pyobj.
Variable calcmoc : Dataset → string → pyobj → pyobj → result DataArray.
Variable image_handler : gmap string pyobj → pyobj → string → result pyobj.

(** [layer = "z_l" if "z_l" in ds.dims else "rho2_l" if "rho2_l" in ds.dims
    else None] *)
Definition layer_of (ds : Dataset) : option string :=
  if xr.in_dims ds "z_l" then Some "z_l"
  else if xr.in_dims ds "rho2_l" then Some "rho2_l"
  else None.

(** [interface = "z_i" if layer == "z_l" else "rho2_i" if layer == "rho2_l"
    else None] *)
Definition interface_of (layer : option string) : option string :=
  if bool_decide (layer = Some "z_l") then Some "z_i"
  else if bool_decide (layer = Some "rho2_l") then Some "rho2_i"
  else None.

Definition pystr (o : option string) : pyobj :=
  match o with Some s => PyStr s | None => PyNone end.

Definition key (o : option string) : M string :=
  match o with Some s => ret s | None => raise (KeyError "None") end.

Definition read (dictArgs : gmap string pyobj) (vcomp ucomp : string)
  : M Dataset :=
  let dset := xr.empty in
  (* read the infile and get u, v transport components *)
  infile ← dict_get dictArgs "infile";
  ds ← call (OpenMfdataset infile) (open_mfdataset infile);
  umo ← lift (xr.getitem ds ucomp);
  let dset := xr.setitem dset "umo" umo in
  vmo ← lift (xr.getitem ds vcomp);
  let dset := xr.setitem dset "vmo" vmo in
  (* determine vertical coordinate *)
  let layer := layer_of ds in
  assert (bool_decide (layer ≠ None)) "Unrecognized vertical coordinate.";;
  (* get vertical coordinate edges *)
  let interface := interface_of layer in
  interface_name ← key interface;
  edges ← lift (xr.getitem ds interface_name);
  let dset := xr.setitem dset interface_name edges in
  (* save layer and interface info for use later in the workflow *)
  let dset := xr.set_attr dset "layer" (pystr layer) in
  let dset := xr.set_attr dset "interface" (pystr interface) in
  (* get horizontal t-cell grid info *)
  dsT ← call (HorizontalGrid "t") (horizontal_grid dictArgs "t");
  geolon ← lift (xr.getattr dsT "geolon");
  geolon ← lift (xr.of_numpy (xr.values (variable geolon)) ["yh"; "xh"]);
  let dset := xr.setitem dset "geolon" geolon in
  geolat ← lift (xr.getattr dsT "geolat");
  geolat ← lift (xr.of_numpy (xr.values (variable geolat)) ["yh"; "xh"]);
  let dset := xr.setitem dset "geolat" geolat in
  (* get topography info *)
  _depth ← call (ReadTopography "t") (read_topography dictArgs ds "t");
  depth ← lift (np.where_scalar_array
                  (data (ma.isnan (xr.to_masked_array (variable _depth))))
                  zero (xr.values (variable _depth)));
  depth ← lift (xr.of_numpy depth ["yh"; "xh"]);
  let dset := xr.setitem dset "depth" depth in
  (* replicates older get_z() func from m6plot *)
  edges ← lift (xr.getitem dset interface_name);
  geolat ← lift (xr.getattr dset "geolat");
  let zmod := (xr.broadcast edges (xr.ones_like geolat)).1 in
  depth ← lift (xr.getattr dset "depth");
  let zmod :=
    xr.map (λ x, mul x (of_Z (-1)))
      (xr.binop minimum depth (xr.map fabs zmod)) in
  zmod ← lift (xr.transpose zmod
                 [xr.Dim interface_name; xr.Dim "yh"; xr.Dim "xh"]);
  let dset := xr.setitem dset "zmod" zmod in
  (* grid wet mask based on model's topography *)
  let wet :=
    np.where_scalar_scalar
      (data (ma.isnan (xr.to_masked_array (variable _depth)))) zero one in
  wet ← lift (xr.of_numpy wet ["yh"; "xh"]);
  let dset := xr.setitem dset "wet" wet in
  (* basin masks *)
  basin ← lift (xr.getattr dsT "basin");
  let basin_code := xr.values (variable basin) in
  let basins := ["atlantic_arctic"; "indo_pacific"] in
  basins ← mapM (λ x, call (GenerateBasinMasks x)
                        (generate_basin_masks basin_code x)) basins;
  basins ← mapM (λ x, lift (xr.of_numpy x ["yh"; "xh"])) basins;
  basins ← lift (xr.concat basins "basin");
  let dset := xr.setitem dset "basin_masks" basins in
  (* date range *)
  dates ← call DateRange (date_range ds);
  let dset := xr.set_attr dset "dates" dates in
  ret dset.

Definition basins : list string := ["atl-arc"; "indopac"; "global"].

Definition nth_dim (a : DataArray) (n : nat) : result string :=
  match dims (variable a) !! n with
  | Some d => Ok d
  | None => Raise IndexError
  end.

Definition calculate (dset : Dataset) : M DataArray :=
  otsfn ← mapM (λ x,
              layer ← lift (xr.getattr_attrs dset "layer");
              interface ← lift (xr.getattr_attrs dset "interface");
              call (Calcmoc x layer interface)
                (calcmoc dset x layer interface)) basins;
  otsfn ← lift (xr.concat otsfn "basin");
  d1 ← lift (nth_dim otsfn 1);
  d0 ← lift (nth_dim otsfn 0);
  otsfn ← lift (xr.transpose otsfn [xr.Dim d1; xr.Dim d0; xr.Ellipsis]);
  ret otsfn.

(** Function to annotate the max/min values on the MOC plot *)
Definition _findExtrema (ax : nat) (y z : ndarray float)
    (psi : MaskedArray float) (min_lat max_lat min_depth mult : float)
  : M unit :=
  band ← lift (np.map2 andb (np.map (λ v, geb v min_lat) y)
                 (np.map (λ v, leb v max_lat) y));
  region ← lift (np.map2 andb band (np.map (λ v, ltb v (neg min_depth)) z));
  selected ← lift (ma.bool_index psi region);
  m ← lift (ma.amax (ma.rmul mult selected));
  let psiMax := ma.rmul_scalar mult m in
  idx ← lift (ma.argmin (ma.abs (ma.sub_scalar psi psiMax)));
  match np.unravel_index idx (shape (data psi)) with
  | [j; i] =>
      yji ← lift (np.getitem y [j; i]);
      zji ← lift (np.getitem z [j; i]);
      emit (Marker ax yji zji "kx");;
      p ← lift (ma.getitem psi [j; i]);
      emit (Text ax yji zji (Fmt1 p))
  | _ => raise ValueError
  end.

(** The keyword defaults of [_findExtrema]. *)
Definition min_lat_default : float := of_Z (-90).
Definition max_lat_default : float := of_Z 90.
Definition min_depth_default : float := zero.
Definition mult_default : float := one.

Definition is_tuple (o : pyobj) : bool :=
  match o with PyTuple _ => true | _ => false end.

(** [dates[n]] for the sequences a date range can be. *)
Definition py_index (o : pyobj) (n : nat) : result pyobj :=
  match o with
  | PyTuple l | PyList l =>
      match l !! n with Some x => Ok x | None => Raise IndexError end
  | _ => Raise TypeError
  end.

(** Function to plot zonal mean streamfunction *)
Definition _plotPsi (ax : nat) (y z : ndarray float) (psi : MaskedArray float)
    (ci : levels) (title : string) (xlim : option (float * float))
    (topomask : option (MaskedArray float)) (yh zz : option (ndarray float))
    (dates : pyobj) : M unit :=
  psi ← lift (match topomask with
               | Some _ => np.where_scalar_array (ma.getmask psi) zero (data psi)
               | None => np.where_scalar_array (ma.getmask psi) NaN (data psi)
               end);
  emit (Contourf ax y z psi ci);;
  emit (Contour ax y z psi ci);;
  emit (Contour ax y z psi (Level [zero]));;
  (* shade topography *)
  match topomask with
  | Some topomask =>
      match yh, zz with
      | Some yh, Some zz =>
          emit (Pcolormesh ax yh (np.map (mul (of_Z (-1))) zz) topomask)
      | _, _ => raise TypeError
      end
  | None => ret tt
  end;;
  (* set latitude limits *)
  match xlim with
  | Some (lo, hi) => emit (SetXlim ax lo hi)
  | None => ret tt
  end;;
  (* set vertical split scale *)
  emit (SetYscale ax "splitscale" [zero; of_Z (-2000); of_Z (-6500)]);;
  emit (InvertYaxis ax);;
  (* add colorbar *)
  emit (Colorbar "[Sv]");;
  (* add labels *)
  emit (Text ax (of_Q 0.02) (of_Q 1.02) (Str title));;
  emit (Ylabel "Elevation [m]");;
  match dates with
  | PyNone => ret tt
  | _ =>
      assert (is_tuple dates) "Year range should be provided as a tuple.";;
      first ← lift (py_index dates 0);
      last ← lift (py_index dates 1);
      emit (Text ax (of_Q 0.98) (of_Q 1.02) (Years first last))
  end.

Definition _create_topomask (depth yh : ndarray float) (mask : option DataArray)
  : result (MaskedArray float * ndarray float) :=
  depth ← match mask with
           | Some mask =>
               np.where_array_scalar
                 (np.map (λ v, eqb v one) (xr.values (variable mask)))
                 depth zero
           | None => Ok depth
           end;
  topomask ← np.max_last depth;
  let _y := yh in
  let _z := np.arange 0 7100 100 in
  let '(_yy, _zz) := np.meshgrid _y _z in
  row ← np.newaxis_first topomask;
  let topomask := np.tile row [np.len _z; 1] in
  below ← np.map2 ltb _zz topomask;
  topomask ← ma.masked_where below topomask;
  let topomask := ma.mul_scalar topomask zero in
  Ok (topomask, _z).

(** [y[:, :]] *)
Definition slice2 {A} (y : ndarray A) : result (ndarray A) :=
  if 2 <=? np.ndim y then Ok y else Raise IndexError.

(** Plotting script *)
Definition plot (dset : Dataset) (otsfn : DataArray) (label : pyobj)
  : M figure :=
  (* get y-coord from geolat *)
  y ← lift (xr.getattr dset "geolat");
  let y := xr.values (variable y) in
  z ← lift (xr.getattr dset "zmod");
  let z := xr.values (variable z) in
  yh ← lift (xr.getattr dset "yh");
  let yh := xr.values (variable yh) in
  depth ← lift (xr.getattr dset "depth");
  let depth := xr.values (variable depth) in
  basin_masks ← lift (xr.getattr dset "basin_masks");
  atlantic_arctic_mask ← lift (xr.isel basin_masks "basin" 0);
  basin_masks ← lift (xr.getattr dset "basin_masks");
  indo_pacific_mask ← lift (xr.isel basin_masks "basin" 1);
  dates ← lift (xr.getattr_attrs dset "dates");
  z ← (if bool_decide (np.ndim z ≠ 1) then lift (np.min_last z) else ret z);
  rows ← lift (slice2 y);
  rowmax ← lift (np.max_last rows);
  yy ← lift (np.map2 add rowmax (np.map (mul zero) z));
  let psi := xr.to_masked_array (variable otsfn) in
  '(atlantic_topomask, zz) ←
    lift (_create_topomask depth yh (Some atlantic_arctic_mask));
  '(indo_pacific_topomask, zz) ←
    lift (_create_topomask depth yh (Some indo_pacific_mask));
  '(global_topomask, zz) ← lift (_create_topomask depth yh None);
  let ci := PmCI zero (of_Z 43) (of_Z 3) in
  emit Figure;;
  emit (Subplot 3 1 1);;
  let ax1 := 1 in
  psiPlot ← lift (ma.subarray psi [0; 0]);
  _plotPsi ax1 yy z psiPlot ci "a. Atlantic MOC [Sv]"
    (Some (of_Z (-40), of_Z 90)) (Some atlantic_topomask) (Some yh) (Some zz)
    dates;;
  _findExtrema ax1 yy z psiPlot (of_Q 26.5) (of_Q 27.0)
    min_depth_default mult_default;;
  _findExtrema ax1 yy z psiPlot min_lat_default (of_Q (-33.0))
    min_depth_default mult_default;;
  _findExtrema ax1 yy z psiPlot min_lat_default max_lat_default
    min_depth_default mult_default;;
  emit (Subplot 3 1 2);;
  let ax2 := 2 in
  psiPlot ← lift (ma.subarray psi [0; 1]);
  _plotPsi ax2 yy z psiPlot ci "b. Indo-Pacific MOC [Sv]"
    (Some (of_Z (-40), of_Z 65)) (Some indo_pacific_topomask) (Some yh)
    (Some zz) PyNone;;
  _findExtrema ax2 yy z psiPlot min_lat_default max_lat_default
    (of_Q 2000.0) (of_Q (-1.0));;
  _findExtrema ax2 yy z psiPlot min_lat_default max_lat_default
    min_depth_default mult_default;;
  emit (Subplot 3 1 3);;
  let ax3 := 3 in
  psiPlot ← lift (ma.subarray psi [0; 2]);
  _plotPsi ax3 yy z psiPlot ci "c. Global MOC [Sv]"
    None (Some global_topomask) (Some yh) (Some zz) PyNone;;
  _findExtrema ax3 yy z psiPlot min_lat_default (of_Q (-30.0))
    min_depth_default mult_default;;
  _findExtrema ax3 yy z psiPlot (of_Q 25.0) max_lat_default
    min_depth_default mult_default;;
  _findExtrema ax3 yy z psiPlot min_lat_default max_lat_default
    (of_Q 2000.0) (of_Q (-1.0));;
  emit (Xlabel "Latitude [$\degree$N]");;
  emit SubplotsAdjust;;
  match label with
  | PyNone => ret tt
  | _ => emit (Suptitle label)
  end;;
  ret Fig.

(** Function to call read, calc, and plot in sequence *)
Definition run (dictArgs : gmap string pyobj) : M pyobj :=
  (* set visual backend *)
  interactive ← dict_get dictArgs "interactive";
  match interactive with
  | PyBool false => emit (SwitchBackend "Agg")
  | _ => ret tt
  end;;
  (* read in data *)
  dset ← read dictArgs "vmo" "umo";
  (* calculate otsfn *)
  otsfn ← calculate dset;
  (* make the plots *)
  label ← dict_get dictArgs "label";
  fig ← plot dset otsfn label;
  outdir ← dict_get dictArgs "outdir";
  call (ImageHandler outdir "moc") (image_handler dictArgs outdir "moc").

End Pipeline.

End moc.

(** ** A small ocean

    A 4 x 2 horizontal grid with three vertical interfaces, one land cell in
    the first row and one in the last, and a streamfunction per basin; the
    statements below are instantiated on it. *)

Module Sample.

Definition vec (d : string) (l : list float) : DataVar :=
  mk_variable [d] [length l] (λ e, nth (e d) l NaN).

Definition grid (rows : list (list float)) : DataVar :=
  mk_variable ["yh"; "xh"] [length rows; length (hd [] rows)]
    (λ e, nth (e "xh") (nth (e "yh") rows []) NaN).

(** Small arrays for the helpers of [plot]: two levels by two latitudes. *)
Definition arr2 (rows : list (list float)) : ndarray float :=
  mk_ndarray [length rows; length (hd [] rows)]
    (λ idx, nth (nth 1 idx 0) (nth (nth 0 idx 0) rows []) NaN).

Definition lat2 : ndarray float :=
  arr2 [[of_Z 20; of_Q 26.75]; [of_Z 20; of_Q 26.75]].

Definition z2 : ndarray float :=
  arr2 [[of_Z (-10); of_Z (-10)]; [of_Z (-500); of_Z (-500)]].

(** The value 5 is the maximum of the band 26.5 to 27 degrees (second
    column) and also occurs at 20 degrees (first column). *)
Definition psi2 : MaskedArray float :=
  mk_masked (arr2 [[of_Z 5; of_Z 1]; [of_Z 2; of_Z 5]]) (λ _, false).

(** One row of bathymetry, 250 m at its deepest. *)
Definition shelf : ndarray float := arr2 [[of_Z 250; of_Z 100]].
Definition shelf_yh : ndarray float :=
  mk_ndarray [1] (λ _, of_Z 10).

Definition transport : DataVar :=
  mk_variable ["time"; "z_l"; "yh"; "xh"] [1; 2; 4; 2] (λ _, zero).

Definition ds : Dataset :=
  mk_dataset
    (<["umo" := transport]> (<["vmo" := transport]>
    (<["z_i" := vec "z_i" [zero; of_Z 1000; of_Z 3000]]>
    (<["yh" := vec "yh" [of_Z (-40); zero; of_Q 26.75; of_Z 60]]> ∅))))
    {["z_i"; "yh"]} ∅.

Definition geolat : DataVar :=
  grid [[of_Z (-40); of_Z (-40)]; [zero; zero];
        [of_Q 26.7; of_Q 26.75]; [of_Z 60; of_Z 60]].

Definition geolon : DataVar :=
  grid [[zero; one]; [zero; one]; [zero; one]; [zero; one]].

Definition basin : DataVar :=
  grid [[of_Z 2; of_Z 3]; [of_Z 2; of_Z 3]; [of_Z 2; of_Z 3]; [of_Z 2; of_Z 3]].

Definition dsT : Dataset :=
  mk_dataset
    (<["geolon" := geolon]> (<["geolat" := geolat]> (<["basin" := basin]> ∅)))
    ∅ ∅.

Definition bathymetry : DataArray :=
  mk_dataarray (grid [[NaN; of_Z 4000]; [of_Z 2500; of_Z 500];
                      [of_Z 3500; of_Z 3500]; [of_Z 1000; NaN]]) ∅.

Definition generate_basin_masks (code : ndarray float) (b : string)
  : result (ndarray float) :=
  Ok (np.map
        (λ c, if eqb c (if String.eqb b "atlantic_arctic"
                        then of_Z 2 else of_Z 3)
              then one else zero) code).

Definition psi_at (b : string) (k j : nat) : float :=
  if String.eqb b "global" then zero
  else if String.eqb b "indopac" then
    if (k =? 0) && (j =? 0) then NaN
    else of_Z (Z.of_nat j - 2 * Z.of_nat k)
  else of_Z (Z.of_nat (4 * k + j) - 3).

Definition calcmoc (d : Dataset) (b : string) (l i : pyobj) : result DataArray :=
  Ok (mk_dataarray
        (mk_variable ["time"; "z_i"; "yq"] [1; 3; 4]
           (λ e, psi_at b (e "z_i") (e "yq"))) ∅).

Definition dates : pyobj := PyTuple [PyInt 1958; PyInt 2017].

Definition dictArgs : gmap string pyobj :=
  <["infile" := PyStr "ocean_annual_z.nc"]> (<["interactive" := PyBool false]>
  (<["label" := PyNone]> (<["outdir" := PyStr "out"]> ∅))).

Definition open_mfdataset (_ : pyobj) : result Dataset := Ok ds.
Definition horizontal_grid (_ : gmap string pyobj) (_ : string)
  : result Dataset := Ok dsT.
Definition read_topography (_ : gmap string pyobj) (_ : Dataset) (_ : string)
  : result DataArray := Ok bathymetry.
Definition date_range (_ : Dataset) : result pyobj := Ok dates.
Definition image_handler (_ : gmap string pyobj) (_ : pyobj) (_ : string)
  : result pyobj := Ok (PyList []).

Definition read : M Dataset :=
  moc.read open_mfdataset horizontal_grid read_topography
    generate_basin_masks date_range dictArgs "vmo" "umo".

Definition dset : Dataset :=
  match outcome read with Ok d => d | Raise _ => xr.empty end.

Definition calculate : M DataArray := moc.calculate calcmoc dset.

Definition otsfn : DataArray :=
  match outcome calculate with Ok a => a | Raise _ => bathymetry end.

Definition plot : M figure := moc.plot dset otsfn PyNone.

Definition run : M pyobj :=
  moc.run open_mfdataset horizontal_grid read_topography
    generate_basin_masks date_range calcmoc image_handler dictArgs.

(** The arguments of the first filled-contour call of [plot], the third
    call it logs. *)
Definition contour_y : ndarray float :=
  match trace plot !! 2 with Some (Contourf _ y _ _ _) => y | _ => lat2 end.
Definition contour_z : ndarray float :=
  match trace plot !! 2 with Some (Contourf _ _ z _ _) => z | _ => z2 end.
Definition contour_psi : ndarray float :=
  match trace plot !! 2 with Some (Contourf _ _ _ p _) => p | _ => z2 end.

(** The field of the second panel, the twenty-first call. *)
Definition indopac_y : ndarray float :=
  match trace plot !! 20 with Some (Contourf _ y _ _ _) => y | _ => lat2 end.
Definition indopac_z : ndarray float :=
  match trace plot !! 20 with Some (Contourf _ _ z _ _) => z | _ => z2 end.
Definition indopac_psi : ndarray float :=
  match trace plot !! 20 with Some (Contourf _ _ _ p _) => p | _ => z2 end.


End Sample.

(** ** Vocabulary of the statements *)

(** The array handed to the contouring calls: the data of [psi] with [fill]
    in place of the masked entries. *)
Definition filled_with (fill : float) (psi : MaskedArray float) : ndarray float :=
  mk_ndarray (shape (data psi))
    (λ idx, if mask psi (np.bindex (shape (data psi)) idx) then fill
             else item (data psi) (np.bindex (shape (data psi)) idx)).

Definition fill_value (topomask : option (MaskedArray float)) : float :=
  match topomask with Some _ => zero | None => NaN end.

(** The entries [a[pre, 0]], ..., [a[pre, n]] along the last axis. *)
Definition last_axis (a : ndarray float) (pre : list nat) (n : nat) : list float :=
  (λ i, item a (pre ++ [i])) <$> seq 0 (S n).

(** The maximum and the minimum of a list as numpy computes them: NaN as
    soon as one entry is. *)
Definition list_max (l : list float) : float :=
  match l with [] => NaN | x :: l' => foldl maximum x l' end.

Definition list_min (l : list float) : float :=
  match l with [] => NaN | x :: l' => foldl minimum x l' end.

(** The cells that an annotation of [_findExtrema] looks at: latitude in
    [min_lat, max_lat] and height below [-min_depth]. *)
Definition in_region (y z : ndarray float) (min_lat max_lat min_depth : float)
    (idx : list nat) : bool :=
  geb (item y idx) min_lat && leb (item y idx) max_lat
  && ltb (item z idx) (neg min_depth).


(** A sequence of exactly two elements. *)
Definition two_element_sequence (o : pyobj) : bool :=
  match o with
  | PyTuple [_; _] | PyList [_; _] => true
  | _ => false
  end.

(** The bathymetry that [_create_topomask] keeps at a cell: zero outside the
    basin mask. *)
Definition in_basin (depth : ndarray float) (mask : option DataArray)
    (idx : list nat) : float :=
  match mask with
  | Some m =>
      if eqb (item (xr.values (variable m)) idx) one then item depth idx
      else zero
  | None => item depth idx
  end.

(** A computation logs [L] when it returns, and a beginning of [L] when it
    raises. *)
Definition logs {A} (m : M A) (L : list event) : Prop :=
  trace m `prefix_of` L ∧ ∀ a, outcome m = Ok a → trace m = L.

(** The calls of [read] to its collaborators. *)
Definition read_calls (infile : pyobj) : list event :=
  [OpenMfdataset infile; HorizontalGrid "t"; ReadTopography "t";
   GenerateBasinMasks "atlantic_arctic"; GenerateBasinMasks "indo_pacific";
   DateRange].

(** The calls of [calculate] to the overturning calculator. *)
Definition calc_calls (layer interface : pyobj) : list event :=
  (λ b, Calcmoc b layer interface) <$> moc.basins.

(** The keys that [np.argmin] compares in [_findExtrema]: a masked entry
    (none) or a distance, which is a number and not negative. *)
Definition distance_key (k : option float) : Prop :=
  match k with
  | None => True
  | Some NaN => False
  | Some (Fin a) => (0 ≤ a)%Qc
  end.

(** The cells of [psi] that are not masked and hold the value [v]. *)
Definition holds (psi : MaskedArray float) (v : float) (idx : list nat) : bool :=
  negb (mask psi idx) && eqb (item (data psi) idx) v.

(** Row-major order on the cells of a two-dimensional array. *)
Definition before (j' i' j i : nat) : Prop := j' < j ∨ (j' = j ∧ i' < i).

(** The cells that [_findExtrema] selects, in row-major order, each with
    its value and its mask. *)
Definition selection (y z : ndarray float) (psi : MaskedArray float)
    (min_lat max_lat min_depth : float) : list (float * bool) :=
  (λ idx, (item (data psi) idx, mask psi idx)) <$>
    filter (λ idx, in_region y z min_lat max_lat min_depth idx)
      (np.indices (shape (data psi))).

(** The values of the cells of a selection that are not masked. *)
Definition unmasked (l : list (float * bool)) : list float :=
  fst <$> filter (λ c, negb c.2) l.

(** The small panel with its second column, the band 26.5 to 27 degrees,
    masked. *)
Definition psi2_band_masked : MaskedArray float :=
  mk_masked (data Sample.psi2) (λ idx, nth 1 idx 0 =? 1).

(** The calls that draw on a panel. *)
Definition panel_event (ev : event) : bool :=
  match ev with
  | Contourf _ _ _ _ _ | Contour _ _ _ _ _ | Pcolormesh _ _ _ _
  | SetXlim _ _ _ | SetYscale _ _ _ | InvertYaxis _ | Colorbar _
  | Ylabel _ | Text _ _ _ _ | Marker _ _ _ _ => true
  | _ => false
  end.

(** The calls to matplotlib, as opposed to the calls to the collaborators
    that read and compute. *)
Definition drawing (ev : event) : bool :=
  match ev with
  | Figure | Subplot _ _ _ | Xlabel _ | SubplotsAdjust | Suptitle _ => true
  | _ => panel_event ev
  end.

(** The layout of a log: the subplots opened, and the panels of the filled
    contours, of the topography shadings, of the crosses and of the
    latitude limits, each in the order of the calls. *)
Definition subplots (t : list event) : list (nat * nat * nat) :=
  omap (λ ev, match ev with Subplot r c i => Some (r, c, i) | _ => None end) t.

Definition contourf_axes (t : list event) : list nat :=
  omap (λ ev, match ev with Contourf ax _ _ _ _ => Some ax | _ => None end) t.

Definition pcolormesh_axes (t : list event) : list nat :=
  omap (λ ev, match ev with Pcolormesh ax _ _ _ => Some ax | _ => None end) t.

Definition marker_axes (t : list event) : list nat :=
  omap (λ ev, match ev with Marker ax _ _ _ => Some ax | _ => None end) t.

Definition xlims (t : list event) : list (nat * float * float) :=
  omap (λ ev, match ev with SetXlim ax lo hi => Some (ax, lo, hi) | _ => None end)
    t.


(** The backend switch of [run]: made when the option "interactive" is the
    constant [False] and for nothing else. *)
Definition backend (interactive : pyobj) : list event :=
  match interactive with
  | PyBool false => [SwitchBackend "Agg"]
  | _ => []
  end.

(** The stage of [run] that a call belongs to: the backend switch, the
    reading, the calculation, the drawing, the writing of the image. *)
Definition stage (ev : event) : nat :=
  match ev with
  | SwitchBackend _ => 0
  | OpenMfdataset _ | HorizontalGrid _ | ReadTopography _
  | GenerateBasinMasks _ | DateRange => 1
  | Calcmoc _ _ _ => 2
  | ImageHandler _ _ => 4
  | _ => 3
  end.

(** * Properties *)

(** ** The monad *)

Section MonadFacts.
Context {A B : Type}.

Lemma outcome_bind (m : M A) (f : A → M B) :
  outcome (m ≫= f) =
    match outcome m with Ok a => outcome (f a) | Raise e => Raise e end.
Proof.
  unfold mbind, M_bind, bind, outcome.
  destruct m as [t [a|e]]; simpl; [|done]. by destruct (f a).
Qed.

Lemma trace_bind (m : M A) (f : A → M B) :
  trace (m ≫= f) =
    trace m ++ match outcome m with Ok a => trace (f a) | Raise _ => [] end.
Proof.
  unfold mbind, M_bind, bind, outcome, trace.
  destruct m as [t [a|e]]; simpl.
  - by destruct (f a).
  - by rewrite app_nil_r.
Qed.

Lemma outcome_lift (r : result A) : outcome (lift r) = r.
Proof. done. Qed.

Lemma trace_lift (r : result A) : trace (lift r) = [].
Proof. done. Qed.

Lemma outcome_call e (r : result A) : outcome (call e r) = r.
Proof. done. Qed.

Lemma trace_call e (r : result A) : trace (call e r) = [e].
Proof. done. Qed.

Lemma eta (m : M A) : m = (trace m, outcome m).
Proof. by destruct m. Qed.

Lemma ret_bind (a : A) (f : A → M B) : ret a ≫= f = f a.
Proof. unfold mbind, M_bind, bind, ret. by destruct (f a). Qed.

Lemma lift_bind (a : A) (f : A → M B) : lift (Ok a) ≫= f = f a.
Proof. apply ret_bind. Qed.

Lemma call_bind e (a : A) (f : A → M B) :
  call e (Ok a) ≫= f = (e :: trace (f a), outcome (f a)).
Proof. unfold mbind, M_bind, bind, call. simpl. by destruct (f a). Qed.

Lemma raise_bind t e (f : A → M B) : ((t, Raise e) : M A) ≫= f = (t, Raise e).
Proof. done. Qed.
End MonadFacts.

(** One statement of a monadic body that is known to return: name its
    result and go on. *)
Ltac step H :=
  rewrite outcome_bind in H;
  lazymatch type of H with
  | match outcome (lift (Ok ?a)) with _ => _ end = _ =>
      rewrite outcome_lift in H; cbv beta iota in H
  | match outcome (lift ?r) with _ => _ end = _ =>
      rewrite outcome_lift in H; destruct r eqn:?; [|discriminate H]
  | match outcome (call ?e ?r) with _ => _ end = _ =>
      rewrite outcome_call in H; destruct r eqn:?; [|discriminate H]
  | match outcome ?m with _ => _ end = _ =>
      destruct (outcome m) eqn:?; [|discriminate H]
  end.

(** ** Shapes and indices *)

Lemma broadcast_rev_same s : np.broadcast_rev s s = Some s.
Proof.
  induction s as [|n s IH]; [done|]. simpl.
  by rewrite Nat.eqb_refl, IH.
Qed.

Lemma broadcast_shapes_same s : np.broadcast_shapes s s = Some s.
Proof.
  unfold np.broadcast_shapes. rewrite broadcast_rev_same. simpl.
  by rewrite rev_involutive.
Qed.

Lemma in_bounds_length sh idx :
  np.in_bounds sh idx = true → length idx = length sh.
Proof.
  revert idx. induction sh as [|n sh IH]; intros [|i idx]; simpl; try done.
  intros [_ H]%andb_prop. by rewrite (IH _ H).
Qed.

Lemma bindex_in_bounds sh idx :
  np.in_bounds sh idx = true → np.bindex sh idx = idx.
Proof.
  intros H. unfold np.bindex.
  rewrite (in_bounds_length _ _ H), Nat.sub_diag, drop_0.
  revert idx H. induction sh as [|n sh IH]; intros [|i idx]; simpl; try done.
  intros [Hi H]%andb_prop. rewrite (IH _ H).
  apply Nat.ltb_lt in Hi.
  destruct (n =? 1) eqn:E; [|done].
  apply Nat.eqb_eq in E. f_equal. lia.
Qed.

Lemma in_bounds_indices sh idx :
  np.in_bounds sh idx = true ↔ idx ∈ np.indices sh.
Proof.
  revert idx. induction sh as [|n sh IH]; intros idx; simpl.
  - destruct idx; [|split; [done|]].
    + split; [intros _; apply list_elem_of_singleton; done | done].
    + intros H%list_elem_of_singleton. done.
  - rewrite list_elem_of_In, in_flat_map. split.
    + destruct idx as [|i idx]; [done|].
      intros [Hi H]%andb_prop. exists i. split.
      * apply in_seq. apply Nat.ltb_lt in Hi. lia.
      * apply list_elem_of_In, list_elem_of_fmap. exists idx.
        split; [done|]. by apply IH.
    + intros (i & Hi%in_seq & H%list_elem_of_In).
      apply list_elem_of_fmap in H as (idx' & -> & H).
      apply andb_true_intro. split.
      * apply Nat.ltb_lt. lia.
      * by apply IH.
Qed.

(** ** Arithmetic of the float model *)

Lemma Qc_abs_nonneg a : (0 ≤ Qc_abs a)%Qc.
Proof.
  unfold Qc_abs. case_bool_decide as H.
  - apply Qclt_le_weak in H. by apply Qcopp_le_compat in H.
  - by apply Qcnot_lt_le.
Qed.






Lemma leb_not_ltb x y : leb x y = true → ltb y x = false.
Proof.
  destruct x as [|a], y as [|b]; try done. simpl.
  rewrite bool_decide_eq_true, bool_decide_eq_false. apply Qcle_not_lt.
Qed.

Lemma one_ne_zero : one ≠ zero.
Proof. done. Qed.

Lemma leb_refl x : x ≠ NaN → leb x x = true.
Proof.
  destruct x as [|a]; [done|]. intros _. apply bool_decide_eq_true, Qcle_refl.
Qed.

Lemma leb_trans x y z : leb x y = true → leb y z = true → leb x z = true.
Proof.
  destruct x as [|a], y as [|b], z as [|c]; try done. simpl.
  rewrite !bool_decide_eq_true. apply Qcle_trans.
Qed.

Lemma maximum_cases x y :
  x ≠ NaN → y ≠ NaN →
  (maximum x y = x ∨ maximum x y = y)
  ∧ leb x (maximum x y) = true ∧ leb y (maximum x y) = true.
Proof.
  destruct x as [|a], y as [|b]; try done. intros _ _. simpl.
  unfold Qc_max. case_bool_decide as H; rewrite !bool_decide_eq_true.
  - split_and!; [by left | apply Qcle_refl | done].
  - split_and!; [by right | | apply Qcle_refl].
    by apply Qclt_le_weak, Qcnot_le_lt.
Qed.

Lemma minimum_cases x y :
  x ≠ NaN → y ≠ NaN →
  (minimum x y = x ∨ minimum x y = y)
  ∧ leb (minimum x y) x = true ∧ leb (minimum x y) y = true.
Proof.
  destruct x as [|a], y as [|b]; try done. intros _ _. simpl.
  unfold Qc_min. case_bool_decide as H; rewrite !bool_decide_eq_true.
  - split_and!; [by left | apply Qcle_refl | done].
  - split_and!; [by right | | apply Qcle_refl].
    by apply Qclt_le_weak, Qcnot_le_lt.
Qed.

(** [list_max] of numbers is one of them and bounds them all from above;
    [list_min] bounds them from below. *)
Lemma foldl_maximum_spec l x :
  x ≠ NaN → Forall (λ y, y ≠ NaN) l →
  foldl maximum x l ∈ x :: l
  ∧ ∀ y, y ∈ x :: l → leb y (foldl maximum x l) = true.
Proof.
  revert x. induction l as [|y l IH]; intros x Hx Hl.
  - simpl. split; [left|]. intros y ->%list_elem_of_singleton.
    by apply leb_refl.
  - apply Forall_cons_1 in Hl as [Hy Hl]. simpl.
    destruct (maximum_cases x y Hx Hy) as (Hc & Hxm & Hym).
    assert (maximum x y ≠ NaN) as Hm by (by destruct Hc as [-> | ->]).
    destruct (IH _ Hm Hl) as [Hin Hle]. split.
    + apply elem_of_cons in Hin as [-> | Hin].
      * destruct Hc as [-> | ->]; [left | right; left].
      * by do 2 right.
    + intros w [-> | [-> | Hw]%elem_of_cons]%elem_of_cons.
      * eapply leb_trans; [exact Hxm|]. apply Hle. left.
      * eapply leb_trans; [exact Hym|]. apply Hle. left.
      * apply Hle. by right.
Qed.

Lemma foldl_minimum_spec l x :
  x ≠ NaN → Forall (λ y, y ≠ NaN) l →
  foldl minimum x l ∈ x :: l
  ∧ ∀ y, y ∈ x :: l → leb (foldl minimum x l) y = true.
Proof.
  revert x. induction l as [|y l IH]; intros x Hx Hl.
  - simpl. split; [left|]. intros y ->%list_elem_of_singleton.
    by apply leb_refl.
  - apply Forall_cons_1 in Hl as [Hy Hl]. simpl.
    destruct (minimum_cases x y Hx Hy) as (Hc & Hxm & Hym).
    assert (minimum x y ≠ NaN) as Hm by (by destruct Hc as [-> | ->]).
    destruct (IH _ Hm Hl) as [Hin Hle]. split.
    + apply elem_of_cons in Hin as [-> | Hin].
      * destruct Hc as [-> | ->]; [left | right; left].
      * by do 2 right.
    + intros w [-> | [-> | Hw]%elem_of_cons]%elem_of_cons.
      * eapply leb_trans; [|exact Hxm]. apply Hle. left.
      * eapply leb_trans; [|exact Hym]. apply Hle. left.
      * apply Hle. by right.
Qed.

Lemma list_max_spec l :
  l ≠ [] → Forall (λ y, y ≠ NaN) l →
  list_max l ∈ l ∧ ∀ y, y ∈ l → leb y (list_max l) = true.
Proof.
  destruct l as [|x l]; [done|]. intros _ [Hx Hl]%Forall_cons_1.
  by apply foldl_maximum_spec.
Qed.

Lemma list_min_spec l :
  l ≠ [] → Forall (λ y, y ≠ NaN) l →
  list_min l ∈ l ∧ ∀ y, y ∈ l → leb (list_min l) y = true.
Proof.
  destruct l as [|x l]; [done|]. intros _ [Hx Hl]%Forall_cons_1.
  by apply foldl_minimum_spec.
Qed.

(** ** read *)

Section Read.

Variable open_mfdataset : pyobj → result Dataset.
Variable horizontal_grid : gmap string pyobj → string → result Dataset.
Variable read_topography :
  gmap string pyobj → Dataset → string → result DataArray.
Variable generate_basin_masks : ndarray float → string → result (ndarray float).
Variable date_range : Dataset → result pyobj.
Variable calcmoc : Dataset → string → pyobj → pyobj → result DataArray.
Variable image_handler : gmap string pyobj → pyobj → string → result pyobj.

Local Abbreviation run :=
  (moc.run open_mfdataset horizontal_grid read_topography
     generate_basin_masks date_range calcmoc image_handler).

Local Abbreviation read :=
  (moc.read open_mfdataset horizontal_grid read_topography
     generate_basin_masks date_range).

Lemma interface_of_cases ds iface :
  moc.interface_of (moc.layer_of ds) = Some iface →
  (xr.in_dims ds "z_l" = true
   ∧ moc.layer_of ds = Some "z_l" ∧ iface = "z_i")
  ∨ (xr.in_dims ds "z_l" = false ∧ xr.in_dims ds "rho2_l" = true
     ∧ moc.layer_of ds = Some "rho2_l" ∧ iface = "rho2_i").
Proof.
  unfold moc.layer_of.
  destruct (xr.in_dims ds "z_l"); [|destruct (xr.in_dims ds "rho2_l")];
    vm_compute; intros [= <-]; auto.
Qed.

Lemma getitem_ok ds name a :
  xr.getitem ds name = Ok a → variables ds !! name = Some (variable a).
Proof.
  unfold xr.getitem. destruct (variables ds !! name); [|done].
  by intros [= <-].
Qed.

Lemma getattr_ok ds name a :
  xr.getattr ds name = Ok a → variables ds !! name = Some (variable a).
Proof.
  unfold xr.getattr. destruct (xr.getitem ds name) eqn:E; [|done].
  intros [= <-]. by apply getitem_ok.
Qed.

Lemma lookup_setitem_eq ds name a :
  variables (xr.setitem ds name a) !! name = Some (variable a).
Proof. apply lookup_insert_eq. Qed.

Lemma lookup_setitem_ne ds name name' a v :
  name ≠ name' →
  variables ds !! name' = Some v →
  variables (xr.setitem ds name a) !! name' = Some v.
Proof.
  intros Hne H. unfold xr.setitem. simpl.
  rewrite lookup_insert_ne by done. by apply lookup_union_Some_l.
Qed.

Lemma of_numpy_ok a ds x :
  xr.of_numpy a ds = Ok x →
  dims (variable x) = ds ∧ sizes (variable x) = shape a
  ∧ ∀ e, val (variable x) e = item a (e <$> ds).
Proof.
  unfold xr.of_numpy. destruct (_ =? _); [|done]. by intros [= <-].
Qed.

(** Looking a name up in a dataset that was built by assignments. *)
Ltac lookup_dataset :=
  repeat first
    [ apply lookup_setitem_eq
    | apply lookup_setitem_ne; [done|]
    | apply lookup_insert_eq
    | rewrite lookup_insert_ne by done
    | progress cbn [xr.set_attr xr.setitem variables attrs] ].

(** What the dataset returned by [read] holds. *)
Lemma read_returns dictArgs vcomp ucomp dset :
  outcome (read dictArgs vcomp ucomp) = Ok dset →
  ∃ infile ds layer iface edges bathy depth wet zmod,
    dictArgs !! "infile" = Some infile
    ∧ open_mfdataset infile = Ok ds
    ∧ moc.layer_of ds = Some layer
    ∧ moc.interface_of (Some layer) = Some iface
    ∧ variables ds !! iface = Some edges
    ∧ read_topography dictArgs ds "t" = Ok bathy
    ∧ attrs dset !! "layer" = Some (PyStr layer)
    ∧ attrs dset !! "interface" = Some (PyStr iface)
    ∧ variables dset !! "depth" = Some depth
    ∧ variables dset !! "wet" = Some wet
    ∧ variables dset !! "zmod" = Some zmod
    ∧ dims depth = ["yh"; "xh"]
    ∧ sizes depth = sizes (variable bathy)
    ∧ dims wet = ["yh"; "xh"]
    ∧ sizes wet = sizes (variable bathy)
    ∧ dims zmod = [iface; "yh"; "xh"]
    ∧ (∀ e, val depth e =
             let b := item (xr.values (variable bathy))
                        (np.bindex (sizes (variable bathy)) [e "yh"; e "xh"])
             in if isnan b then zero else b)
    ∧ (∀ e, val wet e =
             if isnan (item (xr.values (variable bathy)) [e "yh"; e "xh"])
             then zero else one)
    ∧ (∀ e, val zmod e =
             mul (minimum (val depth e) (fabs (val edges e))) (of_Z (-1))).
Proof.
  intros H. unfold moc.read in H. repeat step H.
  injection H as <-.
  unfold dict_get in Heqr. destruct (dictArgs !! "infile") as [infile|] eqn:Hin;
    [|done]. injection Heqr as <-.
  unfold assert in Heqr3.
  destruct (moc.layer_of a0) as [layer|] eqn:Hlayer; [|done].
  unfold moc.key in Heqr4.
  destruct (moc.interface_of (Some layer)) as [iface|] eqn:Hif; [|done].
  injection Heqr4 as <-.
  assert (iface = "z_i" ∨ iface = "rho2_i") as Hcases.
  { revert Hif. unfold moc.interface_of.
    repeat case_bool_decide; intros [= <-]; auto. }
  apply getitem_ok in Heqr5, Heqr14.
  apply getattr_ok in Heqr15, Heqr16.
  assert (variable a14 = variable a5) as E14.
  { apply (inj Some). rewrite <- Heqr14.
    destruct Hcases as [-> | ->]; by lookup_dataset. }
  assert (variable a16 = variable a13) as E16.
  { apply (inj Some). rewrite <- Heqr16. by lookup_dataset. }
  apply of_numpy_ok in Heqr13 as (Hd13 & Hs13 & Hv13).
  apply of_numpy_ok in Heqr18 as (Hd18 & Hs18 & Hv18).
  unfold np.where_scalar_array, np.map2 in Heqr12. simpl in Heqr12.
  rewrite broadcast_shapes_same in Heqr12. injection Heqr12 as <-.
  unfold xr.transpose in Heqr17.
  destruct (xr.infix_dims _ _) as [ds'|] eqn:Hinfix; [|done].
  injection Heqr17 as <-.
  assert (ds' = [iface; "yh"; "xh"]) as ->.
  { revert Hinfix. unfold xr.infix_dims. simpl.
    destruct (negb _); [done|]. destruct (forallb _ _); [|done].
    by intros [= <-]. }
  exists infile, a0, layer, iface, (variable a5), a11,
    (variable a13), (variable a18), (variable
      (mk_dataarray
         (mk_variable [iface; "yh"; "xh"]
            (xr.dim_size
               (variable
                  (xr.map (λ x, mul x (of_Z (-1)))
                     (xr.binop minimum a16
                        (xr.map fabs (xr.broadcast a14 (xr.ones_like a15)).1))))
             <$> [iface; "yh"; "xh"])
            (val (variable
                    (xr.map (λ x, mul x (of_Z (-1)))
                       (xr.binop minimum a16
                          (xr.map fabs
                             (xr.broadcast a14 (xr.ones_like a15)).1))))))
         (coords
            (xr.map (λ x, mul x (of_Z (-1)))
               (xr.binop minimum a16
                  (xr.map fabs (xr.broadcast a14 (xr.ones_like a15)).1)))))).
  split_and!; try done.
  - by lookup_dataset.
  - by lookup_dataset.
  - destruct Hcases as [-> | ->]; by lookup_dataset.
  - intros e. simpl. by rewrite E16, E14.
Qed.



(** C4.  [depth] and [wet] are complementary: at every cell of the
    bathymetry, [wet] is 0.0 exactly when the bathymetry is missing, and
    then [depth] is 0.0; where the bathymetry is present [wet] is 1.0 and
    [depth] is the bathymetry value. *)
Theorem read_depth_wet_complementary dictArgs vcomp ucomp dset infile ds bathy :
  outcome (read dictArgs vcomp ucomp) = Ok dset →
  dictArgs !! "infile" = Some infile →
  open_mfdataset infile = Ok ds →
  read_topography dictArgs ds "t" = Ok bathy →
  ∃ depth wet,
    variables dset !! "depth" = Some depth
    ∧ variables dset !! "wet" = Some wet
    ∧ shape (xr.values depth) = shape (xr.values (variable bathy))
    ∧ shape (xr.values wet) = shape (xr.values (variable bathy))
    ∧ ∀ j i,
        np.in_bounds (shape (xr.values (variable bathy))) [j; i] = true →
        let b := item (xr.values (variable bathy)) [j; i] in
        (item (xr.values wet) [j; i] = zero ↔ b = NaN)
        ∧ (b = NaN → item (xr.values depth) [j; i] = zero)
        ∧ (b ≠ NaN →
           item (xr.values wet) [j; i] = one
           ∧ item (xr.values depth) [j; i] = b).
Proof.
  intros H Hin Hopen Htopo.
  apply read_returns in H
    as (infile' & ds' & layer & iface & edges & bathy' & depth & wet & zmod
        & Hin' & Hopen' & _ & _ & _ & Htopo' & _ & _ & Hd & Hw & _
        & Hdd & Hds & Hwd & Hws & _ & Hdv & Hwv & _).
  rewrite Hin in Hin'. injection Hin' as <-.
  rewrite Hopen in Hopen'. injection Hopen' as <-.
  rewrite Htopo in Htopo'. injection Htopo' as <-.
  exists depth, wet. split_and!; try done.
  intros j i Hb. simpl in Hb |- *.
  rewrite Hdv, Hwv, Hdd, Hwd. simpl.
  rewrite (bindex_in_bounds _ _ Hb).
  destruct (val (variable bathy) _) as [|b]; simpl; split_and!; done.
Qed.


End Read.


(** C4 on the small ocean: cell (0, 0) is land and cell (0, 1) is 4000 m
    deep. *)
Lemma read_depth_wet_complementary_witness :
  ∃ depth wet,
    variables Sample.dset !! "depth" = Some depth
    ∧ variables Sample.dset !! "wet" = Some wet
    ∧ item (xr.values wet) [0; 0] = zero
    ∧ item (xr.values depth) [0; 0] = zero
    ∧ item (xr.values wet) [0; 1] = one
    ∧ item (xr.values depth) [0; 1] = of_Z 4000.
Proof.
  destruct (read_depth_wet_complementary Sample.open_mfdataset
              Sample.horizontal_grid Sample.read_topography
              Sample.generate_basin_masks Sample.date_range
              Sample.dictArgs "vmo" "umo" Sample.dset
              (PyStr "ocean_annual_z.nc") Sample.ds Sample.bathymetry
              ltac:(vm_compute; reflexivity) ltac:(vm_compute; reflexivity)
              eq_refl eq_refl)
    as (depth & wet & Hd & Hw & _ & _ & H).
  exists depth, wet.
  destruct (H 0 0 eq_refl) as (H00 & H00' & _).
  destruct (H 0 1 eq_refl) as (_ & _ & H01).
  split; [exact Hd|]. split; [exact Hw|].
  split; [apply H00; reflexivity|].
  split; [apply H00'; reflexivity|].
  apply H01. discriminate.
Defined.


(** ** calculate *)

Lemma env_of_fresh ds idx d : d ∉ ds → xr.env_of ds idx d = 0.
Proof.
  revert idx. induction ds as [|d' ds IH]; intros [|i idx] Hd; try done.
  simpl. apply not_elem_of_cons in Hd as [Hne Hd].
  destruct (String.eqb_spec d d'); [done|]. by apply IH.
Qed.

Lemma env_of_self ds idx :
  NoDup ds → length idx = length ds → xr.env_of ds idx <$> ds = idx.
Proof.
  revert idx. induction ds as [|d ds IH]; intros [|i idx] Hnd Hlen; try done.
  pose proof (NoDup_cons_1_1 _ _ Hnd) as Hd.
  apply NoDup_cons_1_2 in Hnd. injection Hlen as Hlen.
  cbn [fmap list_fmap]. f_equal.
  - simpl. by rewrite String.eqb_refl.
  - rewrite <- (IH idx Hnd Hlen) at 2. apply list_fmap_ext.
    intros _ x Hx%list_elem_of_lookup_2. simpl.
    destruct (String.eqb_spec x d) as [->|]; done.
Qed.

Lemma filter_fresh (ns ds : list string) :
  (∀ d, d ∈ ds → d ∉ ns) → filter (λ d, d ∉ ns) ds = ds.
Proof.
  induction ds as [|d ds IH]; intros H; [done|].
  rewrite filter_cons_True by (apply H; left).
  f_equal. apply IH. intros x Hx. apply H. by right.
Qed.

Lemma infix_dims_swap b d0 rest :
  NoDup (b :: d0 :: rest) →
  xr.infix_dims [xr.Dim d0; xr.Dim b; xr.Ellipsis] (b :: d0 :: rest)
  = Ok (d0 :: b :: rest).
Proof.
  intros Hnd. unfold xr.infix_dims. cbn [xr.named flat_map app].
  pose proof (NoDup_cons_1_1 _ _ Hnd) as Hb.
  pose proof (NoDup_cons_1_1 _ _ (NoDup_cons_1_2 _ _ Hnd)) as Hd.
  cbn [forallb]. rewrite !bool_decide_eq_true_2 by set_solver.
  cbn [negb andb xr.has_ellipsis existsb xr.is_ellipsis orb].
  cbn [List.filter xr.is_ellipsis length Nat.eqb andb].
  do 3 f_equal. rewrite app_nil_r.
  rewrite filter_cons_False by set_solver.
  rewrite filter_cons_False by set_solver.
  apply filter_fresh. intros d Hin.
  rewrite !not_elem_of_cons. split_and!.
  - by intros ->.
  - intros ->. apply Hb. by right.
  - apply not_elem_of_nil.
Qed.

Lemma env_of_swap b d0 rest sb s0 srest :
  NoDup (b :: d0 :: rest) → length srest = length rest →
  xr.env_of (b :: d0 :: rest) (sb :: s0 :: srest) <$> (d0 :: b :: rest)
  = s0 :: sb :: srest.
Proof.
  intros Hnd Hlen.
  pose proof (NoDup_cons_1_1 _ _ Hnd) as Hb.
  pose proof (NoDup_cons_1_1 _ _ (NoDup_cons_1_2 _ _ Hnd)) as Hd.
  pose proof (NoDup_cons_1_2 _ _ (NoDup_cons_1_2 _ _ Hnd)) as Hr.
  cbn [fmap list_fmap]. f_equal; [|f_equal].
  - simpl. rewrite String.eqb_refl.
    destruct (String.eqb_spec d0 b) as [->|]; [set_solver|done].
  - simpl. by rewrite String.eqb_refl.
  - rewrite <- (env_of_self rest srest Hr Hlen) at 2. apply list_fmap_ext.
    intros _ x Hx%list_elem_of_lookup_2. simpl.
    destruct (String.eqb_spec x b) as [->|]; [set_solver|].
    destruct (String.eqb_spec x d0) as [->|]; [set_solver|done].
Qed.

Section Calculate.

Variable calcmoc : Dataset → string → pyobj → pyobj → result DataArray.

(** C1, as the code has it.  [calculate] calls the overturning calculator
    for atl-arc, indopac and global, in this order, and concatenates the
    three results along a new dimension "basin"; after the transposition
    the leading dimension of the calculator's results is dimension 0 and
    "basin" is dimension 1, of size 3, followed by the other dimensions in
    their order; the value at a position is the value of the basin it
    names. *)
Theorem calculate_basin_second dset layer interface a0 a1 a2 d0 rest s0 srest :
  xr.getattr_attrs dset "layer" = Ok layer →
  xr.getattr_attrs dset "interface" = Ok interface →
  calcmoc dset "atl-arc" layer interface = Ok a0 →
  calcmoc dset "indopac" layer interface = Ok a1 →
  calcmoc dset "global" layer interface = Ok a2 →
  dims (variable a0) = d0 :: rest →
  sizes (variable a0) = s0 :: srest →
  length srest = length rest →
  NoDup ("basin" :: d0 :: rest) →
  dims (variable a1) = dims (variable a0) →
  dims (variable a2) = dims (variable a0) →
  sizes (variable a1) = sizes (variable a0) →
  sizes (variable a2) = sizes (variable a0) →
  ∃ otsfn,
    moc.calculate calcmoc dset =
      ([Calcmoc "atl-arc" layer interface; Calcmoc "indopac" layer interface;
        Calcmoc "global" layer interface], Ok otsfn)
    ∧ dims (variable otsfn) = d0 :: "basin" :: rest
    ∧ sizes (variable otsfn) = s0 :: 3 :: srest
    ∧ ∀ e, val (variable otsfn) e =
             match e "basin" with
             | 0 => val (variable a0) e
             | 1 => val (variable a1) e
             | 2 => val (variable a2) e
             | _ => NaN
             end.
Proof.
  intros Hl Hi H0 H1 H2 Hd Hs Hlen Hnd _ _ _ _.
  unfold moc.calculate, moc.basins.
  repeat first
    [ progress cbn [mbind M_bind bind lift call emit ret mapM app]
    | match goal with H : ?x = Ok _ |- context [?x] => rewrite H end ].
  cbn [xr.concat]. unfold moc.nth_dim. cbn [variable dims]. rewrite Hd.
  change (("basin" :: d0 :: rest) !! 1) with (Some d0).
  change (("basin" :: d0 :: rest) !! 0) with (Some "basin").
  unfold xr.transpose. cbn [variable dims].
  rewrite (infix_dims_swap _ _ _ Hnd).
  eexists. split; [reflexivity|]. cbn [variable dims sizes val].
  split; [done|]. split.
  - unfold xr.dim_size. cbn [dims sizes length]. rewrite Hs.
    by apply env_of_swap.
  - intros e. by destruct (e "basin") as [|[|[|n]]].
Qed.

End Calculate.

(** C1 on the small ocean, whose calculator returns arrays over
    (time, z_i, yq). *)
Lemma calculate_basin_second_witness :
  ∃ otsfn,
    Sample.calculate =
      ([Calcmoc "atl-arc" (PyStr "z_l") (PyStr "z_i");
        Calcmoc "indopac" (PyStr "z_l") (PyStr "z_i");
        Calcmoc "global" (PyStr "z_l") (PyStr "z_i")], Ok otsfn)
    ∧ dims (variable otsfn) = ["time"; "basin"; "z_i"; "yq"]
    ∧ sizes (variable otsfn) = [1; 3; 3; 4].
Proof.
  destruct (calculate_basin_second Sample.calcmoc Sample.dset
              (PyStr "z_l") (PyStr "z_i") _ _ _ "time" ["z_i"; "yq"] 1 [3; 4]
              ltac:(vm_compute; reflexivity) ltac:(vm_compute; reflexivity)
              eq_refl eq_refl eq_refl eq_refl eq_refl eq_refl
              ltac:(apply (bool_decide_unpack _); vm_compute; exact I)
              eq_refl eq_refl eq_refl eq_refl)
    as (otsfn & H & Hd & Hs & _).
  exists otsfn. split; [exact H|]. split; [exact Hd | exact Hs].
Defined.

(** C1 as stated fails on the small ocean: dimension 0 of the result is
    "time", the leading dimension of the calculator's arrays, and "basin" is
    dimension 1. *)
Lemma calculate_basin_leading_counterexample :
  ¬ (∃ otsfn,
       outcome Sample.calculate = Ok otsfn
       ∧ dims (variable otsfn) !! 0 = Some "basin"
       ∧ dims (variable otsfn) !! 1 = Some "time").
Proof.
  intros (otsfn & H & H0 & _).
  vm_compute in H. injection H as <-. discriminate H0.
Qed.

(** ** _plotPsi *)

Lemma elem_trace_bind {A B} (m : M A) (f : A → M B) ev :
  ev ∈ trace (m ≫= f) →
  ev ∈ trace m ∨ ∃ a, outcome m = Ok a ∧ ev ∈ trace (f a).
Proof.
  rewrite trace_bind, elem_of_app. intros [H|H]; [by left|].
  destruct (outcome m) as [a|e]; [right; eauto|]. by apply elem_of_nil in H.
Qed.

Lemma where_getmask fill psi :
  np.where_scalar_array (ma.getmask psi) fill (data psi)
  = Ok (filled_with fill psi).
Proof.
  unfold np.where_scalar_array, np.map2. simpl.
  by rewrite broadcast_shapes_same.
Qed.

Lemma filled_with_item fill psi idx :
  np.in_bounds (shape (data psi)) idx = true →
  item (filled_with fill psi) idx
  = if mask psi idx then fill else item (data psi) idx.
Proof. intros H. simpl. by rewrite (bindex_in_bounds _ _ H). Qed.

(** The drawing calls of [_plotPsi] up to the date label. *)
Lemma plotPsi_trace ax y z psi ci title xlim topomask yh zz dates :
  ∃ rest,
    trace (moc._plotPsi ax y z psi ci title xlim topomask yh zz dates)
    = Contourf ax y z (filled_with (fill_value topomask) psi) ci
      :: Contour ax y z (filled_with (fill_value topomask) psi) ci
      :: Contour ax y z (filled_with (fill_value topomask) psi) (Level [zero])
      :: rest
    ∧ ∀ ax' Y Z P ci', Contourf ax' Y Z P ci' ∉ rest.
Proof.
  unfold moc._plotPsi.
  assert (match topomask with
          | Some _ => np.where_scalar_array (ma.getmask psi) zero (data psi)
          | None => np.where_scalar_array (ma.getmask psi) NaN (data psi)
          end = Ok (filled_with (fill_value topomask) psi)) as ->.
  { destruct topomask; apply where_getmask. }
  rewrite lift_bind.
  destruct topomask as [tm|], yh as [yh|], zz as [zz|], xlim as [[lo hi]|],
    dates as [| | | |[|a [|b l]]|l];
    cbn -[of_Z of_Q zero filled_with];
    (eexists; split; [reflexivity|]);
    intros ax' Y Z P ci' H;
    repeat (apply elem_of_cons in H as [H|H]; [discriminate H|]);
    by apply elem_of_nil in H.
Qed.

Lemma plotPsi_contourf ax y z psi ci title xlim topomask yh zz dates ax' Y Z P ci' :
  Contourf ax' Y Z P ci'
  ∈ trace (moc._plotPsi ax y z psi ci title xlim topomask yh zz dates) →
  ax' = ax ∧ Y = y ∧ Z = z ∧ ci' = ci
  ∧ P = filled_with (fill_value topomask) psi.
Proof.
  destruct (plotPsi_trace ax y z psi ci title xlim topomask yh zz dates)
    as (rest & -> & Hrest).
  intros [H | H]%elem_of_cons; [by injection H as -> -> -> -> ->|].
  apply elem_of_cons in H as [H | H]; [discriminate H|].
  apply elem_of_cons in H as [H | H]; [discriminate H|].
  by apply Hrest in H.
Qed.

Lemma outcome_bind_raise {A B} (m : M A) (f : A → M B) :
  (∀ a, outcome m = Ok a → ∃ e, outcome (f a) = Raise e) →
  ∃ e, outcome (m ≫= f) = Raise e.
Proof. rewrite outcome_bind. destruct (outcome m); eauto. Qed.

Lemma plotPsi_not_tuple ax y z psi ci title xlim tm yh zz dates :
  dates ≠ PyNone → moc.is_tuple dates = false →
  outcome (moc._plotPsi ax y z psi ci title xlim (Some tm) (Some yh) (Some zz)
             dates)
  = Raise (AssertionError "Year range should be provided as a tuple.").
Proof.
  intros Hnone Htuple. unfold moc._plotPsi.
  rewrite where_getmask, lift_bind.
  destruct xlim as [[lo hi]|], dates as [| | | |l|l]; done.
Qed.

(** A date range that is not a tuple stops [plot] before it returns the
    figure. *)
Lemma plot_dates_not_tuple dset otsfn label d :
  xr.getattr_attrs dset "dates" = Ok d →
  d ≠ PyNone → moc.is_tuple d = false →
  ∃ e, outcome (moc.plot dset otsfn label) = Raise e.
Proof.
  intros Hd Hnone Htuple. unfold moc.plot.
  repeat (apply outcome_bind_raise;
          let Hstep := fresh "Hstep" in
          intros ? Hstep; cbv beta;
          try match goal with
              | |- context [let '(_, _) := ?p in _] => destruct p
              end;
          try (rewrite outcome_lift, Hd in Hstep; injection Hstep as <-);
          try (rewrite plotPsi_not_tuple in Hstep by done; discriminate Hstep)).
Qed.

(** C5, as the code has it.  When a date range other than [None] reaches
    the panel plotter, the check is that it is a tuple: anything else raises
    the assertion error (and [plot] returns no figure), a tuple of two or
    more elements is accepted and its first two elements are printed, and a
    shorter tuple fails on the label with an index error.  With [None]
    nothing is checked and the panel is drawn. *)
Theorem plotPsi_dates_check ax y z psi ci title xlim topomask yh zz :
  topomask = None ∨ (is_Some yh ∧ is_Some zz) →
  outcome (moc._plotPsi ax y z psi ci title xlim topomask yh zz PyNone) = Ok tt
  ∧ (∀ dates, dates ≠ PyNone → moc.is_tuple dates = false →
       outcome (moc._plotPsi ax y z psi ci title xlim topomask yh zz dates)
       = Raise (AssertionError "Year range should be provided as a tuple."))
  ∧ (∀ a b l,
       moc._plotPsi ax y z psi ci title xlim topomask yh zz (PyTuple (a :: b :: l))
       = (trace (moc._plotPsi ax y z psi ci title xlim topomask yh zz PyNone)
            ++ [Text ax (of_Q 0.98) (of_Q 1.02) (Years a b)], Ok tt))
  ∧ (∀ l, length l < 2 →
       outcome (moc._plotPsi ax y z psi ci title xlim topomask yh zz (PyTuple l))
       = Raise IndexError)
  ∧ (∀ dset otsfn label d,
       xr.getattr_attrs dset "dates" = Ok d →
       d ≠ PyNone → moc.is_tuple d = false →
       ∃ e, outcome (moc.plot dset otsfn label) = Raise e).
Proof.
  intros Hdraw. unfold moc._plotPsi.
  assert (match topomask with
          | Some _ => np.where_scalar_array (ma.getmask psi) zero (data psi)
          | None => np.where_scalar_array (ma.getmask psi) NaN (data psi)
          end = Ok (filled_with (fill_value topomask) psi)) as ->.
  { destruct topomask; apply where_getmask. }
  rewrite lift_bind.
  assert (∃ t, (match topomask with
                | Some tm =>
                    match yh, zz with
                    | Some yh, Some zz =>
                        emit (Pcolormesh ax yh (np.map (mul (of_Z (-1))) zz) tm)
                    | _, _ => raise TypeError
                    end
                | None => ret tt
                end : M ()) = (t, Ok tt)) as [t ->].
  { destruct Hdraw as [-> | [[yh' ->] [zz' ->]]].
    - eexists; reflexivity.
    - destruct topomask; eexists; reflexivity. }
  split_and!.
  - by destruct xlim as [[lo hi]|].
  - intros dates Hnone Htuple.
    destruct xlim as [[lo hi]|], dates as [| | | |l|l]; done.
  - intros a b l. destruct xlim as [[lo hi]|];
      cbn -[of_Q of_Z zero filled_with]; rewrite <- ?app_assoc; reflexivity.
  - intros l Hl. destruct xlim as [[lo hi]|], l as [|a [|b l]];
      try done; simpl in Hl; lia.
  - apply plot_dates_not_tuple.
Qed.

(** C5 on a small panel without topography: a list of two years is
    refused, a tuple of two years is printed. *)
Lemma plotPsi_dates_check_witness :
  outcome (moc._plotPsi 1 Sample.lat2 Sample.z2 Sample.psi2
             (PmCI zero (of_Z 43) (of_Z 3)) "a. Atlantic MOC [Sv]" None None
             None None (PyList [PyInt 1958; PyInt 2017]))
  = Raise (AssertionError "Year range should be provided as a tuple.")
  ∧ outcome (moc._plotPsi 1 Sample.lat2 Sample.z2 Sample.psi2
               (PmCI zero (of_Z 43) (of_Z 3)) "a. Atlantic MOC [Sv]" None None
               None None (PyTuple [PyInt 1958; PyInt 2017]))
    = Ok tt.
Proof.
  destruct (plotPsi_dates_check 1 Sample.lat2 Sample.z2 Sample.psi2
              (PmCI zero (of_Z 43) (of_Z 3)) "a. Atlantic MOC [Sv]" None None
              None None (or_introl eq_refl))
    as (_ & Hcheck & Htuple & _).
  split.
  - apply Hcheck; [discriminate | reflexivity].
  - rewrite Htuple. reflexivity.
Defined.

(** C5 as stated fails: a tuple of three years is not a two-element
    sequence and raises no assertion error. *)
Lemma plotPsi_two_element_counterexample :
  ¬ (∀ dates,
       dates ≠ PyNone → two_element_sequence dates = false →
       ∃ msg,
         outcome (moc._plotPsi 1 Sample.lat2 Sample.z2 Sample.psi2
                    (PmCI zero (of_Z 43) (of_Z 3)) "a. Atlantic MOC [Sv]" None
                    None None None dates)
         = Raise (AssertionError msg)).
Proof.
  intros H.
  destruct (H (PyTuple [PyInt 1958; PyInt 2017; PyInt 2020])
              ltac:(discriminate) eq_refl) as [msg Hmsg].
  vm_compute in Hmsg. discriminate Hmsg.
Qed.

(** ** _findExtrema *)

(** One statement of a monadic body whose log holds a given call. *)
Ltac tstep H :=
  apply elem_trace_bind in H as [H | (? & ? & H)];
  [ try (rewrite trace_lift in H; by apply elem_of_nil in H) | ].

Lemma findExtrema_events ax y z psi min_lat max_lat min_depth mult ev :
  ev ∈ trace (moc._findExtrema ax y z psi min_lat max_lat min_depth mult) →
  (∃ x y', ev = Marker ax x y' "kx") ∨ (∃ x y' v, ev = Text ax x y' (Fmt1 v)).
Proof.
  intros H. unfold moc._findExtrema in H. do 5 tstep H.
  destruct (np.unravel_index _ _) as [|j [|i [|]]];
    try by apply elem_of_nil in H.
  do 2 tstep H. tstep H.
  { apply list_elem_of_singleton in H as ->. eauto. }
  tstep H. apply list_elem_of_singleton in H as ->. eauto 10.
Qed.

Lemma map2_same_shape {A B C} (f : A → B → C) a b :
  shape a = shape b →
  np.map2 f a b
  = Ok (mk_ndarray (shape a)
          (λ idx, f (item a (np.bindex (shape a) idx))
                    (item b (np.bindex (shape b) idx)))).
Proof.
  intros E. unfold np.map2. by rewrite <- E, broadcast_shapes_same.
Qed.


(** The boolean array that [_findExtrema] selects with, for coordinates of
    the shape of [psi]. *)
Lemma region_same_shape y z (psi : MaskedArray float) min_lat max_lat min_depth :
  shape y = shape (data psi) → shape z = shape (data psi) →
  ∃ band region,
    np.map2 andb (np.map (λ v, geb v min_lat) y) (np.map (λ v, leb v max_lat) y)
    = Ok band
    ∧ np.map2 andb band (np.map (λ v, ltb v (neg min_depth)) z) = Ok region
    ∧ shape region = shape (data psi)
    ∧ ∀ idx, np.in_bounds (shape (data psi)) idx = true →
             item region idx = in_region y z min_lat max_lat min_depth idx.
Proof.
  intros Hy Hz. eexists _, _.
  rewrite map2_same_shape by done. split; [reflexivity|].
  rewrite map2_same_shape by (simpl; congruence). split; [reflexivity|].
  split; [done|]. intros idx Hidx. simpl. rewrite Hy, Hz.
  rewrite !(bindex_in_bounds _ _ Hidx). reflexivity.
Qed.



(** C6, evaluated.  The band 26.5 to 27 degrees holds the second column,
    whose maximum 5 sits at the lower level; the same value stands in the
    first column, at 20 degrees, and comes first in the array: the cross and
    the label go there, outside the band.  The label still shows the value
    of the extremum. *)
Lemma findExtrema_marks_outside_band :
  moc._findExtrema 1 Sample.lat2 Sample.z2 Sample.psi2
    (of_Q 26.5) (of_Q 27.0) moc.min_depth_default moc.mult_default
  = ([Marker 1 (of_Z 20) (of_Z (-10)) "kx";
      Text 1 (of_Z 20) (of_Z (-10)) (Fmt1 (Value (of_Z 5)))], Ok tt)
  ∧ geb (of_Z 20) (of_Q 26.5) = false
  ∧ in_region Sample.lat2 Sample.z2 (of_Q 26.5) (of_Q 27.0)
      moc.min_depth_default [1; 1] = true
  ∧ item (data Sample.psi2) [1; 1] = of_Z 5
  ∧ in_region Sample.lat2 Sample.z2 (of_Q 26.5) (of_Q 27.0)
      moc.min_depth_default [0; 0] = false.
Proof. vm_compute. repeat split. Qed.

(** ** _create_topomask *)

Lemma mul_zero_r x : x ≠ NaN → mul x zero = zero.
Proof.
  destruct x as [|a]; [done|]. intros _. simpl. unfold zero. f_equal.
  apply Qcmult_0_r.
Qed.

Lemma mul_zero_l x : x ≠ NaN → mul zero x = zero.
Proof.
  destruct x as [|a]; [done|]. intros _. simpl. unfold zero. f_equal.
  apply Qcmult_0_l.
Qed.

Lemma arange_levels :
  shape (np.arange 0 7100 100) = [71]
  ∧ ∀ k, item (np.arange 0 7100 100) [k] = of_Z (100 * Z.of_nat k).
Proof. split; [reflexivity|]. intros k. reflexivity. Qed.

Lemma reduce_last_2d f a ny nx :
  shape a = [ny; S nx] →
  np.reduce_last f a
  = Ok (mk_ndarray [ny]
          (λ idx, foldl f (item a (idx ++ [0]))
                    ((λ i, item a (idx ++ [i])) <$> seq 1 nx))).
Proof. intros E. unfold np.reduce_last. by rewrite E. Qed.

Lemma last_axis_ext a b pre n :
  (∀ i, i ≤ n → item a (pre ++ [i]) = item b (pre ++ [i])) →
  last_axis a pre n = last_axis b pre n.
Proof.
  intros H. unfold last_axis. apply list_fmap_ext.
  intros k i Hi%list_elem_of_lookup_2%list_elem_of_In%in_seq. apply H. lia.
Qed.

Lemma last_axis_nonempty a pre n : last_axis a pre n ≠ [].
Proof. unfold last_axis. simpl. discriminate. Qed.

Lemma create_topomask_returns depth yh basin ny nx :
  shape depth = [ny; S nx] →
  shape yh = [ny] →
  (∀ m, basin = Some m → sizes (variable m) = [ny; S nx]) →
  ∃ tm,
    moc._create_topomask depth yh basin = Ok (tm, np.arange 0 7100 100)
    ∧ shape (data tm) = [71; ny]
    ∧ ∀ k j, k < 71 → j < ny →
        let level := item (np.arange 0 7100 100) [k] in
        let floor :=
          list_max (last_axis (mk_ndarray (shape depth) (in_basin depth basin))
                      [j] nx) in
        mask tm [k; j] = ltb level floor
        ∧ (mask tm [k; j] = false → item (data tm) [k; j] = mul floor zero).
Proof.
  intros Hd Hyh Hm. unfold moc._create_topomask.
  assert (∃ W,
            match basin with
            | Some mask =>
                np.where_array_scalar
                  (np.map (λ v, eqb v one) (xr.values (variable mask)))
                  depth zero
            | None => Ok depth
            end = Ok W
            ∧ shape W = [ny; S nx]
            ∧ ∀ j i, j < ny → i ≤ nx →
                item W [j; i] = in_basin depth basin [j; i])
    as (W & -> & HW & HWi).
  { destruct basin as [m|]; [|by exists depth].
    unfold np.where_array_scalar.
    rewrite map2_same_shape by (simpl; rewrite Hd; by apply Hm).
    eexists. split; [reflexivity|]. simpl. rewrite (Hm m eq_refl).
    split; [done|]. intros j i Hj Hi. rewrite Hd.
    rewrite !bindex_in_bounds; [done|simpl..];
      by rewrite !(proj2 (Nat.ltb_lt _ _)) by lia. }
  cbn [mbind result_bind]. unfold np.max_last.
  rewrite (reduce_last_2d _ _ _ _ HW).
  cbn [mbind result_bind np.meshgrid np.newaxis_first shape].
  match goal with
  | |- context [np.map2 ltb ?zz ?t] => set (ZZ := zz); set (T := t)
  end.
  assert (shape ZZ = [71; ny]) as HZZ.
  { unfold ZZ, np.size. cbn [shape]. rewrite Hyh.
    change (foldr Nat.mul 1 (shape (np.arange 0 7100 100))) with 71.
    cbn [foldr]. by rewrite Nat.mul_1_r. }
  assert (shape T = [71; ny]) as HT.
  { unfold T, np.tile. cbn [shape].
    change (np.len (np.arange 0 7100 100)) with 71.
    cbn. by rewrite Nat.add_0_r. }
  assert (∀ k j, k < 71 → j < ny →
            item ZZ [k; j] = item (np.arange 0 7100 100) [k]
            ∧ item T [k; j]
              = list_max (last_axis (mk_ndarray (shape depth)
                                       (in_basin depth basin)) [j] nx))
    as Hitems.
  { intros k j Hk Hj. split.
    - unfold ZZ, np.flat. cbn [item nth].
      change (shape (np.arange 0 7100 100)) with [71].
      cbn [np.unravel_index foldr]. by rewrite Nat.div_1_r.
    - unfold T, np.tile. cbn [item shape length Nat.max Nat.sub np.pad_left
                                replicate app zip_with drop list.tail].
      rewrite (Nat.mod_small j ny) by done.
      transitivity (list_max (last_axis W [j] nx)); [reflexivity|].
      f_equal. apply last_axis_ext. intros i Hi. by apply HWi. }
  rewrite map2_same_shape by congruence. cbn [mbind result_bind].
  unfold ma.masked_where. cbn [shape].
  rewrite bool_decide_eq_true_2 by congruence.
  eexists. split; [reflexivity|]. split; [exact HT|].
  intros k j Hk Hj. cbn [mask data ma.mul_scalar item shape].
  rewrite HZZ, HT.
  rewrite bindex_in_bounds
    by (simpl; by rewrite !(proj2 (Nat.ltb_lt _ _)) by lia).
  destruct (Hitems k j Hk Hj) as [-> ->]. split; [done|].
  by intros ->.
Qed.

(** C7, as the code has it.  [_create_topomask] sets the bathymetry outside
    the basin mask to zero, takes the maximum of each row as the depth of
    the sea floor there, and lays it against the levels 0, 100, ..., 7000 m.
    The masked cells are those whose level is strictly above the sea floor
    (level < floor): the water column.  The cells at or below the sea floor
    stay unmasked, they are the ones that are shaded, and their value is
    floor * 0.0, that is 0.0 for a floor that is a number. *)
Theorem create_topomask_masks_water depth yh basin ny nx :
  shape depth = [ny; S nx] →
  shape yh = [ny] →
  (∀ m, basin = Some m → sizes (variable m) = [ny; S nx]) →
  ∃ tm,
    moc._create_topomask depth yh basin = Ok (tm, np.arange 0 7100 100)
    ∧ shape (np.arange 0 7100 100) = [71]
    ∧ shape (data tm) = [71; ny]
    ∧ ∀ k j, k < 71 → j < ny →
        let level := of_Z (100 * Z.of_nat k) in
        let row :=
          last_axis (mk_ndarray (shape depth) (in_basin depth basin)) [j] nx in
        let floor := list_max row in
        item (np.arange 0 7100 100) [k] = level
        ∧ (mask tm [k; j] = true ↔ ltb level floor = true)
        ∧ (mask tm [k; j] = false → item (data tm) [k; j] = mul floor zero)
        ∧ (Forall (λ d, d ≠ NaN) row →
           floor ∈ row
           ∧ (∀ d, d ∈ row → leb d floor = true)
           ∧ (mask tm [k; j] = false → item (data tm) [k; j] = zero)).
Proof.
  intros Hd Hyh Hm.
  destruct (create_topomask_returns depth yh basin ny nx Hd Hyh Hm)
    as (tm & Htm & Hshape & Hcells).
  exists tm. split_and!; [done | apply arange_levels | done |].
  intros k j Hk Hj. cbv zeta.
  destruct (Hcells k j Hk Hj) as [Hmask Hdata].
  rewrite (proj2 arange_levels) in Hmask.
  split_and!.
  - apply arange_levels.
  - by rewrite Hmask.
  - done.
  - intros Hrow.
    destruct (list_max_spec _ (last_axis_nonempty _ _ _) Hrow) as [Hin Hle].
    split_and!; [done..|].
    intros Hunmasked. rewrite (Hdata Hunmasked). apply mul_zero_r.
    apply (proj1 (List.Forall_forall _ _) Hrow), list_elem_of_In, Hin.
Qed.

(** C7 on a shelf 250 m deep: the surface level is masked and the level
    300 m is not. *)
Lemma create_topomask_masks_water_witness :
  ∃ tm,
    moc._create_topomask Sample.shelf Sample.shelf_yh None
    = Ok (tm, np.arange 0 7100 100)
    ∧ mask tm [0; 0] = true
    ∧ mask tm [3; 0] = false
    ∧ item (data tm) [3; 0] = zero.
Proof.
  destruct (create_topomask_masks_water Sample.shelf Sample.shelf_yh None 1 1
              eq_refl eq_refl ltac:(intros m Hm; discriminate Hm))
    as (tm & Htm & _ & _ & Hcells).
  exists tm. split; [exact Htm|].
  destruct (Hcells 0 0 ltac:(lia) ltac:(lia)) as (_ & H0 & _).
  destruct (Hcells 3 0 ltac:(lia) ltac:(lia)) as (_ & H3 & _ & H3').
  split; [apply H0; reflexivity|].
  assert (mask tm [3; 0] = false) as Hm.
  { destruct (mask tm [3; 0]); [|reflexivity].
    destruct H3 as [H3 _]. discriminate (H3 eq_refl). }
  split; [exact Hm|]. apply H3'; [|exact Hm].
  repeat constructor; discriminate.
Defined.

(** C7 as stated fails on the same shelf: the surface level does not exceed
    the bathymetry, and it is masked. *)
Lemma create_topomask_masked_counterexample :
  ¬ (∀ tm z,
       moc._create_topomask Sample.shelf Sample.shelf_yh None = Ok (tm, z) →
       ∀ k, k < 71 →
         mask tm [k; 0] = true ↔ ltb (of_Z 250) (item z [k]) = true).
Proof.
  intros H.
  destruct (H _ _ eq_refl 0 ltac:(lia)) as [H0 _].
  discriminate (H0 eq_refl).
Qed.

(** ** plot *)

Lemma outcome_if_lift {A} (b : bool) (r : result A) (v : A) :
  outcome (if b then lift r else ret v) = if b then r else Ok v.
Proof. by destruct b. Qed.

Lemma trace_if_lift {A} (b : bool) (r : result A) (v : A) :
  trace (if b then lift r else ret v) = [].
Proof. by destruct b. Qed.

(** One statement of [plot] on the way to a contouring call. *)
Ltac pstep H :=
  let x := fresh "x" in
  let Hx := fresh "Hx" in
  apply elem_trace_bind in H as [H | (x & Hx & H)];
  [ first
      [ rewrite trace_lift in H; by apply elem_of_nil in H
      | rewrite trace_if_lift in H; by apply elem_of_nil in H
      | apply list_elem_of_singleton in H; discriminate H
      | apply findExtrema_events in H as [(? & ? & H) | (? & ? & ? & H)];
        discriminate H
      | idtac ]
  | rewrite ?outcome_lift, ?outcome_if_lift in Hx ].

(** Where a filled-contour call of [plot] comes from: the coordinates are
    those derived from [geolat] and [zmod], the panel is one of the three,
    and the field is the panel's basin with zeros under the mask. *)
Lemma plot_contourf dset otsfn label ax Y Z P ci :
  Contourf ax Y Z P ci ∈ trace (moc.plot dset otsfn label) →
  ∃ geolat zmod rowmax psiPlot,
    xr.getattr dset "geolat" = Ok geolat
    ∧ xr.getattr dset "zmod" = Ok zmod
    ∧ (if bool_decide (np.ndim (xr.values (variable zmod)) ≠ 1)
       then np.min_last (xr.values (variable zmod))
       else Ok (xr.values (variable zmod))) = Ok Z
    ∧ moc.slice2 (xr.values (variable geolat)) = Ok (xr.values (variable geolat))
    ∧ np.max_last (xr.values (variable geolat)) = Ok rowmax
    ∧ np.map2 add rowmax (np.map (mul zero) Z) = Ok Y
    ∧ (ax = 1 ∨ ax = 2 ∨ ax = 3)
    ∧ ma.subarray (xr.to_masked_array (variable otsfn)) [0; ax - 1] = Ok psiPlot
    ∧ P = filled_with zero psiPlot.
Proof.
  intros H. unfold moc.plot in H.
  do 13 pstep H.
  assert (x9 = xr.values (variable x)) as ->.
  { unfold moc.slice2 in Hx9. destruct (2 <=? _); [|done]. by injection Hx9. }
  pstep H. destruct x9 as [atlantic_topomask zz].
  pstep H. destruct x9 as [indo_pacific_topomask zz0].
  pstep H. destruct x9 as [global_topomask zz1].
  do 3 pstep H. pstep H.
  { apply plotPsi_contourf in H as (-> & -> & -> & -> & ->).
    eexists _, _, _, _. split_and!; eauto. }
  do 5 pstep H. pstep H.
  { apply plotPsi_contourf in H as (-> & -> & -> & -> & ->).
    eexists _, _, _, _. split_and!; eauto. }
  do 4 pstep H. pstep H.
  { apply plotPsi_contourf in H as (-> & -> & -> & -> & ->).
    eexists _, _, _, _. split_and!; eauto. }
  do 5 pstep H.
  destruct label; pstep H; by apply elem_of_nil in H.
Qed.


(** C10.  [_plotPsi] hands the same array to its three contouring calls:
    the data of the streamfunction with 0.0 in place of the masked entries
    when a topography mask is given, and with NaN when none is.  [plot]
    gives a topography mask for each of its three panels, so every field it
    contours has zeros under the mask. *)
Theorem plotPsi_masked_as_zero :
  (∀ ax y z psi ci title xlim topomask yh zz dates,
     (∃ rest,
        trace (moc._plotPsi ax y z psi ci title xlim topomask yh zz dates)
        = Contourf ax y z (filled_with (fill_value topomask) psi) ci
          :: Contour ax y z (filled_with (fill_value topomask) psi) ci
          :: Contour ax y z (filled_with (fill_value topomask) psi)
               (Level [zero])
          :: rest
        ∧ ∀ ax' Y Z P ci', Contourf ax' Y Z P ci' ∉ rest)
     ∧ shape (filled_with (fill_value topomask) psi) = shape (data psi)
     ∧ ∀ idx, np.in_bounds (shape (data psi)) idx = true →
         item (filled_with (fill_value topomask) psi) idx
         = if mask psi idx
           then match topomask with Some _ => zero | None => NaN end
           else item (data psi) idx)
  ∧ (∀ dset otsfn label ax Y Z P ci,
       Contourf ax Y Z P ci ∈ trace (moc.plot dset otsfn label) →
       ∃ psiPlot,
         ma.subarray (xr.to_masked_array (variable otsfn)) [0; ax - 1]
         = Ok psiPlot
         ∧ shape P = shape (data psiPlot)
         ∧ ∀ idx, np.in_bounds (shape (data psiPlot)) idx = true →
             item P idx
             = if mask psiPlot idx then zero else item (data psiPlot) idx).
Proof.
  split.
  - intros. split_and!.
    + apply plotPsi_trace.
    + done.
    + intros idx Hidx. by rewrite filled_with_item.
  - intros dset otsfn label ax Y Z P ci H.
    apply plot_contourf in H
      as (geolat & zmod & rowmax & psiPlot & _ & _ & _ & _ & _ & _ & _ & Hpsi
          & ->).
    exists psiPlot. split_and!; [done..|].
    intros idx Hidx. by rewrite filled_with_item.
Qed.


Lemma add_zero_mul x z : z ≠ NaN → add x (mul zero z) = x.
Proof.
  destruct z as [|c]; [done|]. intros _. destruct x as [|a]; [done|].
  simpl. f_equal. rewrite Qcmult_0_l. apply Qcplus_0_r.
Qed.

Lemma reduce_last_3d f a nz ny nx :
  shape a = [nz; ny; S nx] →
  np.reduce_last f a
  = Ok (mk_ndarray [nz; ny]
          (λ idx, foldl f (item a (idx ++ [0]))
                    ((λ i, item a (idx ++ [i])) <$> seq 1 nx))).
Proof. intros E. unfold np.reduce_last. by rewrite E. Qed.

Lemma map2_row_broadcast {A B C} (f : A → B → C) r z nz ny :
  shape r = [ny] → shape z = [nz; ny] →
  ∃ w, np.map2 f r z = Ok w
       ∧ shape w = [nz; ny]
       ∧ ∀ k j, k < nz → j < ny →
           item w [k; j] = f (item r [j]) (item z [k; j]).
Proof.
  intros Hr Hz. unfold np.map2, np.broadcast_shapes. rewrite Hr, Hz.
  cbn [rev app np.broadcast_rev]. rewrite Nat.eqb_refl.
  cbn [fmap option_fmap option_map rev app].
  eexists. split; [reflexivity|]. split; [done|].
  intros k j Hk Hj. cbn [item].
  rewrite (bindex_in_bounds [nz; ny] [k; j])
    by (simpl; by rewrite !(proj2 (Nat.ltb_lt _ _)) by lia).
  unfold np.bindex. cbn [length Nat.sub drop zip_with].
  destruct (Nat.eqb_spec ny 1) as [->|]; [|done].
  by replace j with 0 by lia.
Qed.

(** C8.  The coordinates of every filled-contour call of [plot]: the
    vertical coordinate is [zmod] itself when it is 1-D and otherwise its
    minimum along the last axis; the y-coordinate at level k and row j is
    the maximum of geolat[j, :] plus 0 * z[k, j], that is this maximum
    wherever the vertical coordinate is a number. *)
Theorem plot_coordinates dset otsfn label ax Y Z P ci :
  Contourf ax Y Z P ci ∈ trace (moc.plot dset otsfn label) →
  ∃ geolat zmod,
    xr.getattr dset "geolat" = Ok geolat
    ∧ xr.getattr dset "zmod" = Ok zmod
    ∧ (np.ndim (xr.values (variable zmod)) = 1 → Z = xr.values (variable zmod))
    ∧ (np.ndim (xr.values (variable zmod)) ≠ 1 →
       np.min_last (xr.values (variable zmod)) = Ok Z)
    ∧ (∀ nz ny nx,
         shape (xr.values (variable zmod)) = [nz; ny; S nx] →
         shape Z = [nz; ny]
         ∧ ∀ k j,
             let column := last_axis (xr.values (variable zmod)) [k; j] nx in
             item Z [k; j] = list_min column
             ∧ (Forall (λ d, d ≠ NaN) column →
                item Z [k; j] ∈ column
                ∧ ∀ d, d ∈ column → leb (item Z [k; j]) d = true))
    ∧ (∀ nz ny nx,
         shape (xr.values (variable geolat)) = [ny; S nx] →
         shape Z = [nz; ny] →
         shape Y = [nz; ny]
         ∧ ∀ k j, k < nz → j < ny →
             let row := last_axis (xr.values (variable geolat)) [j] nx in
             item Y [k; j] = add (list_max row) (mul zero (item Z [k; j]))
             ∧ (item Z [k; j] ≠ NaN →
                item Y [k; j] = list_max row
                ∧ (Forall (λ d, d ≠ NaN) row →
                   item Y [k; j] ∈ row
                   ∧ ∀ d, d ∈ row → leb d (item Y [k; j]) = true))).
Proof.
  intros H.
  apply plot_contourf in H
    as (geolat & zmod & rowmax & psiPlot & Hg & Hz & HZ & _ & Hrow & HY & _).
  exists geolat, zmod. split_and!; try done.
  - intros E. rewrite bool_decide_eq_false_2 in HZ by (intros Hn; by apply Hn).
    by injection HZ.
  - intros E. by rewrite bool_decide_eq_true_2 in HZ.
  - intros nz ny nx Hs.
    rewrite bool_decide_eq_true_2 in HZ by (unfold np.ndim; by rewrite Hs).
    unfold np.min_last in HZ. rewrite (reduce_last_3d _ _ _ _ _ Hs) in HZ.
    injection HZ as <-. split; [done|]. intros k j. cbv zeta.
    split; [reflexivity|]. intros Hcol.
    apply (list_min_spec _ (last_axis_nonempty _ _ _) Hcol).
  - intros nz ny nx Hs HsZ.
    unfold np.max_last in Hrow. rewrite (reduce_last_2d _ _ _ _ Hs) in Hrow.
    injection Hrow as <-.
    destruct (map2_row_broadcast add
                (mk_ndarray [ny]
                   (λ idx, foldl maximum
                             (item (xr.values (variable geolat)) (idx ++ [0]))
                             ((λ i, item (xr.values (variable geolat))
                                      (idx ++ [i])) <$> seq 1 nx)))
                (np.map (mul zero) Z) nz ny eq_refl HsZ)
      as (w & Hw & Hws & Hwi).
    assert (Ok w = Ok Y) as Ew
      by (etransitivity; [symmetry; exact Hw | exact HY]).
    injection Ew as ->. split; [done|].
    intros k j Hk Hj. cbv zeta.
    assert (item Y [k; j]
            = add (list_max (last_axis (xr.values (variable geolat)) [j] nx))
                (mul zero (item Z [k; j]))) as E.
    { by rewrite (Hwi k j Hk Hj). }
    split; [exact E|]. intros HZn. rewrite E, (add_zero_mul _ _ HZn).
    split; [done|]. intros Hr.
    apply (list_max_spec _ (last_axis_nonempty _ _ _) Hr).
Qed.

Lemma sample_contourf :
  Contourf 1 Sample.contour_y Sample.contour_z Sample.contour_psi
    (PmCI zero (of_Z 43) (of_Z 3)) ∈ trace Sample.plot.
Proof.
  apply (list_elem_of_lookup_2 _ 2). vm_compute. reflexivity.
Qed.

(** C8 on the small ocean: at the deepest level, the y-coordinate of the
    third row is the maximum of the third row of [geolat]. *)
Lemma plot_coordinates_witness :
  ∃ geolat,
    xr.getattr Sample.dset "geolat" = Ok geolat
    ∧ item Sample.contour_y [2; 2]
      = list_max (last_axis (xr.values (variable geolat)) [2] 1).
Proof.
  destruct (plot_coordinates Sample.dset Sample.otsfn PyNone 1
              Sample.contour_y Sample.contour_z Sample.contour_psi
              (PmCI zero (of_Z 43) (of_Z 3)) sample_contourf)
    as (geolat & zmod & Hg & _ & _ & _ & _ & HY).
  exists geolat. split; [exact Hg|].
  vm_compute in Hg. injection Hg as <-.
  destruct (HY 3 4 1 eq_refl eq_refl) as [_ HYi].
  apply (HYi 2 2); [lia | lia | vm_compute; discriminate].
Defined.

(** C10 on the small ocean: the Indo-Pacific streamfunction is missing at
    the first cell, and the field contoured on the second panel is 0.0
    there. *)
Lemma plotPsi_masked_as_zero_witness :
  ∃ psiPlot,
    ma.subarray (xr.to_masked_array (variable Sample.otsfn)) [0; 1] = Ok psiPlot
    ∧ mask psiPlot [0; 0] = true
    ∧ item Sample.indopac_psi [0; 0] = zero.
Proof.
  assert (Contourf 2 Sample.indopac_y Sample.indopac_z Sample.indopac_psi
            (PmCI zero (of_Z 43) (of_Z 3)) ∈ trace Sample.plot) as Hc.
  { apply (list_elem_of_lookup_2 _ 20). vm_compute. reflexivity. }
  destruct (proj2 plotPsi_masked_as_zero Sample.dset Sample.otsfn PyNone 2
              Sample.indopac_y Sample.indopac_z Sample.indopac_psi
              (PmCI zero (of_Z 43) (of_Z 3)) Hc)
    as (psiPlot & Hpsi & _ & Hitem).
  exists psiPlot. split; [exact Hpsi|].
  vm_compute in Hpsi. injection Hpsi as <-.
  split; [reflexivity|]. apply (Hitem [0; 0] eq_refl).
Defined.


(** ** The log of a computation *)

Lemma logs_lift {A} (r : result A) : logs (lift r) [].
Proof. split; [done|]. by intros. Qed.

Lemma logs_ret {A} (a : A) : logs (ret a) [].
Proof. split; [done|]. by intros. Qed.

Lemma logs_call {A} e (r : result A) : logs (call e r) [e].
Proof. split; [done|]. by intros. Qed.

Lemma logs_bind {A B} (m : M A) (f : A → M B) L1 L2 :
  logs m L1 → (∀ a, outcome m = Ok a → logs (f a) L2) →
  logs (m ≫= f) (L1 ++ L2).
Proof.
  intros [Hp Hr] Hf. split.
  - rewrite trace_bind. destruct (outcome m) as [a|e] eqn:E.
    + rewrite (Hr a eq_refl). apply prefix_app, (proj1 (Hf a eq_refl)).
    + rewrite app_nil_r. by apply prefix_app_r.
  - intros b. rewrite outcome_bind, trace_bind.
    destruct (outcome m) as [a|e] eqn:E; [|done].
    intros Hb. rewrite (Hr a eq_refl). f_equal.
    exact (proj2 (Hf a eq_refl) b Hb).
Qed.

Lemma logs_bind_nil {A B} (m : M A) (f : A → M B) L :
  logs m [] → (∀ a, outcome m = Ok a → logs (f a) L) → logs (m ≫= f) L.
Proof. apply (logs_bind m f [] L). Qed.

Lemma logs_bind_call {A B} e (r : result A) (f : A → M B) L :
  (∀ a, r = Ok a → logs (f a) L) → logs (call e r ≫= f) (e :: L).
Proof. intros H. apply (logs_bind _ f [e] L); [apply logs_call | done]. Qed.

Lemma logs_assert b msg : logs (assert b msg) [].
Proof. destruct b; split; done. Qed.

Lemma logs_mapM_call {A B} (E : A → event) (g : A → result B) l :
  logs (mapM (λ x, call (E x) (g x)) l) (E <$> l).
Proof.
  induction l as [|a l IH]; [apply logs_ret|].
  cbn [mapM fmap list_fmap]. apply logs_bind_call. intros b _.
  rewrite <- (app_nil_r (E <$> l)).
  apply logs_bind; [exact IH|]. intros bs _. apply logs_ret.
Qed.

Lemma logs_mapM_lift {A B} (h : A → result B) l :
  logs (mapM (λ x, lift (h x)) l) [].
Proof.
  induction l as [|a l IH]; [apply logs_ret|].
  cbn [mapM]. apply logs_bind_nil; [apply logs_lift|]. intros b _.
  apply logs_bind_nil; [exact IH|]. intros bs _. apply logs_ret.
Qed.

(** What [mapM] returns, element by element. *)
Lemma mapM_returns {A B} (f : A → M B) l bs :
  outcome (mapM f l) = Ok bs → Forall2 (λ x b, outcome (f x) = Ok b) l bs.
Proof.
  revert bs. induction l as [|a l IH]; intros bs H.
  - injection H as <-. constructor.
  - cbn [mapM] in H. rewrite outcome_bind in H.
    destruct (outcome (f a)) as [b|] eqn:Eb; [|done].
    rewrite outcome_bind in H.
    destruct (outcome (mapM f l)) as [bs'|] eqn:Ebs; [|done].
    injection H as <-. constructor; [done|]. by apply IH.
Qed.

Lemma Forall2_two {A B} (P : A → B → Prop) x y l :
  Forall2 P [x; y] l → ∃ a b, l = [a; b] ∧ P x a ∧ P y b.
Proof.
  intros H. apply Forall2_cons_inv_l in H as (a & l' & Ha & H & ->).
  apply Forall2_cons_inv_l in H as (b & l'' & Hb & H & ->).
  apply Forall2_nil_inv_l in H as ->. eauto.
Qed.

(** Looking a name up in a dataset that was built by assignments. *)
Ltac lookup_dataset :=
  repeat first
    [ apply lookup_setitem_eq
    | apply lookup_setitem_ne; [done|]
    | apply lookup_insert_eq
    | rewrite lookup_insert_ne by done
    | progress cbn [xr.set_attr xr.setitem variables attrs] ].

(** ** read: calls, errors and contents *)

Section ReadMore.

Variable open_mfdataset : pyobj → result Dataset.
Variable horizontal_grid : gmap string pyobj → string → result Dataset.
Variable read_topography :
  gmap string pyobj → Dataset → string → result DataArray.
Variable generate_basin_masks : ndarray float → string → result (ndarray float).
Variable date_range : Dataset → result pyobj.

Local Abbreviation read :=
  (moc.read open_mfdataset horizontal_grid read_topography
     generate_basin_masks date_range).

(** The calls of [read], in their order. *)
Lemma read_logs dictArgs vcomp ucomp infile :
  dictArgs !! "infile" = Some infile →
  logs (read dictArgs vcomp ucomp) (read_calls infile).
Proof.
  intros Hin.
  unfold moc.read, dict_get, read_calls. rewrite Hin, ret_bind.
  apply logs_bind_call. intros ds _.
  do 2 (apply logs_bind_nil; [apply logs_lift|]; intros ? _).
  apply logs_bind_nil; [apply logs_assert|]. intros _ _.
  apply logs_bind_nil; [unfold moc.key; destruct (moc.interface_of _);
                        split; done|]. intros iface _.
  apply logs_bind_nil; [apply logs_lift|]. intros edges _.
  apply logs_bind_call. intros dsT _.
  do 4 (apply logs_bind_nil; [apply logs_lift|]; intros ? _).
  apply logs_bind_call. intros bathy _.
  do 8 (apply logs_bind_nil; [apply logs_lift|]; intros ? _).
  apply (logs_bind _ _ [GenerateBasinMasks "atlantic_arctic";
                        GenerateBasinMasks "indo_pacific"] [DateRange]).
  { apply (logs_mapM_call GenerateBasinMasks). }
  intros masks _.
  apply logs_bind_nil; [apply logs_mapM_lift|]. intros ? _.
  apply logs_bind_nil; [apply logs_lift|]. intros ? _.
  apply (logs_bind _ _ [DateRange] []); [apply logs_call|].
  intros dates _. apply logs_ret.
Qed.

(** X1.  [read] calls its collaborators in one fixed order and each of
    them once: the input is opened, the grid and the topography are read,
    the two basin masks are generated (Atlantic-Arctic, then Indo-Pacific)
    and the date range is taken last.  A [read] that returns has made
    exactly these six calls; a [read] that raises has made a beginning of
    them and nothing else. *)
Theorem read_call_order dictArgs vcomp ucomp infile :
  dictArgs !! "infile" = Some infile →
  trace (read dictArgs vcomp ucomp) `prefix_of` read_calls infile
  ∧ ∀ dset, outcome (read dictArgs vcomp ucomp) = Ok dset →
      trace (read dictArgs vcomp ucomp) = read_calls infile.
Proof. intros Hin. exact (read_logs dictArgs vcomp ucomp infile Hin). Qed.


(** What [read] copies from its inputs into the dataset it returns. *)
Lemma read_returns_inputs dictArgs vcomp ucomp dset :
  outcome (read dictArgs vcomp ucomp) = Ok dset →
  ∃ infile ds iface umo vmo edges dsT glon glat code m0 m1 bm d,
    dictArgs !! "infile" = Some infile
    ∧ open_mfdataset infile = Ok ds
    ∧ moc.interface_of (moc.layer_of ds) = Some iface
    ∧ variables ds !! ucomp = Some umo
    ∧ variables ds !! vcomp = Some vmo
    ∧ variables ds !! iface = Some edges
    ∧ variables dset !! "umo" = Some umo
    ∧ variables dset !! "vmo" = Some vmo
    ∧ variables dset !! iface = Some edges
    ∧ horizontal_grid dictArgs "t" = Ok dsT
    ∧ xr.getattr dsT "geolon" = Ok glon
    ∧ xr.getattr dsT "geolat" = Ok glat
    ∧ xr.getattr dsT "basin" = Ok code
    ∧ length (sizes (variable glon)) = 2
    ∧ length (sizes (variable glat)) = 2
    ∧ variables dset !! "geolon"
      = Some (mk_variable ["yh"; "xh"] (sizes (variable glon))
                (λ e, item (xr.values (variable glon)) (e <$> ["yh"; "xh"])))
    ∧ variables dset !! "geolat"
      = Some (mk_variable ["yh"; "xh"] (sizes (variable glat))
                (λ e, item (xr.values (variable glat)) (e <$> ["yh"; "xh"])))
    ∧ generate_basin_masks (xr.values (variable code)) "atlantic_arctic"
      = Ok m0
    ∧ generate_basin_masks (xr.values (variable code)) "indo_pacific" = Ok m1
    ∧ length (shape m0) = 2
    ∧ length (shape m1) = 2
    ∧ variables dset !! "basin_masks" = Some bm
    ∧ dims bm = ["basin"; "yh"; "xh"]
    ∧ sizes bm = 2 :: shape m0
    ∧ (∀ e, val bm e = match e "basin" with
                       | 0 => item m0 (e <$> ["yh"; "xh"])
                       | 1 => item m1 (e <$> ["yh"; "xh"])
                       | _ => NaN
                       end)
    ∧ date_range ds = Ok d
    ∧ attrs dset
      = <["dates" := d]> (<["interface" := PyStr iface]>
          (<["layer" := moc.pystr (moc.layer_of ds)]> ∅)).
Proof.
  intros H. unfold moc.read in H. repeat step H.
  injection H as <-.
  unfold dict_get in Heqr. destruct (dictArgs !! "infile") as [infile|] eqn:Hin;
    [|done]. injection Heqr as <-.
  unfold moc.key in Heqr4.
  destruct (moc.interface_of (moc.layer_of a0)) as [iface|] eqn:Hif; [|done].
  injection Heqr4 as <-.
  assert (iface = "z_i" ∨ iface = "rho2_i") as Hcases.
  { revert Hif. unfold moc.interface_of.
    repeat case_bool_decide; intros [= <-]; auto. }
  pose proof (getitem_ok _ _ _ Heqr1) as Hu.
  pose proof (getitem_ok _ _ _ Heqr2) as Hv.
  pose proof (getitem_ok _ _ _ Heqr5) as He.
  apply mapM_returns, Forall2_two in Heqr20 as (m0 & m1 & -> & Hm0 & Hm1).
  rewrite outcome_call in Hm0, Hm1.
  apply mapM_returns, Forall2_two in Heqr21 as (x0 & x1 & -> & Hx0 & Hx1).
  rewrite outcome_lift in Hx0, Hx1.
  injection Heqr22 as <-.
  pose proof Heqr8 as Hlon. pose proof Heqr10 as Hlat.
  pose proof Hx0 as Hs0. pose proof Hx1 as Hs1.
  unfold xr.of_numpy in Hlon, Hlat, Hs0, Hs1, Heqr8, Heqr10, Hx0, Hx1.
  destruct (length (shape (xr.values (variable a7))) =? _) eqn:E7; [|done].
  destruct (length (shape (xr.values (variable a9))) =? _) eqn:E9; [|done].
  destruct (length (shape m0) =? _) eqn:E0; [|done].
  destruct (length (shape m1) =? _) eqn:E1; [|done].
  apply Nat.eqb_eq in E7, E9, E0, E1.
  injection Heqr8 as <-. injection Heqr10 as <-.
  injection Hx0 as <-. injection Hx1 as <-.
  exists infile, a0, iface, (variable a1), (variable a2), (variable a5), a6,
    a7, a9, a19, m0, m1.
  eexists _, a23.
  split_and!; try first [eassumption | done].
  - destruct Hcases as [-> | ->]; by lookup_dataset.
  - destruct Hcases as [-> | ->]; by lookup_dataset.
  - destruct Hcases as [-> | ->]; by lookup_dataset.
  - by lookup_dataset.
  - by lookup_dataset.
  - by lookup_dataset.
  - reflexivity.
  - reflexivity.
  - intros e. cbn [variable val xr.concat]. by destruct (e "basin") as [|[|n]].
Qed.


(** X4.  The longitudes and latitudes of the returned dataset are the
    arrays of the horizontal grid, cell by cell, on the dimensions
    ("yh", "xh") whatever the grid calls its own; [read] returns only
    when both are two-dimensional. *)
Theorem read_grid_relabelled dictArgs vcomp ucomp dset dsT name :
  outcome (read dictArgs vcomp ucomp) = Ok dset →
  horizontal_grid dictArgs "t" = Ok dsT →
  name = "geolon" ∨ name = "geolat" →
  ∃ g g',
    variables dsT !! name = Some g
    ∧ variables dset !! name = Some g'
    ∧ dims g' = ["yh"; "xh"]
    ∧ np.ndim (xr.values g) = 2
    ∧ shape (xr.values g') = shape (xr.values g)
    ∧ ∀ j i, item (xr.values g') [j; i] = item (xr.values g) [j; i].
Proof.
  intros H Hgrid Hname.
  apply read_returns_inputs in H
    as (infile & ds & iface & umo & vmo & edges & dsT' & glon & glat & code
        & m0 & m1 & bm & d & _ & _ & _ & _ & _ & _ & _ & _ & _ & Hgrid'
        & Hlon & Hlat & _ & Hnlon & Hnlat & Hlon' & Hlat' & _).
  rewrite Hgrid in Hgrid'. injection Hgrid' as <-.
  apply getattr_ok in Hlon, Hlat.
  destruct Hname as [-> | ->]; eexists _, _;
    (split; [eassumption|]); (split; [eassumption|]);
    split_and!; done.
Qed.

(** X5.  The basin masks of the returned dataset are the two generated
    masks stacked along a new leading dimension "basin": index 0 is the
    Atlantic-Arctic mask and index 1 the Indo-Pacific one, which is how
    [plot] reads them back. *)
Theorem read_basin_masks dictArgs vcomp ucomp dset dsT code :
  outcome (read dictArgs vcomp ucomp) = Ok dset →
  horizontal_grid dictArgs "t" = Ok dsT →
  xr.getattr dsT "basin" = Ok code →
  ∃ m0 m1 bm atl ind,
    generate_basin_masks (xr.values (variable code)) "atlantic_arctic" = Ok m0
    ∧ generate_basin_masks (xr.values (variable code)) "indo_pacific" = Ok m1
    ∧ xr.getattr dset "basin_masks" = Ok bm
    ∧ dims (variable bm) = ["basin"; "yh"; "xh"]
    ∧ sizes (variable bm) = 2 :: shape m0
    ∧ xr.isel bm "basin" 0 = Ok atl
    ∧ xr.isel bm "basin" 1 = Ok ind
    ∧ dims (variable atl) = ["yh"; "xh"]
    ∧ dims (variable ind) = ["yh"; "xh"]
    ∧ shape (xr.values (variable atl)) = shape m0
    ∧ ∀ j i, item (xr.values (variable atl)) [j; i] = item m0 [j; i]
             ∧ item (xr.values (variable ind)) [j; i] = item m1 [j; i].
Proof.
  intros H Hgrid Hcode.
  apply read_returns_inputs in H
    as (infile & ds & iface & umo & vmo & edges & dsT' & glon & glat & code'
        & m0 & m1 & bm & d & _ & _ & _ & _ & _ & _ & _ & _ & _ & Hgrid'
        & _ & _ & Hcode' & _ & _ & _ & _ & Hm0 & Hm1 & Hn0 & Hn1 & Hbm
        & Hbd & Hbs & Hbv & _).
  rewrite Hgrid in Hgrid'. injection Hgrid' as <-.
  rewrite Hcode in Hcode'. injection Hcode' as <-.
  exists m0, m1. unfold xr.getattr, xr.getitem. rewrite Hbm.
  eexists _, _, _. split; [done|]. split; [done|]. split; [reflexivity|].
  cbn [variable]. split; [done|]. split; [done|].
  unfold xr.isel, xr.has_dim, xr.dim_size. cbn [variable].
  rewrite Hbd, Hbs. cbn -[filter].
  split; [reflexivity|]. split; [reflexivity|].
  cbn [variable dims sizes val xr.values shape item].
  destruct (shape m0) as [|ny [|nx [|]]]; try done;
    split_and!; try done; intros j i; by rewrite !Hbv.
Qed.

(** X6.  The returned dataset carries three attributes and no other:
    the layer and interface names, and under "dates" whatever the
    date-range helper returned for the input, unchecked. *)
Theorem read_attributes dictArgs vcomp ucomp dset infile ds :
  outcome (read dictArgs vcomp ucomp) = Ok dset →
  dictArgs !! "infile" = Some infile →
  open_mfdataset infile = Ok ds →
  ∃ layer iface dates,
    moc.layer_of ds = Some layer
    ∧ moc.interface_of (Some layer) = Some iface
    ∧ date_range ds = Ok dates
    ∧ attrs dset !! "layer" = Some (PyStr layer)
    ∧ attrs dset !! "interface" = Some (PyStr iface)
    ∧ attrs dset !! "dates" = Some dates
    ∧ ∀ k, is_Some (attrs dset !! k) →
           k = "layer" ∨ k = "interface" ∨ k = "dates".
Proof.
  intros H Hin Hopen.
  apply read_returns_inputs in H
    as (infile' & ds' & iface & umo & vmo & edges & dsT & glon & glat & code
        & m0 & m1 & bm & d & Hin' & Hopen' & Hi & _ & _ & _ & _ & _ & _ & _
        & _ & _ & _ & _ & _ & _ & _ & _ & _ & _ & _ & _ & _ & _ & _ & Hd
        & Hattrs).
  rewrite Hin in Hin'. injection Hin' as <-.
  rewrite Hopen in Hopen'. injection Hopen' as <-.
  destruct (moc.layer_of ds) as [layer|] eqn:Hl; [|done].
  exists layer, iface, d. rewrite Hattrs. split_and!; try done.
  intros k [o Hk].
  destruct (decide (k = "dates")) as [->|Hk1]; [auto|].
  destruct (decide (k = "interface")) as [->|Hk2]; [auto|].
  destruct (decide (k = "layer")) as [->|Hk3]; [auto|].
  by rewrite !lookup_insert_ne in Hk.
Qed.

End ReadMore.

(** X1 on the small ocean: the six calls of a [read] that returns. *)
Lemma read_call_order_witness :
  trace Sample.read = read_calls (PyStr "ocean_annual_z.nc").
Proof.
  apply (proj2 (read_call_order Sample.open_mfdataset Sample.horizontal_grid
                  Sample.read_topography Sample.generate_basin_masks
                  Sample.date_range Sample.dictArgs "vmo" "umo"
                  (PyStr "ocean_annual_z.nc") eq_refl) Sample.dset).
  vm_compute. reflexivity.
Defined.



(** X4 on the small ocean: the latitude of the cell (2, 1). *)
Lemma read_grid_relabelled_witness :
  ∃ g', variables Sample.dset !! "geolat" = Some g'
        ∧ dims g' = ["yh"; "xh"]
        ∧ item (xr.values g') [2; 1] = of_Q 26.75.
Proof.
  destruct (read_grid_relabelled Sample.open_mfdataset
              Sample.horizontal_grid Sample.read_topography
              Sample.generate_basin_masks Sample.date_range
              Sample.dictArgs "vmo" "umo" Sample.dset Sample.dsT "geolat"
              ltac:(vm_compute; reflexivity) eq_refl (or_intror eq_refl))
    as (g & g' & Hg & Hg' & Hd & _ & _ & Hv).
  exists g'. split; [exact Hg'|]. split; [exact Hd|].
  rewrite Hv. vm_compute in Hg. injection Hg as <-. vm_compute. reflexivity.
Defined.

(** X5 on the small ocean, whose first column is Atlantic and whose second
    column is Indo-Pacific. *)
Lemma read_basin_masks_witness :
  ∃ bm atl ind,
    xr.getattr Sample.dset "basin_masks" = Ok bm
    ∧ xr.isel bm "basin" 0 = Ok atl
    ∧ xr.isel bm "basin" 1 = Ok ind
    ∧ item (xr.values (variable atl)) [0; 0] = one
    ∧ item (xr.values (variable atl)) [0; 1] = zero
    ∧ item (xr.values (variable ind)) [0; 0] = zero
    ∧ item (xr.values (variable ind)) [0; 1] = one.
Proof.
  destruct (read_basin_masks Sample.open_mfdataset
              Sample.horizontal_grid Sample.read_topography
              Sample.generate_basin_masks Sample.date_range
              Sample.dictArgs "vmo" "umo" Sample.dset Sample.dsT
              (mk_dataarray Sample.basin ∅)
              ltac:(vm_compute; reflexivity) eq_refl
              ltac:(vm_compute; reflexivity))
    as (m0 & m1 & bm & atl & ind & Hm0 & Hm1 & Hbm & _ & _ & Ha & Hi & _ & _
        & _ & Hv).
  exists bm, atl, ind. split; [exact Hbm|]. split; [exact Ha|].
  split; [exact Hi|].
  injection Hm0 as <-. injection Hm1 as <-.
  destruct (Hv 0 0) as [-> ->]. destruct (Hv 0 1) as [-> ->].
  vm_compute. repeat split.
Defined.

(** X6 on the small ocean. *)
Lemma read_attributes_witness :
  attrs Sample.dset !! "layer" = Some (PyStr "z_l")
  ∧ attrs Sample.dset !! "interface" = Some (PyStr "z_i")
  ∧ attrs Sample.dset !! "dates" = Some Sample.dates
  ∧ attrs Sample.dset !! "title" = None.
Proof.
  destruct (read_attributes Sample.open_mfdataset
              Sample.horizontal_grid Sample.read_topography
              Sample.generate_basin_masks Sample.date_range
              Sample.dictArgs "vmo" "umo" Sample.dset
              (PyStr "ocean_annual_z.nc") Sample.ds
              ltac:(vm_compute; reflexivity) eq_refl eq_refl)
    as (layer & iface & dates & Hl & Hi & Hd & Hal & Hai & Had & Honly).
  vm_compute in Hl. injection Hl as <-.
  vm_compute in Hi. injection Hi as <-.
  injection Hd as <-.
  split; [exact Hal|]. split; [exact Hai|]. split; [exact Had|].
  destruct (attrs Sample.dset !! "title") as [o|] eqn:E; [|reflexivity].
  destruct (Honly "title" (ex_intro _ o E)) as [H | [H | H]]; discriminate H.
Defined.

(** ** calculate: the calls and the errors *)

Section CalculateMore.

Variable calcmoc : Dataset → string → pyobj → pyobj → result DataArray.

(** The calls of [calculate], in their order. *)
Lemma calculate_logs dset layer interface :
  xr.getattr_attrs dset "layer" = Ok layer →
  xr.getattr_attrs dset "interface" = Ok interface →
  logs (moc.calculate calcmoc dset) (calc_calls layer interface).
Proof.
  intros Hl Hi. unfold moc.calculate. rewrite Hl, Hi.
  rewrite <- (app_nil_r (calc_calls _ _)).
  apply logs_bind.
  - unfold calc_calls.
    assert (∀ l, logs
                   (mapM (λ x,
                      layer ← lift (Ok layer);
                      interface ← lift (Ok interface);
                      call (Calcmoc x layer interface)
                        (calcmoc dset x layer interface)) l)
                   ((λ b, Calcmoc b layer interface) <$> l)) as Hm.
    { induction l as [|b l IH]; [apply logs_ret|].
      cbn [mapM fmap list_fmap]. rewrite !lift_bind.
      apply logs_bind_call. intros a _.
      rewrite <- (app_nil_r (_ <$> l)).
      apply logs_bind; [exact IH|]. intros bs _. apply logs_ret. }
    apply Hm.
  - intros l _.
    do 4 (apply logs_bind_nil; [apply logs_lift|]; intros ? _).
    apply logs_ret.
Qed.

(** X7.  [calculate] asks the calculator for the three basins in order and
    stops at the first failure: the failing call is the last one made, its
    error is the error of [calculate], and a [calculate] that returns has
    made exactly the three calls. *)
Theorem calculate_stops_at_failure dset layer interface :
  xr.getattr_attrs dset "layer" = Ok layer →
  xr.getattr_attrs dset "interface" = Ok interface →
  trace (moc.calculate calcmoc dset) `prefix_of` calc_calls layer interface
  ∧ (∀ otsfn, outcome (moc.calculate calcmoc dset) = Ok otsfn →
       trace (moc.calculate calcmoc dset) = calc_calls layer interface)
  ∧ ∀ k b e,
      moc.basins !! k = Some b →
      (∀ b', b' ∈ take k moc.basins →
             ∃ a, calcmoc dset b' layer interface = Ok a) →
      calcmoc dset b layer interface = Raise e →
      moc.calculate calcmoc dset
      = (take (S k) (calc_calls layer interface), Raise e).
Proof.
  intros Hl Hi.
  destruct (calculate_logs dset layer interface Hl Hi) as [Hprefix Hret].
  split; [exact Hprefix|]. split; [exact Hret|].
  clear Hprefix Hret. intros k b e Hk Hbefore Hfail.
  unfold moc.calculate, moc.basins, calc_calls in *.
  destruct k as [|[|[|k]]]; try discriminate Hk;
    injection Hk as <-; cbn [mapM take fmap list_fmap] in *;
    rewrite Hl, Hi, !lift_bind.
  - by rewrite Hfail.
  - destruct (Hbefore "atl-arc") as [a0 H0]; [left|].
    rewrite H0, call_bind. cbn [trace outcome fst snd].
    rewrite ?lift_bind. by rewrite Hfail.
  - destruct (Hbefore "atl-arc") as [a0 H0]; [left|].
    destruct (Hbefore "indopac") as [a1 H1]; [right; left|].
    rewrite H0, call_bind. cbn [trace outcome fst snd].
    rewrite ?lift_bind, H1, call_bind.
    cbn [trace outcome fst snd].
    rewrite ?lift_bind. by rewrite Hfail.
Qed.

(** X8.  [calculate] takes the layer and interface names from the
    attributes of the dataset before each call: when the dataset has no
    attribute, variable or dimension of one of these names it raises the
    attribute error and the calculator is never called.  The calculator's
    results need a dimension to put in front of "basin": with three
    results that have none the three calls are made and the transposition
    fails with an index error. *)
Theorem calculate_bad_input dset :
  (attrs dset !! "layer" = None → variables dset !! "layer" = None →
   xr.in_dims dset "layer" = false →
   moc.calculate calcmoc dset = ([], Raise (AttributeError "layer")))
  ∧ (is_Some (attrs dset !! "layer") →
     attrs dset !! "interface" = None →
     variables dset !! "interface" = None →
     xr.in_dims dset "interface" = false →
     moc.calculate calcmoc dset = ([], Raise (AttributeError "interface")))
  ∧ ∀ layer interface a0 a1 a2,
      xr.getattr_attrs dset "layer" = Ok layer →
      xr.getattr_attrs dset "interface" = Ok interface →
      calcmoc dset "atl-arc" layer interface = Ok a0 →
      calcmoc dset "indopac" layer interface = Ok a1 →
      calcmoc dset "global" layer interface = Ok a2 →
      dims (variable a0) = [] →
      dims (variable a1) = [] →
      dims (variable a2) = [] →
      moc.calculate calcmoc dset
      = (calc_calls layer interface, Raise IndexError).
Proof.
  split_and!.
  - intros Hl _ _. unfold moc.calculate, moc.basins, xr.getattr_attrs.
    cbn [mapM]. by rewrite Hl.
  - intros [l Hl] Hi _ _. unfold moc.calculate, moc.basins, xr.getattr_attrs.
    cbn [mapM]. rewrite Hl, lift_bind. by rewrite Hi.
  - intros layer interface a0 a1 a2 Hl Hi H0 H1 H2 Hd _ _.
    unfold moc.calculate, moc.basins.
    repeat first
      [ progress cbn [mbind M_bind bind lift call emit ret mapM app]
      | match goal with H : ?x = Ok _ |- context [?x] => rewrite H end ].
    cbn [xr.concat]. unfold moc.nth_dim. cbn [variable dims]. rewrite Hd.
    reflexivity.
Qed.

End CalculateMore.

(** X7 on the small ocean, with a calculator that fails on the second
    basin: the third one is not asked for. *)
Lemma calculate_stops_at_failure_witness :
  moc.calculate
    (λ d b l i, if String.eqb b "indopac" then Raise (External "no data")
                else Sample.calcmoc d b l i) Sample.dset
  = ([Calcmoc "atl-arc" (PyStr "z_l") (PyStr "z_i");
      Calcmoc "indopac" (PyStr "z_l") (PyStr "z_i")],
     Raise (External "no data")).
Proof.
  apply (proj2 (proj2 (calculate_stops_at_failure
                         (λ d b l i, if String.eqb b "indopac"
                                     then Raise (External "no data")
                                     else Sample.calcmoc d b l i)
                         Sample.dset (PyStr "z_l") (PyStr "z_i")
                         ltac:(vm_compute; reflexivity)
                         ltac:(vm_compute; reflexivity)))
           1 "indopac" (External "no data") eq_refl).
  - intros b' Hb'. apply list_elem_of_singleton in Hb' as ->.
    eexists. reflexivity.
  - reflexivity.
Defined.

(** X8 on a dataset without attributes, and on the small ocean with a
    calculator that returns numbers without dimensions. *)
Lemma calculate_bad_input_witness :
  moc.calculate Sample.calcmoc xr.empty = ([], Raise (AttributeError "layer"))
  ∧ moc.calculate
      (λ _ _ _ _, Ok (mk_dataarray (mk_variable [] [] (λ _, zero)) ∅))
      Sample.dset
    = (calc_calls (PyStr "z_l") (PyStr "z_i"), Raise IndexError).
Proof.
  split.
  - apply (proj1 (calculate_bad_input Sample.calcmoc xr.empty)); reflexivity.
  - apply (proj2 (proj2 (calculate_bad_input
                           (λ _ _ _ _, Ok (mk_dataarray
                                             (mk_variable [] [] (λ _, zero)) ∅))
                           Sample.dset))
             (PyStr "z_l") (PyStr "z_i") _ _ _
             ltac:(vm_compute; reflexivity) ltac:(vm_compute; reflexivity)
             eq_refl eq_refl eq_refl eq_refl eq_refl eq_refl).
Defined.

(** ** _findExtrema: where the annotation goes *)

(** *** Positions in row-major order *)

Lemma length_indices sh : length (np.indices sh) = foldr Nat.mul 1 sh.
Proof.
  induction sh as [|n sh IH]; [done|]. cbn [np.indices foldr].
  rewrite <- IH. generalize (np.indices sh) as l. intros l.
  generalize 0 as start. induction n as [|n IHn]; intros start; [done|].
  cbn [seq flat_map]. rewrite length_app, length_fmap, IHn. done.
Qed.

Lemma flat_map_lookup_uniform {B} (f : nat → list B) s n start k :
  (∀ i, length (f i) = s) → k < n * s →
  flat_map f (seq start n) !! k = f (start + k / s) !! (k mod s).
Proof.
  intros Hlen. revert start k. induction n as [|n IH]; intros start k Hk; [lia|].
  assert (s ≠ 0) as Hs by lia.
  cbn [seq flat_map]. destruct (decide (k < s)) as [Hlt|Hge].
  - rewrite lookup_app_l by (by rewrite Hlen).
    rewrite Nat.div_small, Nat.mod_small, Nat.add_0_r by done. done.
  - destruct (Nat.le_exists_sub s k) as [k' [-> _]]; [lia|].
    rewrite lookup_app_r by (rewrite Hlen; lia). rewrite Hlen.
    rewrite Nat.add_sub, IH by lia.
    replace (k' + s) with (k' + 1 * s) by lia.
    rewrite Nat.div_add, Nat.Div0.mod_add by done.
    f_equal. f_equal. lia.
Qed.

Lemma indices_lookup sh n :
  n < foldr Nat.mul 1 sh →
  np.indices sh !! n = Some (np.unravel_index n sh).
Proof.
  revert n. induction sh as [|m sh IH]; intros n Hn.
  - cbn [foldr] in Hn. by replace n with 0 by lia.
  - cbn [np.indices np.unravel_index foldr] in *.
    rewrite (flat_map_lookup_uniform _ (foldr Nat.mul 1 sh))
      by (try (intros i; rewrite length_fmap; apply length_indices); lia).
    rewrite list_lookup_fmap, IH; [done|].
    apply Nat.mod_upper_bound. lia.
Qed.

Lemma unravel_2d nj ni j i :
  i < ni → np.unravel_index (j * ni + i) [nj; ni] = [j; i].
Proof.
  intros Hi. cbn [np.unravel_index foldr].
  rewrite Nat.mul_1_r, Nat.div_1_r.
  rewrite Nat.div_add_l, Nat.div_small, Nat.add_0_r by lia.
  rewrite Nat.add_comm, Nat.Div0.mod_add, Nat.mod_small by lia. done.
Qed.

Lemma unravel_2d_eq nj ni n :
  np.unravel_index n [nj; ni] = [n / ni; n mod ni].
Proof.
  change (np.unravel_index n [nj; ni])
    with [n / (ni * 1); (n mod (ni * 1)) / 1].
  by rewrite Nat.mul_1_r, Nat.div_1_r.
Qed.

Lemma in_bounds_2d nj ni j i :
  np.in_bounds [nj; ni] [j; i] = true ↔ j < nj ∧ i < ni.
Proof.
  cbn [np.in_bounds]. rewrite !andb_true_iff, !Nat.ltb_lt. tauto.
Qed.

Lemma indices_lookup_2d nj ni j i :
  j < nj → i < ni → np.indices [nj; ni] !! (j * ni + i) = Some [j; i].
Proof.
  intros Hj Hi. rewrite indices_lookup by (cbn [foldr]; nia).
  by rewrite unravel_2d.
Qed.

(** The first element of a list that satisfies a test. *)
Lemma first_true {A} (p : A → bool) (l : list A) x :
  x ∈ l → p x = true →
  ∃ n y, l !! n = Some y ∧ p y = true
         ∧ ∀ m w, m < n → l !! m = Some w → p w = false.
Proof.
  induction l as [|a l IH]; intros Hx Hp; [by apply elem_of_nil in Hx|].
  destruct (p a) eqn:Ea.
  - exists 0, a. split_and!; [done..|]. intros m w Hm. lia.
  - apply elem_of_cons in Hx as [-> | Hx]; [congruence|].
    destruct (IH Hx Hp) as (n & y & Hn & Hy & Hfirst).
    exists (S n), y. split_and!; [done..|].
    intros [|m] w Hm Hw; [by injection Hw as <-|].
    apply (Hfirst m w); [lia | done].
Qed.

(** *** The search of [np.argmin] *)

Lemma better_zero k : distance_key k → ma.better k (Some zero) = false.
Proof.
  destruct k as [[|a]|]; [done| |done]. cbn. intros Ha.
  apply bool_decide_eq_false. by apply Qcle_not_lt.
Qed.

Lemma better_than_positive best :
  distance_key best → best ≠ Some zero → ma.better (Some zero) best = true.
Proof.
  destruct best as [[|b]|]; [done| |done]. cbn. intros Hb Hne.
  apply bool_decide_eq_true. apply Qcle_lt_or_eq in Hb as [Hb | <-]; [done|].
  by destruct Hne.
Qed.

Lemma argmin_from_zero l besti i :
  Forall distance_key l → ma.argmin_from besti (Some zero) i l = besti.
Proof.
  revert i. induction l as [|k l IH]; intros i Hl; [done|].
  apply Forall_cons_1 in Hl as [Hk Hl]. cbn [ma.argmin_from].
  rewrite (better_zero k Hk). by apply IH.
Qed.

Lemma argmin_from_first_zero l besti best i n :
  distance_key best → best ≠ Some zero → Forall distance_key l →
  l !! n = Some (Some zero) →
  (∀ m, m < n → l !! m ≠ Some (Some zero)) →
  ma.argmin_from besti best i l = i + n.
Proof.
  revert besti best i n.
  induction l as [|k l IH]; intros besti best i n Hb Hne Hl Hn Hfirst;
    [done|].
  apply Forall_cons_1 in Hl as [Hk Hl]. cbn [ma.argmin_from].
  destruct n as [|n].
  - injection Hn as ->. rewrite (better_than_positive best Hb Hne).
    rewrite argmin_from_zero by done. lia.
  - assert (k ≠ Some zero) as Hk0.
    { intros ->. by apply (Hfirst 0); [lia|]. }
    assert (∀ m, m < n → l !! m ≠ Some (Some zero)) as Hfirst'.
    { intros m Hm. apply (Hfirst (S m)). lia. }
    destruct (ma.better k best); rewrite (IH _ _ _ n) by done; lia.
Qed.

Lemma argmin_first_zero k l n :
  Forall distance_key (k :: l) →
  (k :: l) !! n = Some (Some zero) →
  (∀ m, m < n → (k :: l) !! m ≠ Some (Some zero)) →
  ma.argmin_from 0 k 1 l = n.
Proof.
  intros [Hk Hl]%Forall_cons_1 Hn Hfirst. destruct n as [|n].
  - injection Hn as ->. by apply argmin_from_zero.
  - rewrite (argmin_from_first_zero l 0 k 1 n); try done.
    + intros ->. by apply (Hfirst 0); [lia|].
    + intros m Hm. apply (Hfirst (S m)). lia.
Qed.

Lemma argmin_from_none l besti i :
  Forall (λ k, k = None) l → ma.argmin_from besti None i l = besti.
Proof.
  revert i. induction l as [|k l IH]; intros i Hl; [done|].
  apply Forall_cons_1 in Hl as [-> Hl]. cbn. by apply IH.
Qed.

(** *** The selection and its extreme value *)

Lemma filter_ext_in {A} (P Q : A → Prop) `{∀ x, Decision (P x)}
    `{∀ x, Decision (Q x)} (l : list A) :
  (∀ x, x ∈ l → P x ↔ Q x) → filter P l = filter Q l.
Proof.
  induction l as [|a l IH]; intros Hl; [done|].
  assert (filter P l = filter Q l) as E
    by (apply IH; intros x Hx; apply Hl; by right).
  destruct (decide (P a)) as [Ha|Ha].
  - assert (Q a) as Hq by (apply Hl; [left|done]).
    rewrite (filter_cons_True P), (filter_cons_True Q) by done. by rewrite E.
  - assert (¬ Q a) as Hq by (intros HQ; apply Ha, Hl; [left|done]).
    by rewrite (filter_cons_False P), (filter_cons_False Q) by done.
Qed.

Lemma bool_index_selection y z (psi : MaskedArray float) min_lat max_lat
    min_depth :
  shape y = shape (data psi) → shape z = shape (data psi) →
  ∃ band region,
    np.map2 andb (np.map (λ v, geb v min_lat) y) (np.map (λ v, leb v max_lat) y)
    = Ok band
    ∧ np.map2 andb band (np.map (λ v, ltb v (neg min_depth)) z) = Ok region
    ∧ ma.bool_index psi region
      = Ok (ma.of_list (selection y z psi min_lat max_lat min_depth)).
Proof.
  intros Hy Hz.
  destruct (region_same_shape y z psi min_lat max_lat min_depth Hy Hz)
    as (band & region & Hband & Hregion & Hshape & Hitem).
  exists band, region. split; [done|]. split; [done|].
  unfold ma.bool_index, selection. rewrite (bool_decide_eq_true_2 _ Hshape).
  rewrite Hshape. do 3 f_equal. apply filter_ext_in.
  intros idx Hidx%in_bounds_indices. by rewrite (Hitem idx Hidx).
Qed.

Lemma cells_of_list l : ma.cells (ma.of_list l) = l.
Proof.
  unfold ma.cells, ma.of_list. cbn [data shape item mask].
  apply (list_eq_same_length _ _ (length l)); [done| |].
  - by rewrite length_fmap, length_indices; cbn; lia.
  - intros i c c' Hi. rewrite list_lookup_fmap, indices_lookup
      by (cbn [foldr]; lia).
    cbn [np.unravel_index foldr fmap option_fmap option_map nth].
    rewrite Nat.div_1_r. intros [= <-] Hc'.
    rewrite (nth_lookup_Some _ _ _ _ Hc'). by destruct c'.
Qed.

Lemma cells_rmul mult m :
  ma.cells (ma.rmul mult m)
  = (λ c : float * bool, (if c.2 then mult else mul mult c.1, c.2))
    <$> ma.cells m.
Proof.
  unfold ma.cells, ma.rmul. cbn [data shape item mask].
  rewrite <- list_fmap_compose. by apply list_fmap_ext.
Qed.

Lemma unmasked_rmul mult (l : list (float * bool)) :
  unmasked ((λ c : float * bool, (if c.2 then mult else mul mult c.1, c.2))
              <$> l)
  = mul mult <$> unmasked l.
Proof.
  unfold unmasked. induction l as [|[v [|]] l IH]; [done| |].
  - cbn [fmap list_fmap]. by rewrite !filter_cons_False by (cbn; tauto).
  - cbn [fmap list_fmap]. rewrite !filter_cons_True by done.
    cbn [fmap list_fmap fst]. f_equal. exact IH.
Qed.

(** The reduction of [_findExtrema]: an error on an empty selection, the
    constant [masked] when no selected cell is unmasked, and otherwise the
    maximum of the scaled values. *)
Lemma amax_rmul mult l :
  ma.amax (ma.rmul mult (ma.of_list l))
  = match l with
    | [] => Raise ValueError
    | _ => match unmasked l with
           | [] => Ok Masked
           | vs => Ok (Value (list_max (mul mult <$> vs)))
           end
    end.
Proof.
  unfold ma.amax. rewrite cells_rmul, cells_of_list.
  destruct l as [|c l]; [done|].
  pose proof (unmasked_rmul mult (c :: l)) as E. unfold unmasked at 1 in E.
  cbn [fmap list_fmap] in E |- *. rewrite E.
  by destruct (unmasked (c :: l)).
Qed.

Lemma elem_of_unmasked_selection y z psi min_lat max_lat min_depth v :
  v ∈ unmasked (selection y z psi min_lat max_lat min_depth)
  ↔ ∃ idx, np.in_bounds (shape (data psi)) idx = true
           ∧ in_region y z min_lat max_lat min_depth idx = true
           ∧ mask psi idx = false
           ∧ item (data psi) idx = v.
Proof.
  unfold unmasked, selection. rewrite list_elem_of_fmap. split.
  - intros ([v' b] & -> & [Hb H]%list_elem_of_filter).
    apply list_elem_of_fmap in H as (idx & [= -> ->] & [Hr Hidx]%list_elem_of_filter).
    exists idx. cbn in Hb. split_and!.
    + by apply in_bounds_indices.
    + by apply Is_true_true.
    + by destruct (mask psi idx).
    + done.
  - intros (idx & Hidx & Hr & Hm & <-).
    exists (item (data psi) idx, mask psi idx). split; [done|].
    apply list_elem_of_filter. split; [cbn; by rewrite Hm|].
    apply list_elem_of_fmap. exists idx. split; [done|].
    apply list_elem_of_filter. split; [by apply Is_true_true|].
    by apply in_bounds_indices.
Qed.

(** *** Scaling by 1.0 and by -1.0 *)

Lemma mul_one_l x : mul one x = x.
Proof. destruct x as [|a]; [done|]. cbn. f_equal. apply Qcmult_1_l. Qed.

Lemma mul_minus_one_l x : mul (of_Q (-1.0)) x = neg x.
Proof.
  destruct x as [|a]; [done|]. unfold of_Q, mul, neg, lift2, lift1.
  f_equal; try (apply Qc_is_canon; simpl; rewrite !Qred_correct; ring).
Qed.

Lemma neg_involutive x : neg (neg x) = x.
Proof. destruct x as [|a]; [done|]. cbn. f_equal. apply Qcopp_involutive. Qed.

Lemma maximum_neg x y : maximum (neg x) (neg y) = neg (minimum x y).
Proof.
  destruct x as [|a], y as [|b]; try done. cbn. f_equal.
  unfold Qc_max, Qc_min.
  destruct (decide (a ≤ b)%Qc) as [H|H].
  - rewrite !bool_decide_eq_true_2; [done..|]. by apply Qcopp_le_compat.
  - rewrite !bool_decide_eq_false_2; [done..|].
    intros H'. apply H. apply Qcopp_le_compat in H'.
    by rewrite !Qcopp_involutive in H'.
Qed.

Lemma list_max_neg l : l ≠ [] → list_max (neg <$> l) = neg (list_min l).
Proof.
  destruct l as [|x l]; [done|]. intros _. cbn [fmap list_fmap list_max list_min].
  revert x. induction l as [|y l IH]; intros x; [done|].
  cbn [fmap list_fmap foldl]. by rewrite maximum_neg, IH.
Qed.

(** *** Where the cross goes *)

Lemma Qc_abs_zero a : Qc_abs a = 0%Qc ↔ a = 0%Qc.
Proof.
  unfold Qc_abs. case_bool_decide as H; [|done]. split.
  - intros E. by rewrite <- (Qcopp_involutive a), E.
  - by intros ->.
Qed.

Lemma eqb_eq x v : eqb x v = true → x = v.
Proof.
  destruct x as [|a], v as [|q]; try done. cbn.
  by intros ->%bool_decide_eq_true.
Qed.

Lemma eqb_refl x : x ≠ NaN → eqb x x = true.
Proof. destruct x as [|a]; [done|]. intros _. by apply bool_decide_eq_true. Qed.

Lemma distance_zero x v :
  x ≠ NaN → v ≠ NaN → fabs (sub x v) = zero ↔ eqb x v = true.
Proof.
  destruct x as [|a], v as [|q]; try done. intros _ _. cbn.
  rewrite bool_decide_eq_true. split.
  - intros [= E]. apply (proj1 (Qc_abs_zero _)) in E.
    replace a with ((a - q) + q)%Qc by ring. rewrite E. ring.
  - intros ->. unfold zero. f_equal. apply Qc_abs_zero. ring.
Qed.

Lemma holds_true psi v idx :
  holds psi v idx = true ↔ mask psi idx = false ∧ eqb (item (data psi) idx) v = true.
Proof.
  unfold holds. rewrite andb_true_iff, negb_true_iff. done.
Qed.

Lemma holds_false psi v idx :
  v ≠ NaN → holds psi v idx = false →
  mask psi idx = true ∨ item (data psi) idx ≠ v.
Proof.
  intros Hv. unfold holds. destruct (mask psi idx); [by left|]. cbn.
  intros H. right. intros E. by rewrite E, eqb_refl in H.
Qed.

(** With the extreme value [v] in hand and a cell that holds it, the cross
    and the label go to the first cell of the whole array, in row-major
    order, that is not masked and holds [v]. *)
Lemma findExtrema_at_first ax y z psi min_lat max_lat min_depth mult nj ni
    w v idx0 :
  shape (data psi) = [nj; ni] → shape y = [nj; ni] → shape z = [nj; ni] →
  (∀ idx, np.in_bounds [nj; ni] idx = true → mask psi idx = false →
          item (data psi) idx ≠ NaN) →
  ma.amax (ma.rmul mult
             (ma.of_list (selection y z psi min_lat max_lat min_depth)))
  = Ok (Value w) →
  mul mult w = v → v ≠ NaN →
  np.in_bounds [nj; ni] idx0 = true → holds psi v idx0 = true →
  ∃ j i,
    moc._findExtrema ax y z psi min_lat max_lat min_depth mult
    = ([Marker ax (item y [j; i]) (item z [j; i]) "kx";
        Text ax (item y [j; i]) (item z [j; i]) (Fmt1 (Value v))], Ok tt)
    ∧ j < nj ∧ i < ni
    ∧ holds psi v [j; i] = true
    ∧ ∀ j' i', j' < nj → i' < ni → before j' i' j i →
        holds psi v [j'; i'] = false.
Proof.
  intros Hs Hy Hz Hnan Hamax Hv Hvn Hidx0 Hh0.
  destruct (bool_index_selection y z psi min_lat max_lat min_depth)
    as (band & region & Hband & Hregion & Hsel); [congruence..|].
  unfold moc._findExtrema.
  rewrite Hband, lift_bind, Hregion, lift_bind, Hsel, lift_bind, Hamax,
    lift_bind.
  cbn [ma.rmul_scalar]. rewrite Hv.
  set (key := λ idx, if mask psi idx then None
                     else Some (fabs (sub (item (data psi) idx) v))).
  assert (ma.filled <$> ma.cells (ma.abs (ma.sub_scalar psi (Value v)))
          = key <$> np.indices [nj; ni]) as Hkeys.
  { unfold ma.cells. cbn [ma.abs ma.sub_scalar data shape item mask].
    rewrite Hs, <- list_fmap_compose. apply list_fmap_ext.
    intros _ idx _. unfold key, ma.filled. cbn. by destruct (mask psi idx). }
  destruct (first_true (holds psi v) (np.indices [nj; ni]) idx0)
    as (n & idx & Hn & Hh & Hfirst); [by apply in_bounds_indices | done |].
  assert (∀ m w', np.indices [nj; ni] !! m = Some w' →
                  np.in_bounds [nj; ni] w' = true) as Hin.
  { intros m w' Hw'%list_elem_of_lookup_2. by apply in_bounds_indices. }
  assert (∀ idx', np.in_bounds [nj; ni] idx' = true →
                  key idx' = Some zero ↔ holds psi v idx' = true) as Hzero.
  { intros idx' Hidx'. rewrite holds_true. unfold key.
    destruct (mask psi idx') eqn:Em.
    - split; [done | by intros [[=] _]].
    - split.
      + intros [= E]. split; [done|].
        apply distance_zero in E; [done | by apply Hnan | done].
      + intros [_ E]. f_equal. apply distance_zero; [by apply Hnan | done..]. }
  assert (Forall distance_key (key <$> np.indices [nj; ni])) as Hvalid.
  { apply Forall_fmap, Forall_lookup_2. intros m idx' Hidx'%Hin. cbn.
    unfold key. destruct (mask psi idx') eqn:Em; [done|].
    pose proof (Hnan idx' Hidx' Em) as Hx.
    destruct (item (data psi) idx') as [|a]; [done|].
    destruct v as [|q]; [done|]. cbn. apply Qc_abs_nonneg. }
  unfold ma.argmin. rewrite Hkeys.
  destruct (key <$> np.indices [nj; ni]) as [|k l] eqn:El.
  { apply (f_equal (λ l, l !! n)) in El.
    rewrite list_lookup_fmap, Hn in El. done. }
  rewrite (argmin_first_zero k l n); [|done| |]; cycle 1.
  { rewrite <- El, list_lookup_fmap, Hn. cbn. f_equal.
    apply Hzero; [by apply (Hin n)|done]. }
  { intros m Hm. rewrite <- El, list_lookup_fmap.
    destruct (np.indices [nj; ni] !! m) as [w'|] eqn:Ew; [|done]. cbn.
    intros [= E]. apply Hzero in E; [|by apply (Hin m)].
    by rewrite (Hfirst m w' Hm Ew) in E. }
  rewrite lift_bind, Hs.
  assert (np.unravel_index n [nj; ni] = idx) as Hun.
  { apply (inj Some). rewrite <- indices_lookup; [done|].
    rewrite <- length_indices. by apply lookup_lt_Some in Hn. }
  pose proof (Hin n idx Hn) as Hidx. rewrite Hun.
  pose proof (in_bounds_length _ _ Hidx) as Hlen.
  destruct idx as [|j [|i [|]]]; try discriminate Hlen.
  pose proof (proj1 (in_bounds_2d nj ni j i) Hidx) as [Hj Hi].
  exists j, i.
  pose proof (proj1 (holds_true _ _ _) Hh) as [Hmask Hitem%eqb_eq].
  unfold np.getitem, ma.getitem. rewrite Hy, Hz, Hs, Hidx, !lift_bind.
  rewrite Hmask, Hitem. split; [reflexivity|]. split_and!; [done..|].
  intros j' i' Hj' Hi' Hbefore.
  apply (Hfirst (j' * ni + i') [j'; i']); [|by apply indices_lookup_2d].
  rewrite unravel_2d_eq in Hun. injection Hun as Ej Ei.
  pose proof (Nat.div_mod_eq n ni) as Hdm. rewrite Ej, Ei in Hdm.
  unfold before in Hbefore. nia.
Qed.

Section Extreme.

Variables (ax : nat) (y z : ndarray float) (psi : MaskedArray float).
Variables (min_lat max_lat min_depth : float) (nj ni : nat).

Hypothesis Hpsi : shape (data psi) = [nj; ni].
Hypothesis Hy : shape y = [nj; ni].
Hypothesis Hz : shape z = [nj; ni].
Hypothesis Hnan :
  ∀ idx, np.in_bounds [nj; ni] idx = true → mask psi idx = false →
         item (data psi) idx ≠ NaN.

Local Abbreviation values :=
  (unmasked (selection y z psi min_lat max_lat min_depth)).

Lemma values_elem v :
  v ∈ values
  ↔ ∃ idx, np.in_bounds [nj; ni] idx = true
           ∧ in_region y z min_lat max_lat min_depth idx = true
           ∧ mask psi idx = false
           ∧ item (data psi) idx = v.
Proof. rewrite elem_of_unmasked_selection. by rewrite Hpsi. Qed.

Lemma values_numbers : Forall (λ v, v ≠ NaN) values.
Proof.
  apply Forall_lookup_2. intros m v Hv%list_elem_of_lookup_2.
  apply values_elem in Hv as (idx & Hidx & _ & Hm & <-). by apply Hnan.
Qed.

Lemma amax_values mult :
  values ≠ [] →
  ma.amax (ma.rmul mult
             (ma.of_list (selection y z psi min_lat max_lat min_depth)))
  = Ok (Value (list_max (mul mult <$> values))).
Proof.
  intros Hne. rewrite amax_rmul.
  destruct (selection y z psi min_lat max_lat min_depth) as [|c l] eqn:E;
    [done|].
  by destruct (unmasked (c :: l)).
Qed.

(** The common part of the two annotations: the extreme value [v] of the
    region is held by an unmasked cell of the region. *)
Lemma findExtrema_marks mult v :
  values ≠ [] →
  mul mult (list_max (mul mult <$> values)) = v →
  v ∈ values →
  ∃ j i,
    moc._findExtrema ax y z psi min_lat max_lat min_depth mult
    = ([Marker ax (item y [j; i]) (item z [j; i]) "kx";
        Text ax (item y [j; i]) (item z [j; i]) (Fmt1 (Value v))], Ok tt)
    ∧ j < nj ∧ i < ni
    ∧ mask psi [j; i] = false
    ∧ item (data psi) [j; i] = v
    ∧ ∀ j' i', j' < nj → i' < ni → before j' i' j i →
        mask psi [j'; i'] = true ∨ item (data psi) [j'; i'] ≠ v.
Proof.
  intros Hne Hv Hin.
  pose proof Hin as (idx0 & Hidx0 & _ & Hm0 & Hi0)%values_elem.
  assert (v ≠ NaN) as Hvn by (rewrite <- Hi0; by apply Hnan).
  destruct (findExtrema_at_first ax y z psi min_lat max_lat min_depth mult
              nj ni _ v idx0 Hpsi Hy Hz Hnan (amax_values mult Hne) Hv Hvn
              Hidx0)
    as (j & i & Heq & Hj & Hi & Hh & Hfirst).
  { apply holds_true. split; [done|]. rewrite Hi0. by apply eqb_refl. }
  exists j, i. apply holds_true in Hh as [Hm Hitem%eqb_eq].
  split_and!; try done.
  intros j' i' Hj' Hi' Hb. apply holds_false; [done|]. by apply Hfirst.
Qed.

End Extreme.

(** X9.  With the default multiplier 1.0, [_findExtrema] takes the largest
    value among the unmasked cells of its region and draws the cross, and
    the label with this value, at the first cell of the whole array, in
    row-major order, that is unmasked and holds this value: a cell of the
    region when the value occurs nowhere before it. *)
Theorem findExtrema_marks_first_maximum ax y z psi min_lat max_lat min_depth
    nj ni idx0 :
  shape (data psi) = [nj; ni] → shape y = [nj; ni] → shape z = [nj; ni] →
  (∀ idx, np.in_bounds [nj; ni] idx = true → mask psi idx = false →
          item (data psi) idx ≠ NaN) →
  np.in_bounds [nj; ni] idx0 = true →
  in_region y z min_lat max_lat min_depth idx0 = true →
  mask psi idx0 = false →
  ∃ j i v,
    moc._findExtrema ax y z psi min_lat max_lat min_depth one
    = ([Marker ax (item y [j; i]) (item z [j; i]) "kx";
        Text ax (item y [j; i]) (item z [j; i]) (Fmt1 (Value v))], Ok tt)
    ∧ j < nj ∧ i < ni
    ∧ mask psi [j; i] = false
    ∧ item (data psi) [j; i] = v
    ∧ (∃ idx, np.in_bounds [nj; ni] idx = true
              ∧ in_region y z min_lat max_lat min_depth idx = true
              ∧ mask psi idx = false
              ∧ item (data psi) idx = v)
    ∧ (∀ idx, np.in_bounds [nj; ni] idx = true →
              in_region y z min_lat max_lat min_depth idx = true →
              mask psi idx = false →
              leb (item (data psi) idx) v = true)
    ∧ ∀ j' i', j' < nj → i' < ni → before j' i' j i →
        mask psi [j'; i'] = true ∨ item (data psi) [j'; i'] ≠ v.
Proof.
  intros Hpsi Hy Hz Hnan Hidx0 Hr0 Hm0.
  set (values := unmasked (selection y z psi min_lat max_lat min_depth)).
  pose proof (values_elem y z psi min_lat max_lat min_depth nj ni Hpsi)
    as Helem.
  assert (values ≠ []) as Hne.
  { intros E. assert (item (data psi) idx0 ∈ values) as Hin
      by (apply Helem; eauto).
    rewrite E in Hin. by apply elem_of_nil in Hin. }
  destruct (list_max_spec values Hne
              (values_numbers y z psi min_lat max_lat min_depth nj ni
                 Hpsi Hnan)) as [Hin Hmax].
  assert (mul one <$> values = values) as Hone.
  { rewrite <- (list_fmap_id values) at 2. apply list_fmap_ext.
    intros _ x _. apply mul_one_l. }
  destruct (findExtrema_marks ax y z psi min_lat max_lat min_depth nj ni
              Hpsi Hy Hz Hnan one (list_max values) Hne) as (j & i & H);
    [by fold values; rewrite Hone, mul_one_l | done |].
  exists j, i, (list_max values).
  destruct H as (Heq & Hj & Hi & Hm & Hitem & Hfirst).
  split_and!; try done.
  - by apply Helem.
  - intros idx Hidx Hr Hmask. apply Hmax, Helem. eauto.
Qed.

(** X10.  With the multiplier -1.0, [_findExtrema] takes the smallest value
    among the unmasked cells of its region, and the cross and the label go
    to the first unmasked cell of the whole array that holds it. *)
Theorem findExtrema_marks_first_minimum ax y z psi min_lat max_lat min_depth
    nj ni idx0 :
  shape (data psi) = [nj; ni] → shape y = [nj; ni] → shape z = [nj; ni] →
  (∀ idx, np.in_bounds [nj; ni] idx = true → mask psi idx = false →
          item (data psi) idx ≠ NaN) →
  np.in_bounds [nj; ni] idx0 = true →
  in_region y z min_lat max_lat min_depth idx0 = true →
  mask psi idx0 = false →
  ∃ j i v,
    moc._findExtrema ax y z psi min_lat max_lat min_depth (of_Q (-1.0))
    = ([Marker ax (item y [j; i]) (item z [j; i]) "kx";
        Text ax (item y [j; i]) (item z [j; i]) (Fmt1 (Value v))], Ok tt)
    ∧ j < nj ∧ i < ni
    ∧ mask psi [j; i] = false
    ∧ item (data psi) [j; i] = v
    ∧ (∃ idx, np.in_bounds [nj; ni] idx = true
              ∧ in_region y z min_lat max_lat min_depth idx = true
              ∧ mask psi idx = false
              ∧ item (data psi) idx = v)
    ∧ (∀ idx, np.in_bounds [nj; ni] idx = true →
              in_region y z min_lat max_lat min_depth idx = true →
              mask psi idx = false →
              leb v (item (data psi) idx) = true)
    ∧ ∀ j' i', j' < nj → i' < ni → before j' i' j i →
        mask psi [j'; i'] = true ∨ item (data psi) [j'; i'] ≠ v.
Proof.
  intros Hpsi Hy Hz Hnan Hidx0 Hr0 Hm0.
  set (values := unmasked (selection y z psi min_lat max_lat min_depth)).
  pose proof (values_elem y z psi min_lat max_lat min_depth nj ni Hpsi)
    as Helem.
  assert (values ≠ []) as Hne.
  { intros E. assert (item (data psi) idx0 ∈ values) as Hin
      by (apply Helem; eauto).
    rewrite E in Hin. by apply elem_of_nil in Hin. }
  destruct (list_min_spec values Hne
              (values_numbers y z psi min_lat max_lat min_depth nj ni
                 Hpsi Hnan)) as [Hin Hmin].
  assert (mul (of_Q (-1.0)) <$> values = neg <$> values) as Hneg.
  { apply list_fmap_ext. intros _ x _. apply mul_minus_one_l. }
  destruct (findExtrema_marks ax y z psi min_lat max_lat min_depth nj ni
              Hpsi Hy Hz Hnan (of_Q (-1.0)) (list_min values) Hne)
    as (j & i & H); [|done|].
  { fold values.
    by rewrite Hneg, list_max_neg, mul_minus_one_l, neg_involutive. }
  exists j, i, (list_min values).
  destruct H as (Heq & Hj & Hi & Hm & Hitem & Hfirst).
  split_and!; try done.
  - by apply Helem.
  - intros idx Hidx Hr Hmask. apply Hmin, Helem. eauto.
Qed.

(** X11.  When the region has cells but every one of them is masked, the
    reduction gives the constant [masked], every distance is masked with
    it, and the search falls on position 0: the cross goes to the first
    cell of the array, whatever the region, and the label shows the entry
    there. *)
Theorem findExtrema_all_masked ax y z psi min_lat max_lat min_depth mult
    nj ni idx0 :
  shape (data psi) = [nj; ni] → shape y = [nj; ni] → shape z = [nj; ni] →
  np.in_bounds [nj; ni] idx0 = true →
  in_region y z min_lat max_lat min_depth idx0 = true →
  (∀ idx, np.in_bounds [nj; ni] idx = true →
          in_region y z min_lat max_lat min_depth idx = true →
          mask psi idx = true) →
  moc._findExtrema ax y z psi min_lat max_lat min_depth mult
  = ([Marker ax (item y [0; 0]) (item z [0; 0]) "kx";
      Text ax (item y [0; 0]) (item z [0; 0])
        (Fmt1 (if mask psi [0; 0] then Masked
               else Value (item (data psi) [0; 0])))], Ok tt).
Proof.
  intros Hpsi Hy Hz Hidx0 Hr0 Hall.
  destruct (bool_index_selection y z psi min_lat max_lat min_depth)
    as (band & region & Hband & Hregion & Hsel); [congruence..|].
  pose proof (values_elem y z psi min_lat max_lat min_depth nj ni Hpsi)
    as Helem.
  unfold moc._findExtrema.
  rewrite Hband, lift_bind, Hregion, lift_bind, Hsel, lift_bind, amax_rmul.
  assert (selection y z psi min_lat max_lat min_depth ≠ []) as Hne.
  { intros E.
    assert ((item (data psi) idx0, mask psi idx0)
            ∈ selection y z psi min_lat max_lat min_depth) as Hin.
    { unfold selection. apply list_elem_of_fmap. exists idx0. split; [done|].
      apply list_elem_of_filter. split; [by apply Is_true_true|].
      rewrite Hpsi. by apply in_bounds_indices. }
    rewrite E in Hin. by apply elem_of_nil in Hin. }
  assert (unmasked (selection y z psi min_lat max_lat min_depth) = []) as ->.
  { destruct (unmasked _) as [|v vs] eqn:E; [done|].
    assert (v ∈ v :: vs) as Hv by left.
    apply Helem in Hv as (idx & Hidx & Hr & Hm & _).
    by rewrite (Hall idx Hidx Hr) in Hm. }
  destruct (selection y z psi min_lat max_lat min_depth) as [|c l]; [done|].
  rewrite lift_bind. cbn [ma.rmul_scalar ma.sub_scalar].
  assert (ma.argmin (ma.abs (mk_masked (data psi) (λ _, true))) = Ok 0) as ->.
  { unfold ma.argmin, ma.cells. cbn [ma.abs data shape item mask].
    rewrite Hpsi, <- list_fmap_compose.
    destruct (np.indices [nj; ni]) as [|i0 l0] eqn:E.
    { apply in_bounds_indices in Hidx0. rewrite E in Hidx0.
      by apply elem_of_nil in Hidx0. }
    cbn [fmap list_fmap]. f_equal. apply argmin_from_none.
    apply Forall_fmap, Forall_lookup_2. by intros. }
  rewrite lift_bind, Hpsi, unravel_2d_eq.
  pose proof (in_bounds_length _ _ Hidx0) as Hlen.
  destruct idx0 as [|j0 [|i0 [|]]]; try discriminate Hlen.
  apply in_bounds_2d in Hidx0 as [Hj0 Hi0].
  rewrite Nat.Div0.div_0_l, Nat.Div0.mod_0_l.
  unfold np.getitem, ma.getitem. rewrite Hy, Hz, Hpsi.
  rewrite (proj2 (in_bounds_2d nj ni 0 0)) by lia.
  rewrite !lift_bind. reflexivity.
Qed.


Lemma psi2_numbers idx :
  np.in_bounds [2; 2] idx = true → mask Sample.psi2 idx = false →
  item (data Sample.psi2) idx ≠ NaN.
Proof.
  intros Hidx _. pose proof (in_bounds_length _ _ Hidx) as Hlen.
  destruct idx as [|j [|i [|]]]; try discriminate Hlen.
  apply in_bounds_2d in Hidx as [Hj Hi].
  destruct j as [|[|j]], i as [|[|i]]; try lia; discriminate.
Qed.

(** X9 on the small panel: the band 26.5 to 27 degrees. *)
Lemma findExtrema_marks_first_maximum_witness :
  ∃ j i v,
    moc._findExtrema 1 Sample.lat2 Sample.z2 Sample.psi2 (of_Q 26.5)
      (of_Q 27.0) moc.min_depth_default one
    = ([Marker 1 (item Sample.lat2 [j; i]) (item Sample.z2 [j; i]) "kx";
        Text 1 (item Sample.lat2 [j; i]) (item Sample.z2 [j; i])
          (Fmt1 (Value v))], Ok tt)
    ∧ item (data Sample.psi2) [j; i] = v
    ∧ leb (item (data Sample.psi2) [1; 1]) v = true.
Proof.
  destruct (findExtrema_marks_first_maximum 1 Sample.lat2 Sample.z2
              Sample.psi2 (of_Q 26.5) (of_Q 27.0) moc.min_depth_default 2 2
              [1; 1] eq_refl eq_refl eq_refl psi2_numbers eq_refl
              ltac:(vm_compute; reflexivity) eq_refl)
    as (j & i & v & Heq & _ & _ & _ & Hv & _ & Hmax & _).
  exists j, i, v. split; [exact Heq|]. split; [exact Hv|].
  apply Hmax; [reflexivity | vm_compute; reflexivity | reflexivity].
Defined.

(** X10 on the small panel: the smallest value of the whole panel. *)
Lemma findExtrema_marks_first_minimum_witness :
  ∃ j i v,
    moc._findExtrema 1 Sample.lat2 Sample.z2 Sample.psi2 moc.min_lat_default
      moc.max_lat_default moc.min_depth_default (of_Q (-1.0))
    = ([Marker 1 (item Sample.lat2 [j; i]) (item Sample.z2 [j; i]) "kx";
        Text 1 (item Sample.lat2 [j; i]) (item Sample.z2 [j; i])
          (Fmt1 (Value v))], Ok tt)
    ∧ item (data Sample.psi2) [j; i] = v
    ∧ leb v (item (data Sample.psi2) [0; 1]) = true.
Proof.
  destruct (findExtrema_marks_first_minimum 1 Sample.lat2 Sample.z2
              Sample.psi2 moc.min_lat_default moc.max_lat_default
              moc.min_depth_default 2 2 [0; 1] eq_refl eq_refl eq_refl
              psi2_numbers eq_refl ltac:(vm_compute; reflexivity) eq_refl)
    as (j & i & v & Heq & _ & _ & _ & Hv & _ & Hmin & _).
  exists j, i, v. split; [exact Heq|]. split; [exact Hv|].
  apply Hmin; [reflexivity | vm_compute; reflexivity | reflexivity].
Defined.

(** X11 on the small panel with the band masked: the cross goes to the
    first cell, at 20 degrees. *)
Lemma findExtrema_all_masked_witness :
  moc._findExtrema 1 Sample.lat2 Sample.z2 psi2_band_masked (of_Q 26.5)
    (of_Q 27.0) moc.min_depth_default one
  = ([Marker 1 (of_Z 20) (of_Z (-10)) "kx";
      Text 1 (of_Z 20) (of_Z (-10)) (Fmt1 (Value (of_Z 5)))], Ok tt).
Proof.
  apply (findExtrema_all_masked 1 Sample.lat2 Sample.z2 psi2_band_masked
           (of_Q 26.5) (of_Q 27.0) moc.min_depth_default one 2 2 [1; 1]
           eq_refl eq_refl eq_refl eq_refl ltac:(vm_compute; reflexivity)).
  intros idx Hidx. pose proof (in_bounds_length _ _ Hidx) as Hlen.
  destruct idx as [|j [|i [|]]]; try discriminate Hlen.
  apply in_bounds_2d in Hidx as [Hj Hi].
  destruct j as [|[|j]], i as [|[|i]]; try lia;
    vm_compute; intros H; first [discriminate H | reflexivity].
Defined.

(** ** _create_topomask: the shape of the shading *)

Lemma of_Z_le a b : (a ≤ b)%Z → leb (of_Z a) (of_Z b) = true.
Proof.
  intros H. apply bool_decide_eq_true. unfold Qcle. cbn [this Q2Qc].
  rewrite !Qred_correct. by rewrite <- Zle_Qle.
Qed.

Lemma ltb_false_leb x y : x ≠ NaN → y ≠ NaN → ltb x y = false → leb y x = true.
Proof.
  destruct x as [|a], y as [|b]; try done. intros _ _. cbn.
  rewrite bool_decide_eq_false, bool_decide_eq_true. apply Qcnot_lt_le.
Qed.

Lemma ltb_leb_trans x y z : ltb x y = true → leb y z = true → ltb x z = true.
Proof.
  destruct x as [|a], y as [|b], z as [|c]; try done. cbn.
  rewrite !bool_decide_eq_true. apply Qclt_le_trans.
Qed.

Lemma leb_ltb_trans x y z : leb x y = true → ltb y z = true → ltb x z = true.
Proof.
  destruct x as [|a], y as [|b], z as [|c]; try done. cbn.
  rewrite !bool_decide_eq_true. apply Qcle_lt_trans.
Qed.

Lemma ltb_nan_r x : ltb x NaN = false.
Proof. by destruct x. Qed.

(** A deeper level is not above the floor when a shallower one is not. *)
Lemma level_below_floor a b floor :
  (a ≤ b)%Z → ltb (of_Z a) floor = false → ltb (of_Z b) floor = false.
Proof.
  intros Hab Ha. destruct floor as [|f]; [done|].
  apply leb_not_ltb. eapply leb_trans; [|by apply of_Z_le].
  by apply ltb_false_leb.
Qed.

(** X12.  The shading of [_create_topomask] has no holes: in a column, a
    level that is shaded (not masked) has every deeper level shaded too.  A
    column whose sea floor is at the surface, land or a column outside the
    basin, is shaded at all 71 levels, and a column deeper than 7000 m is
    shaded at none. *)
Theorem create_topomask_shades_downward depth yh basin ny nx tm zz j :
  shape depth = [ny; S nx] →
  shape yh = [ny] →
  (∀ m, basin = Some m → sizes (variable m) = [ny; S nx]) →
  moc._create_topomask depth yh basin = Ok (tm, zz) →
  j < ny →
  let floor :=
    list_max (last_axis (mk_ndarray (shape depth) (in_basin depth basin))
                [j] nx) in
  (∀ k k', k ≤ k' → k' < 71 →
           mask tm [k; j] = false → mask tm [k'; j] = false)
  ∧ (leb floor zero = true → ∀ k, k < 71 → mask tm [k; j] = false)
  ∧ (ltb (of_Z 7000) floor = true → ∀ k, k < 71 → mask tm [k; j] = true).
Proof.
  intros Hd Hyh Hm Htm Hj floor.
  destruct (create_topomask_returns depth yh basin ny nx Hd Hyh Hm)
    as (tm' & Htm' & _ & Hcells).
  rewrite Htm in Htm'. injection Htm' as <- ->.
  assert (∀ k, k < 71 → mask tm [k; j] = ltb (of_Z (100 * Z.of_nat k)) floor)
    as Hmask.
  { intros k Hk. destruct (Hcells k j Hk Hj) as [-> _].
    by rewrite (proj2 arange_levels). }
  split_and!.
  - intros k k' Hkk' Hk'. rewrite !Hmask by lia.
    apply level_below_floor. lia.
  - intros Hland k Hk. rewrite Hmask by done.
    apply leb_not_ltb. eapply leb_trans; [exact Hland|].
    apply (of_Z_le 0). lia.
  - intros Hdeep k Hk. rewrite Hmask by done.
    eapply leb_ltb_trans; [|exact Hdeep]. apply of_Z_le. lia.
Qed.

(** X12 on the shelf 250 m deep: the level 300 m is shaded, so the level
    6000 m is. *)
Lemma create_topomask_shades_downward_witness :
  ∃ tm zz,
    moc._create_topomask Sample.shelf Sample.shelf_yh None = Ok (tm, zz)
    ∧ mask tm [60; 0] = false.
Proof.
  destruct (create_topomask_returns Sample.shelf Sample.shelf_yh None 1 1
              eq_refl eq_refl ltac:(intros m Hm; discriminate Hm))
    as (tm & Htm & _ & Hcells).
  exists tm, (np.arange 0 7100 100). split; [exact Htm|].
  destruct (create_topomask_shades_downward Sample.shelf Sample.shelf_yh None
              1 1 tm _ 0 eq_refl eq_refl
              ltac:(intros m Hm; discriminate Hm) Htm ltac:(lia))
    as (Hdown & _ & _).
  apply (Hdown 3 60); [lia | lia |].
  destruct (Hcells 3 0 ltac:(lia) ltac:(lia)) as [-> _]. reflexivity.
Defined.

(** X13.  What [_create_topomask] does with arrays it cannot use, for the
    global panel (no basin mask): a bathymetry with rows of no cell has no
    maximum along the last axis, a one-dimensional bathymetry leaves a
    scalar that cannot be indexed with a new axis, and a latitude vector
    whose length is not the number of rows cannot be laid against the
    sea floor. *)
Theorem create_topomask_bad_shapes depth yh :
  (∀ ny, shape depth = [ny; 0] →
         moc._create_topomask depth yh None = Raise ValueError)
  ∧ (∀ n, shape depth = [S n] →
          moc._create_topomask depth yh None = Raise IndexError)
  ∧ (∀ ny nx m, shape depth = [ny; S nx] → shape yh = [m] →
                m ≠ ny → m ≠ 1 → ny ≠ 1 →
                moc._create_topomask depth yh None = Raise ValueError).
Proof.
  split_and!.
  - intros ny Hd. unfold moc._create_topomask, np.max_last, np.reduce_last.
    cbn [mbind result_bind]. by rewrite Hd.
  - intros n Hd. unfold moc._create_topomask, np.max_last, np.reduce_last.
    cbn [mbind result_bind]. by rewrite Hd.
  - intros ny nx m Hd Hyh Hne Hm Hny.
    unfold moc._create_topomask. cbn [mbind result_bind]. unfold np.max_last.
    rewrite (reduce_last_2d _ _ _ _ Hd).
    cbn [mbind result_bind np.meshgrid np.newaxis_first shape].
    unfold np.map2, np.broadcast_shapes, np.tile, np.size.
    cbn [shape length Nat.max Nat.sub np.pad_left replicate app zip_with].
    rewrite Hyh.
    change (np.len (np.arange 0 7100 100)) with 71.
    change (foldr Nat.mul 1 (shape (np.arange 0 7100 100))) with 71.
    cbn [foldr rev app np.broadcast_rev].
    rewrite (proj2 (Nat.eqb_neq (m * 1) (1 * ny))) by lia.
    rewrite (proj2 (Nat.eqb_neq (m * 1) 1)) by lia.
    rewrite (proj2 (Nat.eqb_neq (1 * ny) 1)) by lia.
    reflexivity.
Qed.

(** X13 on the shelf: three latitudes for its single row. *)
Lemma create_topomask_bad_shapes_witness :
  moc._create_topomask (Sample.arr2 [[of_Z 250; of_Z 100]; [zero; zero]])
    (mk_ndarray [3] (λ _, of_Z 10)) None
  = Raise ValueError.
Proof.
  apply (proj2 (proj2 (create_topomask_bad_shapes
                         (Sample.arr2 [[of_Z 250; of_Z 100]; [zero; zero]])
                         (mk_ndarray [3] (λ _, of_Z 10)))) 2 1 3);
    [reflexivity | reflexivity | lia | lia | lia].
Defined.

Lemma elem_of_last_axis a pre n v :
  v ∈ last_axis a pre n ↔ ∃ i, i ≤ n ∧ v = item a (pre ++ [i]).
Proof.
  unfold last_axis. rewrite list_elem_of_fmap. split.
  - intros (i & -> & Hi%list_elem_of_In%in_seq). exists i. split; [lia|done].
  - intros (i & Hi & ->). exists i. split; [done|].
    apply list_elem_of_In, in_seq. lia.
Qed.

(** X14.  A basin panel shades at least what the global panel shades: with
    a bathymetry of non-negative numbers, a cell that is not masked in the
    mask made without a basin is not masked in the mask made for a basin,
    on the same grid. *)
Theorem create_topomask_basin_shades_more depth yh m ny nx tb tg zb zg :
  shape depth = [ny; S nx] →
  shape yh = [ny] →
  sizes (variable m) = [ny; S nx] →
  (∀ j i, j < ny → i ≤ nx → leb zero (item depth [j; i]) = true) →
  moc._create_topomask depth yh (Some m) = Ok (tb, zb) →
  moc._create_topomask depth yh None = Ok (tg, zg) →
  ∀ k j, k < 71 → j < ny →
    mask tg [k; j] = false → mask tb [k; j] = false.
Proof.
  intros Hd Hyh Hm Hpos Hb Hg k j Hk Hj.
  destruct (create_topomask_returns depth yh (Some m) ny nx Hd Hyh)
    as (tb' & Hb' & _ & Hcb); [by intros ? [= <-]|].
  destruct (create_topomask_returns depth yh None ny nx Hd Hyh)
    as (tg' & Hg' & _ & Hcg); [by intros ? [=]|].
  rewrite Hb in Hb'. injection Hb' as <- ->.
  rewrite Hg in Hg'. injection Hg' as <- _.
  destruct (Hcb k j Hk Hj) as [-> _]. destruct (Hcg k j Hk Hj) as [-> _].
  set (level := item (np.arange 0 7100 100) [k]).
  set (rb := last_axis (mk_ndarray (shape depth) (in_basin depth (Some m)))
               [j] nx).
  set (rg := last_axis (mk_ndarray (shape depth) (in_basin depth None))
               [j] nx).
  assert (∀ i, i ≤ nx → item depth [j; i] ≠ NaN) as Hnum.
  { intros i Hi. specialize (Hpos j i Hj Hi).
    by destruct (item depth [j; i]). }
  assert (Forall (λ v, v ≠ NaN) rg) as Hrg.
  { apply Forall_lookup_2. intros n v Hv%list_elem_of_lookup_2.
    apply elem_of_last_axis in Hv as (i & Hi & ->). by apply Hnum. }
  assert (Forall (λ v, v ≠ NaN) rb) as Hrb.
  { apply Forall_lookup_2. intros n v Hv%list_elem_of_lookup_2.
    apply elem_of_last_axis in Hv as (i & Hi & ->). cbn.
    destruct (eqb _ one); [by apply Hnum | done]. }
  destruct (list_max_spec rg (last_axis_nonempty _ _ _) Hrg) as [_ Hgmax].
  destruct (list_max_spec rb (last_axis_nonempty _ _ _) Hrb) as [Hbin _].
  assert (leb (list_max rb) (list_max rg) = true) as Hle.
  { apply elem_of_last_axis in Hbin as (i & Hi & ->). cbn.
    destruct (eqb _ one).
    - apply Hgmax, elem_of_last_axis. by exists i.
    - eapply leb_trans; [apply (Hpos j 0 Hj); lia|].
      apply Hgmax, elem_of_last_axis. exists 0. split; [lia|done]. }
  intros Hgl.
  destruct (list_max rg) as [|fg] eqn:Eg; [by destruct (list_max rb)|].
  destruct (list_max rb) as [|fb] eqn:Eb; [apply ltb_nan_r|].
  destruct level as [|l]; [done|].
  apply leb_not_ltb. eapply leb_trans; [exact Hle|].
  by apply ltb_false_leb.
Qed.

(** X14 on a shelf whose deeper cell, 250 m, lies outside the basin: at
    300 m the global mask shades, and so does the mask of the basin. *)
Lemma create_topomask_basin_shades_more_witness :
  ∃ tb tg,
    moc._create_topomask Sample.shelf Sample.shelf_yh
      (Some (mk_dataarray (Sample.grid [[zero; one]]) ∅))
    = Ok (tb, np.arange 0 7100 100)
    ∧ moc._create_topomask Sample.shelf Sample.shelf_yh None
      = Ok (tg, np.arange 0 7100 100)
    ∧ mask tb [3; 0] = false.
Proof.
  destruct (create_topomask_returns Sample.shelf Sample.shelf_yh
              (Some (mk_dataarray (Sample.grid [[zero; one]]) ∅)) 1 1
              eq_refl eq_refl ltac:(by intros m [= <-]))
    as (tb & Hb & _ & _).
  destruct (create_topomask_returns Sample.shelf Sample.shelf_yh None 1 1
              eq_refl eq_refl ltac:(intros m Hm; discriminate Hm))
    as (tg & Hg & _ & Hcg).
  exists tb, tg. split; [exact Hb|]. split; [exact Hg|].
  apply (create_topomask_basin_shades_more Sample.shelf Sample.shelf_yh
           (mk_dataarray (Sample.grid [[zero; one]]) ∅) 1 1 tb tg
           (np.arange 0 7100 100) (np.arange 0 7100 100)
           eq_refl eq_refl eq_refl); [|exact Hb | exact Hg | lia | lia |].
  - intros j i Hj Hi.
    destruct j as [|j], i as [|[|i]]; try lia; reflexivity.
  - destruct (Hcg 3 0 ltac:(lia) ltac:(lia)) as [-> _]. reflexivity.
Defined.

(** ** plot: the drawing calls of a figure *)

(** One statement of a monadic body that is known to return, followed in
    its outcome [H] and in its log [HT] at once. *)
Ltac lstep H HT :=
  rewrite trace_bind in HT;
  rewrite ?trace_lift, ?outcome_lift, ?trace_if_lift in HT;
  rewrite outcome_bind in H;
  lazymatch type of H with
  | match outcome (lift (Ok ?a)) with _ => _ end = _ =>
      rewrite outcome_lift in H; cbv beta iota in H, HT
  | match outcome (lift ?r) with _ => _ end = _ =>
      rewrite outcome_lift in H; destruct r eqn:?; [|discriminate H]
  | match outcome ?m with _ => _ end = _ =>
      destruct (outcome m) eqn:?; [|discriminate H]
  end.

(** The log of [_plotPsi] on a panel with a topography mask: the calls up
    to the y-label whatever the date range is, and the year label for a
    tuple that has a first and a second element. *)
Lemma plotPsi_log ax y z psi ci title xlim tm yh zz dates :
  trace (moc._plotPsi ax y z psi ci title xlim (Some tm) (Some yh) (Some zz)
           dates)
  = [Contourf ax y z (filled_with zero psi) ci;
     Contour ax y z (filled_with zero psi) ci;
     Contour ax y z (filled_with zero psi) (Level [zero]);
     Pcolormesh ax yh (np.map (mul (of_Z (-1))) zz) tm]
    ++ match xlim with Some (lo, hi) => [SetXlim ax lo hi] | None => [] end
    ++ [SetYscale ax "splitscale" [zero; of_Z (-2000); of_Z (-6500)];
        InvertYaxis ax; Colorbar "[Sv]";
        Text ax (of_Q 0.02) (of_Q 1.02) (Str title); Ylabel "Elevation [m]"]
    ++ match dates with
       | PyTuple (a :: b :: _) => [Text ax (of_Q 0.98) (of_Q 1.02) (Years a b)]
       | _ => []
       end.
Proof.
  unfold moc._plotPsi. rewrite where_getmask, lift_bind.
  destruct xlim as [[lo hi]|], dates as [| | | |[|a [|b l]]|l]; reflexivity.
Qed.

Lemma plotPsi_returns ax y z psi ci title xlim tm yh zz dates :
  outcome (moc._plotPsi ax y z psi ci title xlim (Some tm) (Some yh) (Some zz)
             dates) = Ok tt →
  dates = PyNone ∨ ∃ a b l, dates = PyTuple (a :: b :: l).
Proof.
  unfold moc._plotPsi. rewrite where_getmask, lift_bind.
  destruct xlim as [[lo hi]|], dates as [| | | |[|a [|b l]]|l]; try done;
    eauto 10.
Qed.

Lemma plotPsi_events ax y z psi ci title xlim tm yh zz dates ev :
  ev ∈ trace (moc._plotPsi ax y z psi ci title xlim (Some tm) (Some yh)
                (Some zz) dates) →
  panel_event ev = true.
Proof.
  rewrite plotPsi_log.
  destruct xlim as [[lo hi]|], dates as [| | | |[|a [|b l]]|l];
    cbn [app]; intros H;
    repeat (apply elem_of_cons in H as [-> | H]; [reflexivity|]);
    by apply elem_of_nil in H.
Qed.

(** An annotation that is drawn is one cross and one label, at the same
    point. *)
Lemma findExtrema_log ax y z psi min_lat max_lat min_depth mult :
  outcome (moc._findExtrema ax y z psi min_lat max_lat min_depth mult) = Ok tt →
  ∃ a b v,
    trace (moc._findExtrema ax y z psi min_lat max_lat min_depth mult)
    = [Marker ax a b "kx"; Text ax a b (Fmt1 v)].
Proof.
  intros H.
  remember (trace (moc._findExtrema ax y z psi min_lat max_lat min_depth mult))
    as T eqn:HT.
  unfold moc._findExtrema in H, HT. do 5 lstep H HT.
  destruct (np.unravel_index _ _) as [|j [|i [|]]]; try discriminate H.
  repeat lstep H HT.
  eexists _, _, _. rewrite HT. reflexivity.
Qed.

Lemma findExtrema_panel ax y z psi min_lat max_lat min_depth mult ev :
  ev ∈ trace (moc._findExtrema ax y z psi min_lat max_lat min_depth mult) →
  panel_event ev = true.
Proof.
  intros [(a & b & ->) | (a & b & v & ->)]%findExtrema_events; reflexivity.
Qed.

Lemma trace_emit e : trace (emit e) = [e].
Proof. done. Qed.

Lemma suptitle_log label :
  trace (match label with PyNone => ret () | _ => emit (Suptitle label) end)
  = match label with PyNone => [] | _ => [Suptitle label] end.
Proof. by destruct label. Qed.

(** The log of a [plot] that returns. *)
Lemma plot_returns_log dset otsfn label fig :
  outcome (moc.plot dset otsfn label) = Ok fig →
  ∃ yh depth bm atl ind dates Y Z p1 p2 p3 tm1 tm2 tm3 zz1 zz2 zz3,
    xr.getattr dset "yh" = Ok yh
    ∧ xr.getattr dset "depth" = Ok depth
    ∧ xr.getattr dset "basin_masks" = Ok bm
    ∧ xr.isel bm "basin" 0 = Ok atl
    ∧ xr.isel bm "basin" 1 = Ok ind
    ∧ xr.getattr_attrs dset "dates" = Ok dates
    ∧ moc._create_topomask (xr.values (variable depth))
        (xr.values (variable yh)) (Some atl) = Ok (tm1, zz1)
    ∧ moc._create_topomask (xr.values (variable depth))
        (xr.values (variable yh)) (Some ind) = Ok (tm2, zz2)
    ∧ moc._create_topomask (xr.values (variable depth))
        (xr.values (variable yh)) None = Ok (tm3, zz3)
    ∧ (dates = PyNone ∨ ∃ a b l, dates = PyTuple (a :: b :: l))
    ∧ ∃ x1 y1 v1 x2 y2 v2 x3 y3 v3 x4 y4 v4 x5 y5 v5 x6 y6 v6 x7 y7 v7
        x8 y8 v8,
        trace (moc.plot dset otsfn label)
        = [Figure; Subplot 3 1 1]
          ++ trace (moc._plotPsi 1 Y Z p1 (PmCI zero (of_Z 43) (of_Z 3))
                      "a. Atlantic MOC [Sv]" (Some (of_Z (-40), of_Z 90))
                      (Some tm1) (Some (xr.values (variable yh))) (Some zz3)
                      dates)
          ++ [Marker 1 x1 y1 "kx"; Text 1 x1 y1 (Fmt1 v1)]
          ++ [Marker 1 x2 y2 "kx"; Text 1 x2 y2 (Fmt1 v2)]
          ++ [Marker 1 x3 y3 "kx"; Text 1 x3 y3 (Fmt1 v3)]
          ++ [Subplot 3 1 2]
          ++ trace (moc._plotPsi 2 Y Z p2 (PmCI zero (of_Z 43) (of_Z 3))
                      "b. Indo-Pacific MOC [Sv]" (Some (of_Z (-40), of_Z 65))
                      (Some tm2) (Some (xr.values (variable yh))) (Some zz3)
                      PyNone)
          ++ [Marker 2 x4 y4 "kx"; Text 2 x4 y4 (Fmt1 v4)]
          ++ [Marker 2 x5 y5 "kx"; Text 2 x5 y5 (Fmt1 v5)]
          ++ [Subplot 3 1 3]
          ++ trace (moc._plotPsi 3 Y Z p3 (PmCI zero (of_Z 43) (of_Z 3))
                      "c. Global MOC [Sv]" None
                      (Some tm3) (Some (xr.values (variable yh))) (Some zz3)
                      PyNone)
          ++ [Marker 3 x6 y6 "kx"; Text 3 x6 y6 (Fmt1 v6)]
          ++ [Marker 3 x7 y7 "kx"; Text 3 x7 y7 (Fmt1 v7)]
          ++ [Marker 3 x8 y8 "kx"; Text 3 x8 y8 (Fmt1 v8)]
          ++ [Xlabel "Latitude [$\degree$N]"; SubplotsAdjust]
          ++ match label with PyNone => [] | _ => [Suptitle label] end.
Proof.
  intros H. remember (trace (moc.plot dset otsfn label)) as T eqn:HT.
  unfold moc.plot in H, HT.
  do 13 lstep H HT.
  do 3 (lstep H HT;
        lazymatch goal with
        | p : (MaskedArray float * ndarray float)%type |- _ =>
            destruct p as [? ?]
        end).
  repeat lstep H HT.
  repeat match goal with u : () |- _ => destruct u end.
  repeat match goal with
         | Hf : outcome (moc._findExtrema _ _ _ _ _ _ _ _) = Ok tt |- _ =>
             let a := fresh "a" in
             let b := fresh "b" in
             let v := fresh "v" in
             let E := fresh "E" in
             destruct (findExtrema_log _ _ _ _ _ _ _ _ Hf) as (a & b & v & E);
             rewrite E in HT; clear Hf E
         end.
  match goal with
  | Hp : outcome (moc._plotPsi 1 _ _ _ _ _ _ _ _ _ ?d) = Ok tt |- _ =>
      pose proof (plotPsi_returns _ _ _ _ _ _ _ _ _ _ _ Hp) as Hdates
  end.
  rewrite (suptitle_log label), !trace_emit in HT.
  change (trace (ret Fig)) with (@nil event) in HT.
  rewrite ?app_nil_l, app_nil_r in HT.
  eexists _, _, _, _, _, _, _, _, _, _, _, _, _, _, _, _, _.
  split_and!; try eassumption; try reflexivity.
  eexists _, _, _, _, _, _, _, _, _, _, _, _, _, _, _, _, _, _, _, _, _, _, _, _.
  exact HT.
Qed.


Lemma plotPsi_years ax y z psi ci title xlim tm yh zz dates ax' x' y' a b :
  Text ax' x' y' (Years a b)
  ∈ trace (moc._plotPsi ax y z psi ci title xlim (Some tm) (Some yh) (Some zz)
             dates) →
  ax' = ax ∧ x' = of_Q 0.98 ∧ y' = of_Q 1.02
  ∧ ∃ l, dates = PyTuple (a :: b :: l).
Proof.
  rewrite plotPsi_log.
  destruct xlim as [[lo hi]|], dates as [| | | |[|a' [|b' l]]|l];
    cbn [app]; intros H;
    repeat (apply elem_of_cons in H as [H | H];
            [first [discriminate H
                   | injection H as -> -> -> -> ->; by eauto 10]|]);
    by apply elem_of_nil in H.
Qed.



(** One statement of [plot] on the way to a given call, for a call that no
    panel makes; the outcome in the goal follows. *)
Ltac qstep H :=
  let x := fresh "x" in
  let Hx := fresh "Hx" in
  apply elem_trace_bind in H as [H | (x & Hx & H)];
  [ exfalso; first
      [ rewrite trace_lift in H; by apply elem_of_nil in H
      | rewrite trace_if_lift in H; by apply elem_of_nil in H
      | apply list_elem_of_singleton in H; discriminate H
      | apply findExtrema_panel in H; discriminate H
      | apply plotPsi_events in H; discriminate H ]
  | rewrite outcome_bind, Hx; cbv beta iota zeta;
    try lazymatch goal with
        | p : (MaskedArray float * ndarray float)%type |- _ =>
            destruct p as [? ?]
        end ].

(** X16.  The year label of the figure.  Only the first panel carries it:
    it prints the first two elements of the date range of the dataset, a
    tuple, at (0.98, 1.02).  A figure that is returned had no date range
    ([None]), and then no year label, or a tuple with at least two
    elements, whose first two are on the first panel. *)
Theorem plot_year_label dset otsfn label :
  (∀ ax x y a b,
     Text ax x y (Years a b) ∈ trace (moc.plot dset otsfn label) →
     ax = 1 ∧ x = of_Q 0.98 ∧ y = of_Q 1.02
     ∧ ∃ l, xr.getattr_attrs dset "dates" = Ok (PyTuple (a :: b :: l)))
  ∧ (∀ fig, outcome (moc.plot dset otsfn label) = Ok fig →
       ∃ dates,
         xr.getattr_attrs dset "dates" = Ok dates
         ∧ ((dates = PyNone
             ∧ ∀ ax x y a b,
                 Text ax x y (Years a b) ∉ trace (moc.plot dset otsfn label))
            ∨ ∃ a b l,
                dates = PyTuple (a :: b :: l)
                ∧ Text 1 (of_Q 0.98) (of_Q 1.02) (Years a b)
                  ∈ trace (moc.plot dset otsfn label))).
Proof.
  assert (∀ ax x y a b,
            Text ax x y (Years a b) ∈ trace (moc.plot dset otsfn label) →
            ax = 1 ∧ x = of_Q 0.98 ∧ y = of_Q 1.02
            ∧ ∃ l, xr.getattr_attrs dset "dates" = Ok (PyTuple (a :: b :: l)))
    as Hback.
  { intros ax x y a b H. unfold moc.plot in H.
    do 13 pstep H.
    do 3 (pstep H;
          lazymatch goal with
          | p : (MaskedArray float * ndarray float)%type |- _ =>
              destruct p as [? ?]
          end).
    do 3 pstep H. pstep H.
    { apply plotPsi_years in H as (-> & -> & -> & l & ->). eauto 10. }
    do 5 pstep H. pstep H.
    { by apply plotPsi_years in H as (_ & _ & _ & l & [=]). }
    do 4 pstep H. pstep H.
    { by apply plotPsi_years in H as (_ & _ & _ & l & [=]). }
    do 5 pstep H.
    destruct label; pstep H; by apply elem_of_nil in H. }
  split; [exact Hback|].
  intros fig Hfig.
  destruct (plot_returns_log dset otsfn label fig Hfig)
    as (yh & depth & bm & atl & ind & dates & Y & Z & p1 & p2 & p3 & tm1
        & tm2 & tm3 & zz1 & zz2 & zz3 & _ & _ & _ & _ & _ & Hd & _ & _ & _
        & Hcases & x1 & y1 & v1 & x2 & y2 & v2 & x3 & y3 & v3 & x4 & y4 & v4
        & x5 & y5 & v5 & x6 & y6 & v6 & x7 & y7 & v7 & x8 & y8 & v8 & Ht).
  exists dates. split; [exact Hd|].
  destruct Hcases as [-> | (a & b & l & ->)].
  - left. split; [done|]. intros ax x y a b Hin.
    apply Hback in Hin as (_ & _ & _ & l & Hd').
    rewrite Hd in Hd'. discriminate Hd'.
  - right. exists a, b, l. split; [done|].
    rewrite Ht, plotPsi_log. by apply (list_elem_of_lookup_2 _ 12).
Qed.

(** X17.  The title of the figure is the last thing [plot] does: a
    [suptitle] call is in the log exactly when the label is not [None] and
    the figure is returned; it carries the label and it closes the log. *)
Theorem plot_suptitle dset otsfn label :
  (∀ l, Suptitle l ∈ trace (moc.plot dset otsfn label) →
        l = label ∧ label ≠ PyNone
        ∧ outcome (moc.plot dset otsfn label) = Ok Fig)
  ∧ (∀ fig, outcome (moc.plot dset otsfn label) = Ok fig →
       label ≠ PyNone →
       ∃ t, trace (moc.plot dset otsfn label) = t ++ [Suptitle label]).
Proof.
  split.
  - intros l H. unfold moc.plot in H |- *.
    do 36 qstep H.
    apply elem_trace_bind in H as [H | (u & Hu & H)];
      [|by apply elem_of_nil in H].
    rewrite outcome_bind.
    destruct label; try (by apply elem_of_nil in H);
      apply list_elem_of_singleton in H; injection H as ->; done.
  - intros fig Hfig Hlabel.
    destruct (plot_returns_log dset otsfn label fig Hfig)
      as (yh & depth & bm & atl & ind & dates & Y & Z & p1 & p2 & p3 & tm1
          & tm2 & tm3 & zz1 & zz2 & zz3 & _ & _ & _ & _ & _ & _ & _ & _ & _
          & _ & x1 & y1 & v1 & x2 & y2 & v2 & x3 & y3 & v3 & x4 & y4 & v4
          & x5 & y5 & v5 & x6 & y6 & v6 & x7 & y7 & v7 & x8 & y8 & v8 & Ht).
    rewrite Ht, !app_assoc.
    destruct label; try done; eexists; reflexivity.
Qed.




(** X19.  The layout of a figure that is returned: it is opened first; the
    three panels are opened in order in a column of three; each has one
    filled contour and one topography shading; the first panel carries
    three crosses, the second two and the third three; and the latitudes
    are limited to -40..90 on the first panel and to -40..65 on the second,
    not on the third. *)
Theorem plot_layout dset otsfn label fig :
  outcome (moc.plot dset otsfn label) = Ok fig →
  head (trace (moc.plot dset otsfn label)) = Some Figure
  ∧ subplots (trace (moc.plot dset otsfn label))
    = [(3, 1, 1); (3, 1, 2); (3, 1, 3)]
  ∧ contourf_axes (trace (moc.plot dset otsfn label)) = [1; 2; 3]
  ∧ pcolormesh_axes (trace (moc.plot dset otsfn label)) = [1; 2; 3]
  ∧ marker_axes (trace (moc.plot dset otsfn label)) = [1; 1; 1; 2; 2; 3; 3; 3]
  ∧ xlims (trace (moc.plot dset otsfn label))
    = [(1, of_Z (-40), of_Z 90); (2, of_Z (-40), of_Z 65)].
Proof.
  intros Hfig.
  destruct (plot_returns_log dset otsfn label fig Hfig)
    as (yh & depth & bm & atl & ind & dates & Y & Z & p1 & p2 & p3 & tm1
        & tm2 & tm3 & zz1 & zz2 & zz3 & _ & _ & _ & _ & _ & _ & _ & _ & _
        & Hdates & x1 & y1 & v1 & x2 & y2 & v2 & x3 & y3 & v3 & x4 & y4 & v4
        & x5 & y5 & v5 & x6 & y6 & v6 & x7 & y7 & v7 & x8 & y8 & v8 & ->).
  rewrite !plotPsi_log.
  destruct Hdates as [-> | (a & b & l & ->)]; destruct label;
    split_and!; reflexivity.
Qed.



(** X16 on the small ocean: the years 1958 and 2017 on the first panel. *)
Lemma plot_year_label_witness :
  Text 1 (of_Q 0.98) (of_Q 1.02) (Years (PyInt 1958) (PyInt 2017))
  ∈ trace Sample.plot.
Proof.
  destruct (proj2 (plot_year_label Sample.dset Sample.otsfn PyNone) Fig
              ltac:(vm_compute; reflexivity))
    as (dates & Hd & [[-> _] | (a & b & l & -> & Hin)]).
  - vm_compute in Hd. discriminate Hd.
  - vm_compute in Hd. injection Hd as <- <- _. exact Hin.
Defined.

(** X17 on the small ocean with the label "OM4". *)
Lemma plot_suptitle_witness :
  ∃ t, trace (moc.plot Sample.dset Sample.otsfn (PyStr "OM4"))
       = t ++ [Suptitle (PyStr "OM4")].
Proof.
  apply (proj2 (plot_suptitle Sample.dset Sample.otsfn (PyStr "OM4")) Fig).
  - vm_compute. reflexivity.
  - discriminate.
Defined.


(** X19 on the small ocean. *)
Lemma plot_layout_witness :
  contourf_axes (trace Sample.plot) = [1; 2; 3]
  ∧ marker_axes (trace Sample.plot) = [1; 1; 1; 2; 2; 3; 3; 3].
Proof.
  destruct (plot_layout Sample.dset Sample.otsfn PyNone Fig
              ltac:(vm_compute; reflexivity))
    as (_ & _ & Hc & _ & Hm & _).
  split; [exact Hc | exact Hm].
Defined.

(** ** run: the stages and what starts them *)

Lemma bind_ok {A B} t (a : A) (f : A → M B) :
  ((t, Ok a) : M A) ≫= f = (t ++ trace (f a), outcome (f a)).
Proof. unfold mbind, M_bind, bind. by destruct (f a). Qed.

Lemma bind_outcome {A B} (m : M A) (f : A → M B) :
  m ≫= f
  = match outcome m with
    | Ok a => (trace m ++ trace (f a), outcome (f a))
    | Raise e => (trace m, Raise e)
    end.
Proof.
  destruct m as [t [a|e]]; [apply bind_ok | reflexivity].
Qed.

Lemma dict_get_some d k o : d !! k = Some o → dict_get d k = ret o.
Proof. unfold dict_get. by intros ->. Qed.

Lemma dict_get_none d k : d !! k = None → dict_get d k = raise (KeyError k).
Proof. unfold dict_get. by intros ->. Qed.

Lemma mapM_events {A B} (f : A → M B) l ev :
  ev ∈ trace (mapM f l) → ∃ x, x ∈ l ∧ ev ∈ trace (f x).
Proof.
  induction l as [|a l IH]; intros H; [by apply elem_of_nil in H|].
  cbn [mapM] in H.
  apply elem_trace_bind in H as [H | (b & _ & H)].
  - exists a. split; [left | done].
  - apply elem_trace_bind in H as [H | (bs & _ & H)].
    + destruct (IH H) as (x & Hx & Hev). exists x. split; [by right | done].
    + by apply elem_of_nil in H.
Qed.

Lemma panel_drawing ev : panel_event ev = true → drawing ev = true.
Proof. by destruct ev. Qed.

Lemma drawing_stage ev : drawing ev = true → stage ev = 3.
Proof. by destruct ev. Qed.

Lemma calculate_events calcmoc dset ev :
  ev ∈ trace (moc.calculate calcmoc dset) →
  ∃ b l i, ev = Calcmoc b l i
           ∧ b ∈ moc.basins
           ∧ xr.getattr_attrs dset "layer" = Ok l
           ∧ xr.getattr_attrs dset "interface" = Ok i.
Proof.
  intros H. unfold moc.calculate in H.
  apply elem_trace_bind in H as [H | (l & _ & H)].
  - apply mapM_events in H as (b & Hb & H).
    apply elem_trace_bind in H as [H | (lay & Hl & H)];
      [by apply elem_of_nil in H|].
    apply elem_trace_bind in H as [H | (int & Hi & H)];
      [by apply elem_of_nil in H|].
    apply list_elem_of_singleton in H as ->. eauto 10.
  - do 4 (apply elem_trace_bind in H as [H | (? & _ & H)];
          [by apply elem_of_nil in H|]).
    by apply elem_of_nil in H.
Qed.

(** One statement of [plot] on the way to any call: the call is a drawing
    call. *)
Ltac dstep H :=
  apply elem_trace_bind in H as [H | (? & _ & H)];
  [ first
      [ rewrite trace_lift in H; by apply elem_of_nil in H
      | rewrite trace_if_lift in H; by apply elem_of_nil in H
      | by apply list_elem_of_singleton in H as ->
      | by apply findExtrema_panel, panel_drawing in H
      | by apply plotPsi_events, panel_drawing in H ]
  | try lazymatch goal with
        | p : (MaskedArray float * ndarray float)%type |- _ =>
            destruct p as [? ?]
        end ].

Lemma plot_events dset otsfn label ev :
  ev ∈ trace (moc.plot dset otsfn label) → drawing ev = true.
Proof.
  intros H. unfold moc.plot in H. do 36 dstep H.
  apply elem_trace_bind in H as [H | (? & _ & H)];
    [|by apply elem_of_nil in H].
  destruct label; try (by apply elem_of_nil in H);
    by apply list_elem_of_singleton in H as ->.
Qed.

Lemma stage_const l k :
  (∀ ev, ev ∈ l → stage ev = k) → stage <$> l = replicate (length l) k.
Proof.
  induction l as [|ev l IH]; intros H; [done|].
  cbn [fmap list_fmap length replicate]. rewrite (H ev) by left.
  f_equal. apply IH. intros ev' Hev'. apply H. by right.
Qed.

Lemma backend_stage i ev : ev ∈ backend i → stage ev = 0.
Proof.
  destruct i as [|[]| | | |]; cbn; intros H;
    try (by apply elem_of_nil in H).
  by apply list_elem_of_singleton in H as ->.
Qed.

Lemma backend_length i :
  length (backend i) ≤ 1 ∧ (length (backend i) = 1 ↔ i = PyBool false).
Proof. destruct i as [|[]| | | |]; cbn; split; try lia; split; done. Qed.

Lemma prefix_length_le {A} (l k : list A) : l `prefix_of` k → length l ≤ length k.
Proof. intros [k' ->]. rewrite length_app. lia. Qed.

Lemma calculate_length calcmoc dset :
  length (trace (moc.calculate calcmoc dset)) ≤ 3.
Proof.
  destruct (xr.getattr_attrs dset "layer") as [l|e] eqn:Hl; cycle 1.
  { unfold moc.calculate, moc.basins. cbn [mapM]. rewrite Hl. cbn. lia. }
  destruct (xr.getattr_attrs dset "interface") as [i|e] eqn:Hi; cycle 1.
  { unfold moc.calculate, moc.basins. cbn [mapM]. rewrite Hl, Hi. cbn. lia. }
  destruct (calculate_logs calcmoc dset l i Hl Hi) as [Hp _].
  apply prefix_length_le in Hp. exact Hp.
Qed.

Section Run.

Variable open_mfdataset : pyobj → result Dataset.
Variable horizontal_grid : gmap string pyobj → string → result Dataset.
Variable read_topography :
  gmap string pyobj → Dataset → string → result DataArray.
Variable generate_basin_masks : ndarray float → string → result (ndarray float).
Variable date_range : Dataset → result pyobj.
Variable calcmoc : Dataset → string → pyobj → pyobj → result DataArray.
Variable image_handler : gmap string pyobj → pyobj → string → result pyobj.

Local Abbreviation run :=
  (moc.run open_mfdataset horizontal_grid read_topography
     generate_basin_masks date_range calcmoc image_handler).

Local Abbreviation read :=
  (moc.read open_mfdataset horizontal_grid read_topography
     generate_basin_masks date_range).

Local Abbreviation calculate := (moc.calculate calcmoc).

Lemma read_events dictArgs vcomp ucomp ev :
  ev ∈ trace (read dictArgs vcomp ucomp) → stage ev = 1.
Proof.
  destruct (dictArgs !! "infile") as [infile|] eqn:Hin.
  - destruct (read_logs open_mfdataset horizontal_grid read_topography
                generate_basin_masks date_range dictArgs vcomp ucomp infile
                Hin) as [[k Hk] _].
    intros H. assert (ev ∈ read_calls infile) as Hev
      by (rewrite Hk; apply elem_of_app; by left).
    unfold read_calls in Hev.
    repeat (apply elem_of_cons in Hev as [-> | Hev]; [reflexivity|]).
    by apply elem_of_nil in Hev.
  - unfold moc.read, dict_get. rewrite Hin. intros H.
    by apply elem_of_nil in H.
Qed.

(** What [run] logs and how it ends, by the first stage that fails. *)
Lemma run_cases dictArgs :
  (dictArgs !! "interactive" = None →
   run dictArgs = ([], Raise (KeyError "interactive")))
  ∧ ∀ interactive, dictArgs !! "interactive" = Some interactive →
      (∀ e, outcome (read dictArgs "vmo" "umo") = Raise e →
            run dictArgs
            = (backend interactive ++ trace (read dictArgs "vmo" "umo"),
               Raise e))
      ∧ ∀ dset, outcome (read dictArgs "vmo" "umo") = Ok dset →
          (∀ e, outcome (calculate dset) = Raise e →
                run dictArgs
                = (backend interactive ++ trace (read dictArgs "vmo" "umo")
                     ++ trace (calculate dset), Raise e))
          ∧ ∀ otsfn, outcome (calculate dset) = Ok otsfn →
              (dictArgs !! "label" = None →
               run dictArgs
               = (backend interactive ++ trace (read dictArgs "vmo" "umo")
                    ++ trace (calculate dset), Raise (KeyError "label")))
              ∧ ∀ label, dictArgs !! "label" = Some label →
                  (∀ e, outcome (moc.plot dset otsfn label) = Raise e →
                        run dictArgs
                        = (backend interactive
                             ++ trace (read dictArgs "vmo" "umo")
                             ++ trace (calculate dset)
                             ++ trace (moc.plot dset otsfn label), Raise e))
                  ∧ ∀ fig, outcome (moc.plot dset otsfn label) = Ok fig →
                      (dictArgs !! "outdir" = None →
                       run dictArgs
                       = (backend interactive
                            ++ trace (read dictArgs "vmo" "umo")
                            ++ trace (calculate dset)
                            ++ trace (moc.plot dset otsfn label),
                          Raise (KeyError "outdir")))
                      ∧ ∀ outdir, dictArgs !! "outdir" = Some outdir →
                          run dictArgs
                          = (backend interactive
                               ++ trace (read dictArgs "vmo" "umo")
                               ++ trace (calculate dset)
                               ++ trace (moc.plot dset otsfn label)
                               ++ [ImageHandler outdir "moc"],
                             image_handler dictArgs outdir "moc").
Proof.
  split.
  { intros Hi. unfold moc.run. by rewrite (dict_get_none _ _ Hi). }
  intros interactive Hi.
  assert (run dictArgs
          = (backend interactive
               ++ trace (dset ← read dictArgs "vmo" "umo";
                         otsfn ← calculate dset;
                         label ← dict_get dictArgs "label";
                         fig ← moc.plot dset otsfn label;
                         outdir ← dict_get dictArgs "outdir";
                         call (ImageHandler outdir "moc")
                           (image_handler dictArgs outdir "moc")),
             outcome (dset ← read dictArgs "vmo" "umo";
                      otsfn ← calculate dset;
                      label ← dict_get dictArgs "label";
                      fig ← moc.plot dset otsfn label;
                      outdir ← dict_get dictArgs "outdir";
                      call (ImageHandler outdir "moc")
                        (image_handler dictArgs outdir "moc"))))
    as ->.
  { unfold moc.run. rewrite (dict_get_some _ _ _ Hi), ret_bind.
    assert (match interactive with
            | PyBool false => emit (SwitchBackend "Agg")
            | _ => ret ()
            end = (backend interactive, Ok tt)) as ->
      by (by destruct interactive as [|[]| | | |]).
    by rewrite bind_ok. }
  split.
  { intros e Hr. rewrite bind_outcome, Hr. reflexivity. }
  intros dset Hr. rewrite bind_outcome, Hr. cbn [fst snd].
  split.
  { intros e Hc. rewrite bind_outcome, Hc. reflexivity. }
  intros otsfn Hc. rewrite bind_outcome, Hc. cbn [fst snd].
  split.
  { intros Hl. rewrite (dict_get_none _ _ Hl). cbn. by rewrite !app_nil_r. }
  intros label Hl. rewrite (dict_get_some _ _ _ Hl), ret_bind. split.
  { intros e Hp. rewrite bind_outcome, Hp. reflexivity. }
  intros fig Hp. rewrite bind_outcome, Hp. cbn [fst snd].
  split.
  { intros Ho. rewrite (dict_get_none _ _ Ho). cbn. by rewrite !app_nil_r. }
  intros outdir Ho. rewrite (dict_get_some _ _ _ Ho), ret_bind. reflexivity.
Qed.

(** The log of [run] in five segments, one per stage, and what each
    segment that is not empty tells about the stages before it. *)
Lemma run_segments dictArgs :
  ∃ B R C P I,
    trace (run dictArgs) = B ++ R ++ C ++ P ++ I
    ∧ (B = [] ∨ ∃ i, dictArgs !! "interactive" = Some i ∧ B = backend i)
    ∧ (R = [] ∨ R = trace (read dictArgs "vmo" "umo"))
    ∧ (C = [] ∨ ∃ dset, outcome (read dictArgs "vmo" "umo") = Ok dset
                        ∧ C = trace (calculate dset))
    ∧ (P = [] ∨ ∃ dset otsfn label,
                  outcome (read dictArgs "vmo" "umo") = Ok dset
                  ∧ outcome (calculate dset) = Ok otsfn
                  ∧ dictArgs !! "label" = Some label
                  ∧ P = trace (moc.plot dset otsfn label))
    ∧ (I = [] ∨ ∃ dset otsfn label fig outdir,
                  outcome (read dictArgs "vmo" "umo") = Ok dset
                  ∧ outcome (calculate dset) = Ok otsfn
                  ∧ dictArgs !! "label" = Some label
                  ∧ outcome (moc.plot dset otsfn label) = Ok fig
                  ∧ dictArgs !! "outdir" = Some outdir
                  ∧ I = [ImageHandler outdir "moc"]).
Proof.
  destruct (run_cases dictArgs) as [Hnone Hsome].
  destruct (dictArgs !! "interactive") as [i|] eqn:Hi; cycle 1.
  { exists [], [], [], [], []. rewrite (Hnone eq_refl).
    split_and!; by auto. }
  destruct (Hsome i eq_refl) as [Hread Hsome1].
  destruct (outcome (read dictArgs "vmo" "umo")) as [dset|e] eqn:Hr; cycle 1.
  { exists (backend i), (trace (read dictArgs "vmo" "umo")), [], [], [].
    rewrite (Hread e eq_refl). cbn [trace fst]. rewrite !app_nil_r.
    split_and!; eauto 10. }
  destruct (Hsome1 dset eq_refl) as [Hcalc Hsome2].
  destruct (outcome (calculate dset)) as [otsfn|e] eqn:Hc; cycle 1.
  { exists (backend i), (trace (read dictArgs "vmo" "umo")),
      (trace (calculate dset)), [], [].
    rewrite (Hcalc e eq_refl). cbn [trace fst]. rewrite !app_nil_r.
    split_and!; eauto 10. }
  destruct (Hsome2 otsfn eq_refl) as [Hlabel Hsome3].
  destruct (dictArgs !! "label") as [label|] eqn:Hl; cycle 1.
  { exists (backend i), (trace (read dictArgs "vmo" "umo")),
      (trace (calculate dset)), [], [].
    rewrite (Hlabel eq_refl). cbn [trace fst]. rewrite !app_nil_r.
    split_and!; eauto 10. }
  destruct (Hsome3 label eq_refl) as [Hplot Hsome4].
  destruct (outcome (moc.plot dset otsfn label)) as [fig|e] eqn:Hp; cycle 1.
  { exists (backend i), (trace (read dictArgs "vmo" "umo")),
      (trace (calculate dset)), (trace (moc.plot dset otsfn label)), [].
    rewrite (Hplot e eq_refl). cbn [trace fst]. rewrite !app_nil_r.
    split_and!; eauto 15. }
  destruct (Hsome4 fig eq_refl) as [Houtdir Hsome5].
  destruct (dictArgs !! "outdir") as [outdir|] eqn:Ho; cycle 1.
  { exists (backend i), (trace (read dictArgs "vmo" "umo")),
      (trace (calculate dset)), (trace (moc.plot dset otsfn label)), [].
    rewrite (Houtdir eq_refl). cbn [trace fst]. rewrite !app_nil_r.
    split_and!; eauto 15. }
  exists (backend i), (trace (read dictArgs "vmo" "umo")),
    (trace (calculate dset)), (trace (moc.plot dset otsfn label)),
    [ImageHandler outdir "moc"].
  rewrite (Hsome5 outdir eq_refl). cbn [trace fst].
  split_and!; eauto 20.
Qed.

Lemma read_length dictArgs vcomp ucomp :
  length (trace (read dictArgs vcomp ucomp)) ≤ 6.
Proof.
  destruct (dictArgs !! "infile") as [infile|] eqn:Hin.
  - destruct (read_logs open_mfdataset horizontal_grid read_topography
                generate_basin_masks date_range dictArgs vcomp ucomp infile
                Hin) as [Hp _].
    apply prefix_length_le in Hp. exact Hp.
  - unfold moc.read, dict_get. rewrite Hin. cbn. lia.
Qed.

(** X20.  A [run] whose stages all return: the log is the backend switch,
    made when the option "interactive" is [False], followed by the logs
    of [read], of [calculate] on the dataset read and of [plot] on both
    with the option "label", and closed by the one call of the image
    handler, for the directory of the option "outdir" and the file name
    "moc"; [run] ends as the image handler ends. *)
Theorem run_composes dictArgs interactive dset otsfn label fig outdir :
  dictArgs !! "interactive" = Some interactive →
  outcome (read dictArgs "vmo" "umo") = Ok dset →
  outcome (calculate dset) = Ok otsfn →
  dictArgs !! "label" = Some label →
  outcome (moc.plot dset otsfn label) = Ok fig →
  dictArgs !! "outdir" = Some outdir →
  run dictArgs
  = (backend interactive
       ++ trace (read dictArgs "vmo" "umo")
       ++ trace (calculate dset)
       ++ trace (moc.plot dset otsfn label)
       ++ [ImageHandler outdir "moc"],
     image_handler dictArgs outdir "moc").
Proof.
  intros Hi Hr Hc Hl Hp Ho.
  destruct (run_cases dictArgs) as [_ H].
  destruct (H interactive Hi) as [_ H1].
  destruct (H1 dset Hr) as [_ H2].
  destruct (H2 otsfn Hc) as [_ H3].
  destruct (H3 label Hl) as [_ H4].
  destruct (H4 fig Hp) as [_ H5].
  exact (H5 outdir Ho).
Qed.

(** X21.  [run] stops at the first stage that fails, with the error of
    that stage and the log made so far; the options are looked up when
    they are needed: "interactive" first, before anything is done;
    "label" after the calculation and before anything is drawn; "outdir"
    after the figure is drawn, so that without it the image handler is
    not called. *)
Theorem run_stops_at_first_failure dictArgs :
  (dictArgs !! "interactive" = None →
   run dictArgs = ([], Raise (KeyError "interactive")))
  ∧ ∀ interactive, dictArgs !! "interactive" = Some interactive →
      (∀ e, outcome (read dictArgs "vmo" "umo") = Raise e →
            run dictArgs
            = (backend interactive ++ trace (read dictArgs "vmo" "umo"),
               Raise e))
      ∧ ∀ dset, outcome (read dictArgs "vmo" "umo") = Ok dset →
          (∀ e, outcome (calculate dset) = Raise e →
                run dictArgs
                = (backend interactive ++ trace (read dictArgs "vmo" "umo")
                     ++ trace (calculate dset), Raise e))
          ∧ ∀ otsfn, outcome (calculate dset) = Ok otsfn →
              (dictArgs !! "label" = None →
               run dictArgs
               = (backend interactive ++ trace (read dictArgs "vmo" "umo")
                    ++ trace (calculate dset), Raise (KeyError "label")))
              ∧ ∀ label, dictArgs !! "label" = Some label →
                  (∀ e, outcome (moc.plot dset otsfn label) = Raise e →
                        run dictArgs
                        = (backend interactive
                             ++ trace (read dictArgs "vmo" "umo")
                             ++ trace (calculate dset)
                             ++ trace (moc.plot dset otsfn label), Raise e))
                  ∧ ∀ fig, outcome (moc.plot dset otsfn label) = Ok fig →
                      dictArgs !! "outdir" = None →
                      run dictArgs
                      = (backend interactive
                           ++ trace (read dictArgs "vmo" "umo")
                           ++ trace (calculate dset)
                           ++ trace (moc.plot dset otsfn label),
                         Raise (KeyError "outdir")).
Proof.
  destruct (run_cases dictArgs) as [Hnone H].
  split; [exact Hnone|]. intros interactive Hi.
  destruct (H interactive Hi) as [Hread H1].
  split; [exact Hread|]. intros dset Hr.
  destruct (H1 dset Hr) as [Hcalc H2].
  split; [exact Hcalc|]. intros otsfn Hc.
  destruct (H2 otsfn Hc) as [Hlabel H3].
  split; [exact Hlabel|]. intros label Hl.
  destruct (H3 label Hl) as [Hplot H4].
  split; [exact Hplot|]. intros fig Hp.
  destruct (H4 fig Hp) as [Houtdir _]. exact Houtdir.
Qed.

(** X22.  The log of [run] is ordered by stage, whatever happens: at
    most one backend switch, made exactly when the option "interactive"
    is the constant [False]; then at most six calls that read; then at
    most three calls of the calculator; then the drawing calls; then at
    most one call of the image handler. *)
Theorem run_log_by_stage dictArgs :
  ∃ n0 n1 n2 n3 n4,
    stage <$> trace (run dictArgs)
    = replicate n0 0 ++ replicate n1 1 ++ replicate n2 2
        ++ replicate n3 3 ++ replicate n4 4
    ∧ n0 ≤ 1 ∧ n1 ≤ 6 ∧ n2 ≤ 3 ∧ n4 ≤ 1
    ∧ (n0 = 1 ↔ dictArgs !! "interactive" = Some (PyBool false)).
Proof.
  destruct (run_segments dictArgs)
    as (B & R & C & P & I & Ht & HB & HR & HC & HP & HI).
  exists (length B), (length R), (length C), (length P), (length I).
  rewrite Ht, !fmap_app. split_and!.
  - f_equal; [|f_equal; [|f_equal; [|f_equal]]]; apply stage_const.
    + destruct HB as [-> | (i & _ & ->)];
        [intros ev H; by apply elem_of_nil in H | apply backend_stage].
    + destruct HR as [-> | ->];
        [intros ev H; by apply elem_of_nil in H | apply read_events].
    + destruct HC as [-> | (dset & _ & ->)];
        [intros ev H; by apply elem_of_nil in H|].
      intros ev (b & l & i & -> & _)%calculate_events. done.
    + destruct HP as [-> | (dset & otsfn & label & _ & _ & _ & ->)];
        [intros ev H; by apply elem_of_nil in H|].
      intros ev H%plot_events. by apply drawing_stage.
    + destruct HI as [-> | (? & ? & ? & ? & outdir & _ & _ & _ & _ & _ & ->)];
        [intros ev H; by apply elem_of_nil in H|].
      by intros ev ->%list_elem_of_singleton.
  - destruct HB as [-> | (i & _ & ->)]; [cbn; lia | apply backend_length].
  - destruct HR as [-> | ->]; [cbn; lia | apply read_length].
  - destruct HC as [-> | (dset & _ & ->)]; [cbn; lia | apply calculate_length].
  - destruct HI as [-> | (? & ? & ? & ? & outdir & _ & _ & _ & _ & _ & ->)];
      cbn; lia.
  - destruct HB as [-> | (i & Hi & ->)].
    + split; [done|]. intros Hi.
      destruct (run_cases dictArgs) as [_ H].
      destruct (dictArgs !! "interactive") as [i|] eqn:E; [|done].
      injection Hi as ->. exfalso.
      (* the backend switch is in the log, which has no event of stage 0 *)
      destruct (H (PyBool false) eq_refl) as [Hread H1].
      assert (SwitchBackend "Agg" ∈ trace (run dictArgs)) as Hin.
      { destruct (outcome (read dictArgs "vmo" "umo")) as [dset|e] eqn:Hr.
        - destruct (H1 dset eq_refl) as [Hcalc H2].
          destruct (outcome (calculate dset)) as [otsfn|e] eqn:Hc.
          + destruct (H2 otsfn eq_refl) as [Hlabel H3].
            destruct (dictArgs !! "label") as [label|] eqn:Hl.
            * destruct (H3 label eq_refl) as [Hplot H4].
              destruct (outcome (moc.plot dset otsfn label))
                as [fig|e] eqn:Hp.
              -- destruct (H4 fig eq_refl) as [Houtdir H5].
                 destruct (dictArgs !! "outdir") as [outdir|] eqn:Ho.
                 ++ rewrite (H5 outdir eq_refl). left.
                 ++ rewrite (Houtdir eq_refl). left.
              -- rewrite (Hplot e eq_refl). left.
            * rewrite (Hlabel eq_refl). left.
          + rewrite (Hcalc e eq_refl). left.
        - rewrite (Hread e eq_refl). left. }
      rewrite Ht in Hin. cbn [app] in Hin.
      assert (∀ ev, ev ∈ R ++ C ++ P ++ I → stage ev ≠ 0) as Hs.
      { intros ev. rewrite !elem_of_app. intros [Hev | [Hev | [Hev | Hev]]].
        - destruct HR as [-> | ->]; [by apply elem_of_nil in Hev|].
          by rewrite (read_events _ _ _ _ Hev).
        - destruct HC as [-> | (dset & _ & ->)];
            [by apply elem_of_nil in Hev|].
          by apply calculate_events in Hev as (b & l & i & -> & _).
        - destruct HP as [-> | (dset & otsfn & label & _ & _ & _ & ->)];
            [by apply elem_of_nil in Hev|].
          apply plot_events, drawing_stage in Hev. by rewrite Hev.
        - destruct HI
            as [-> | (? & ? & ? & ? & outdir & _ & _ & _ & _ & _ & ->)];
            [by apply elem_of_nil in Hev|].
          by apply list_elem_of_singleton in Hev as ->. }
      by apply (Hs _ Hin).
    + rewrite Hi. destruct (backend_length i) as [_ Hlen].
      rewrite Hlen. split; [by intros -> | by intros [= ->]].
Qed.

(** X23.  [run] calls the calculator only for one of the three basins and
    only with the pair of names that [read] stored as attributes of the
    dataset: the layer "z_l" with the interface "z_i", or the layer
    "rho2_l" with the interface "rho2_i". *)
Theorem run_calcmoc_arguments dictArgs b l i :
  Calcmoc b l i ∈ trace (run dictArgs) →
  b ∈ moc.basins
  ∧ ((l = PyStr "z_l" ∧ i = PyStr "z_i")
     ∨ (l = PyStr "rho2_l" ∧ i = PyStr "rho2_i")).
Proof.
  intros Hin.
  destruct (run_segments dictArgs)
    as (B & R & C & P & I & Ht & HB & HR & HC & HP & HI).
  rewrite Ht, !elem_of_app in Hin.
  destruct Hin as [Hev | [Hev | [Hev | [Hev | Hev]]]].
  - destruct HB as [-> | (o & _ & ->)]; [by apply elem_of_nil in Hev|].
    by apply backend_stage in Hev.
  - destruct HR as [-> | ->]; [by apply elem_of_nil in Hev|].
    by apply read_events in Hev.
  - destruct HC as [-> | (dset & Hr & ->)]; [by apply elem_of_nil in Hev|].
    apply calculate_events in Hev
      as (b' & l' & i' & [= <- <- <-] & Hb & Hl & Hi).
    split; [exact Hb|].
    apply (read_returns open_mfdataset horizontal_grid read_topography
             generate_basin_masks date_range) in Hr
      as (infile & ds & layer & iface & edges & bathy & depth & wet & zmod
          & _ & _ & Hlayer & Hiface & _ & _ & Hal & Hai & _).
    unfold xr.getattr_attrs in Hl, Hi. rewrite Hal in Hl. rewrite Hai in Hi.
    injection Hl as <-. injection Hi as <-.
    revert Hlayer Hiface. unfold moc.layer_of, moc.interface_of.
    destruct (xr.in_dims ds "z_l"); [intros [= <-] [= <-]; by left|].
    destruct (xr.in_dims ds "rho2_l"); [intros [= <-] [= <-]; by right|].
    done.
  - destruct HP as [-> | (dset & otsfn & label & _ & _ & _ & ->)];
      [by apply elem_of_nil in Hev|].
    by apply plot_events in Hev.
  - destruct HI as [-> | (? & ? & ? & ? & outdir & _ & _ & _ & _ & _ & ->)];
      [by apply elem_of_nil in Hev|].
    by apply list_elem_of_singleton in Hev.
Qed.

(** X24.  The image handler is called only for a finished figure: when
    its call is in the log of [run], reading, calculating and drawing have
    all returned, the options "label" and "outdir" are present, the call
    is for the directory of "outdir" and the file name "moc", and it is
    the last event of the log. *)
Theorem run_saves_finished_figure dictArgs outdir stem :
  ImageHandler outdir stem ∈ trace (run dictArgs) →
  stem = "moc"
  ∧ dictArgs !! "outdir" = Some outdir
  ∧ ∃ dset otsfn label fig t,
      outcome (read dictArgs "vmo" "umo") = Ok dset
      ∧ outcome (calculate dset) = Ok otsfn
      ∧ dictArgs !! "label" = Some label
      ∧ outcome (moc.plot dset otsfn label) = Ok fig
      ∧ trace (run dictArgs) = t ++ [ImageHandler outdir "moc"]
      ∧ outcome (run dictArgs) = image_handler dictArgs outdir "moc".
Proof.
  intros Hin.
  destruct (run_segments dictArgs)
    as (B & R & C & P & I & Ht & HB & HR & HC & HP & HI).
  pose proof Hin as Hev.
  rewrite Ht, !elem_of_app in Hev.
  destruct Hev as [Hev | [Hev | [Hev | [Hev | Hev]]]].
  - destruct HB as [-> | (o & _ & ->)]; [by apply elem_of_nil in Hev|].
    by apply backend_stage in Hev.
  - destruct HR as [-> | ->]; [by apply elem_of_nil in Hev|].
    by apply read_events in Hev.
  - destruct HC as [-> | (dset & Hr & ->)]; [by apply elem_of_nil in Hev|].
    by apply calculate_events in Hev as (b' & l' & i' & ? & _).
  - destruct HP as [-> | (dset & otsfn & label & _ & _ & _ & ->)];
      [by apply elem_of_nil in Hev|].
    by apply plot_events in Hev.
  - destruct HI
      as [-> | (dset & otsfn & label & fig & o & Hr & Hc & Hl & Hp & Ho & ->)];
      [by apply elem_of_nil in Hev|].
    apply list_elem_of_singleton in Hev as [= -> ->].
    split; [done|]. split; [exact Ho|].
    exists dset, otsfn, label, fig, (B ++ R ++ C ++ P).
    split_and!; try assumption.
    + rewrite Ht. by rewrite <- !app_assoc.
    + destruct (run_cases dictArgs) as [Hnone H].
      destruct (dictArgs !! "interactive") as [int|] eqn:Hi.
      * destruct (H int eq_refl) as [_ H1].
        destruct (H1 dset Hr) as [_ H2].
        destruct (H2 otsfn Hc) as [_ H3].
        destruct (H3 label Hl) as [_ H4].
        destruct (H4 fig Hp) as [_ H5].
        by rewrite (H5 o Ho).
      * rewrite (Hnone eq_refl) in Hin. by apply elem_of_nil in Hin.
Qed.

End Run.

(** X20 on the small ocean. *)
Lemma run_composes_witness :
  moc.run Sample.open_mfdataset Sample.horizontal_grid Sample.read_topography
    Sample.generate_basin_masks Sample.date_range Sample.calcmoc
    Sample.image_handler Sample.dictArgs
  = (backend (PyBool false)
       ++ trace (moc.read Sample.open_mfdataset Sample.horizontal_grid
                   Sample.read_topography Sample.generate_basin_masks
                   Sample.date_range Sample.dictArgs "vmo" "umo")
       ++ trace (moc.calculate Sample.calcmoc Sample.dset)
       ++ trace (moc.plot Sample.dset Sample.otsfn PyNone)
       ++ [ImageHandler (PyStr "out") "moc"],
     Sample.image_handler Sample.dictArgs (PyStr "out") "moc").
Proof.
  apply (run_composes Sample.open_mfdataset Sample.horizontal_grid
           Sample.read_topography Sample.generate_basin_masks
           Sample.date_range Sample.calcmoc Sample.image_handler
           Sample.dictArgs (PyBool false) Sample.dset Sample.otsfn PyNone Fig
           (PyStr "out")).
  - vm_compute. reflexivity.
  - vm_compute. reflexivity.
  - vm_compute. reflexivity.
  - vm_compute. reflexivity.
  - vm_compute. reflexivity.
  - vm_compute. reflexivity.
Defined.

(** X21 on the small ocean without the option "label": the data are read
    and the three basins calculated, and nothing is drawn. *)
Lemma run_stops_at_first_failure_witness :
  moc.run Sample.open_mfdataset Sample.horizontal_grid Sample.read_topography
    Sample.generate_basin_masks Sample.date_range Sample.calcmoc
    Sample.image_handler (delete "label" Sample.dictArgs)
  = (backend (PyBool false)
       ++ trace (moc.read Sample.open_mfdataset Sample.horizontal_grid
                   Sample.read_topography Sample.generate_basin_masks
                   Sample.date_range (delete "label" Sample.dictArgs)
                   "vmo" "umo")
       ++ trace (moc.calculate Sample.calcmoc Sample.dset),
     Raise (KeyError "label")).
Proof.
  destruct (run_stops_at_first_failure Sample.open_mfdataset
              Sample.horizontal_grid Sample.read_topography
              Sample.generate_basin_masks Sample.date_range Sample.calcmoc
              Sample.image_handler (delete "label" Sample.dictArgs))
    as [_ H].
  destruct (H (PyBool false) ltac:(vm_compute; reflexivity)) as [_ H1].
  destruct (H1 Sample.dset ltac:(vm_compute; reflexivity)) as [_ H2].
  destruct (H2 Sample.otsfn ltac:(vm_compute; reflexivity)) as [Hlabel _].
  apply Hlabel. vm_compute. reflexivity.
Defined.

(** X23 on the small ocean, read on depth levels: the first call of the
    calculator. *)
Lemma run_calcmoc_arguments_witness :
  "atl-arc" ∈ moc.basins
  ∧ ((PyStr "z_l" = PyStr "z_l" ∧ PyStr "z_i" = PyStr "z_i")
     ∨ (PyStr "z_l" = PyStr "rho2_l" ∧ PyStr "z_i" = PyStr "rho2_i")).
Proof.
  apply (run_calcmoc_arguments Sample.open_mfdataset Sample.horizontal_grid
           Sample.read_topography Sample.generate_basin_masks
           Sample.date_range Sample.calcmoc Sample.image_handler
           Sample.dictArgs).
  apply (list_elem_of_lookup_2 _ 7). vm_compute. reflexivity.
Defined.

(** X24 on the small ocean. *)
Lemma run_saves_finished_figure_witness :
  "moc" = "moc"
  ∧ Sample.dictArgs !! "outdir" = Some (PyStr "out")
  ∧ ∃ dset otsfn label fig t,
      outcome Sample.read = Ok dset
      ∧ outcome (moc.calculate Sample.calcmoc dset) = Ok otsfn
      ∧ Sample.dictArgs !! "label" = Some label
      ∧ outcome (moc.plot dset otsfn label) = Ok fig
      ∧ trace Sample.run = t ++ [ImageHandler (PyStr "out") "moc"]
      ∧ outcome Sample.run
        = Sample.image_handler Sample.dictArgs (PyStr "out") "moc".
Proof.
  apply (run_saves_finished_figure Sample.open_mfdataset
           Sample.horizontal_grid Sample.read_topography
           Sample.generate_basin_masks Sample.date_range Sample.calcmoc
           Sample.image_handler Sample.dictArgs).
  apply (list_elem_of_lookup_2 _ 62). vm_compute. reflexivity.
Defined.
